(** * twitter_k12_us_download: the download routines of [main.py]

    A shallow embedding of [main.py] and the properties of its pagination
    loop, handle resolver and batch driver. Embedded are the five
    functions [read_bearer_token], [look_up_twitter_acount_id],
    [get_most_recent_tweets_account], [download_and_save_account_tweets]
    and [extract_username_from_url], and the [__main__] block; the input
    file of the block is read by pandas and enters as its [link] column.

    Conventions of the embedding.
    - Python values that travel through the program (decoded JSON, the
      entries of the [PARAMS] dict) are the inductive type [value].
      JSON numbers are integers here: the program only compares a result
      count with [0] and converts a page size with [int].
    - A Python [str] is a [string]; its characters are code points below
      256, which is enough for every literal of the program.
    - The program's effects (HTTP requests, sleeps, prints, files, the
      clock) act on a [World]; a Python exception is a [Raise] result that
      keeps the effects made before it.
    - [requests], [json], [pandas] and [re] are libraries, not part of the
      program: the embedding gives the behaviour the program relies on
      and says so at each definition. *)

From Stdlib Require Import ZArith String Ascii List Lia.
From stdpp Require Import base gmap strings list pretty.

(** ** Python values *)

#[warnings="-register-all"]
Inductive value : Type :=
| VNone
| VBool (b : bool)
| VInt (z : Z)
| VStr (s : string)
| VList (items : list value)
| VDict (entries : list (string * value)).

(** A [dict] decoded from JSON keeps its entries in insertion order; a key
    is looked up from the front. *)
Fixpoint dict_get (k : string) (entries : list (string * value)) : option value :=
  match entries with
  | [] => None
  | (k', v) :: rest => if String.eqb k k' then Some v else dict_get k rest
  end.

Definition dict_has (k : string) (entries : list (string * value)) : bool :=
  match dict_get k entries with
  | Some _ => true
  | None => false
  end.

(** Python's [==] against an [int] literal: [bool] is a subclass of [int],
    every other type compares unequal. *)
Definition py_eq_int (v : value) (n : Z) : bool :=
  match v with
  | VInt z => Z.eqb z n
  | VBool b => Z.eqb (if b then 1 else 0)%Z n
  | _ => false
  end.

(** ** Exceptions and results *)

Inductive exn : Type :=
| NameError (name : string)
| UnboundLocalError (name : string)
| IndexError
| KeyError (key : string)
| TypeError
| AttributeError
| ValueError
| JSONDecodeError
| NotImplementedError
| Raised (class : string) (msg : string)
| OutOfFuel.

Inductive Res (A : Type) : Type :=
| Ok (a : A)
| Raise (e : exn).
Arguments Ok {A} a.
Arguments Raise {A} e.

(** ** Strings *)

Definition code (c : ascii) : N := N_of_ascii c.

Definition in_range (lo hi : N) (c : ascii) : bool :=
  (N.leb lo (code c) && N.leb (code c) hi)%bool.

(** [\w] of a Python 3 [str] pattern: alphanumeric or underscore. Below
    256 the alphanumeric code points are the ASCII ones and the letters
    and numerics of Latin-1. [\d] and [_] are contained in [\w]. *)
Definition is_word (c : ascii) : bool :=
  (in_range 48 57 c || in_range 65 90 c || N.eqb (code c) 95
   || in_range 97 122 c
   || N.eqb (code c) 170 || in_range 178 179 c || N.eqb (code c) 181
   || in_range 185 186 c || in_range 188 190 c
   || in_range 192 214 c || in_range 216 246 c || in_range 248 255 c)%bool.

Definition newline : ascii := ascii_of_N 10.

(** [re.match("^[\w\d_]*$", s)]: every character is a word character; [$]
    also matches just before one final newline. *)
Fixpoint re_match_user_name (s : string) : bool :=
  match s with
  | EmptyString => true
  | String c EmptyString => (is_word c || Ascii.eqb c newline)%bool
  | String c rest => (is_word c && re_match_user_name rest)%bool
  end.

(** [c in PERMITTED_CHARS] of [extract_username_from_url]. *)
Definition PERMITTED_CHARS : string :=
  "0123456789abcdefghijklmnopqrstuvwxyzABCDEFGHIJKLMNOPQRSTUVWXYZ_".

Fixpoint char_in (c : ascii) (s : string) : bool :=
  match s with
  | EmptyString => false
  | String c' rest => (Ascii.eqb c c' || char_in c rest)%bool
  end.

Fixpoint string_filter (p : ascii -> bool) (s : string) : string :=
  match s with
  | EmptyString => EmptyString
  | String c rest =>
      if p c then String c (string_filter p rest) else string_filter p rest
  end.

Fixpoint string_rev_onto (s acc : string) : string :=
  match s with
  | EmptyString => acc
  | String c rest => string_rev_onto rest (String c acc)
  end.

(** [s.split(sep)] for a non-empty separator: a left-to-right scan for
    non-overlapping occurrences. [skip] counts the characters of a matched
    separator still to be dropped, [cur] is the current piece, reversed. *)
Fixpoint split_scan (sep : string) (skip : nat) (cur : string) (s : string)
  : list string :=
  match s with
  | EmptyString => [string_rev_onto cur EmptyString]
  | String c rest =>
      match skip with
      | S n => split_scan sep n cur rest
      | O =>
          if String.prefix sep s
          then string_rev_onto cur EmptyString
                 :: split_scan sep (Nat.pred (String.length sep)) EmptyString rest
          else split_scan sep O (String c cur) rest
      end
  end.

Definition str_split (sep s : string) : list string :=
  split_scan sep O EmptyString s.

(** [extract_username_from_url], source lines 305-313. [str_split] never
    returns an empty list, so [[-1]] and [[0]] always succeed. *)
Definition extract_username_from_url (text : string) : string :=
  let text := List.last (str_split "twitter.com/" text) EmptyString in
  let text := List.hd EmptyString (str_split "/" text) in
  string_filter (fun char => char_in char PERMITTED_CHARS) text.

(** [int(x)] on a string, base 10: surrounding whitespace is dropped, one
    sign is allowed, digits may be grouped by single underscores. *)
Definition is_space (c : ascii) : bool :=
  (in_range 9 13 c || N.eqb (code c) 32 || N.eqb (code c) 133
   || N.eqb (code c) 160)%bool.

Fixpoint lstrip (s : string) : string :=
  match s with
  | EmptyString => EmptyString
  | String c rest => if is_space c then lstrip rest else s
  end.

Definition strip (s : string) : string :=
  string_rev_onto (lstrip (string_rev_onto (lstrip s) EmptyString)) EmptyString.

Definition digit_value (c : ascii) : option Z :=
  if in_range 48 57 c then Some (Z.of_N (code c) - 48)%Z else None.

Fixpoint parse_digits (acc : Z) (after_digit : bool) (s : string) : option Z :=
  match s with
  | EmptyString => if after_digit then Some acc else None
  | String c rest =>
      if Ascii.eqb c "_"%char
      then if after_digit then parse_digits acc false rest else None
      else match digit_value c with
           | Some d => parse_digits (10 * acc + d)%Z true rest
           | None => None
           end
  end.

Definition int_of_str (s : string) : option Z :=
  match strip s with
  | String "+"%char rest => parse_digits 0%Z false rest
  | String "-"%char rest => Z.opp <$> parse_digits 0%Z false rest
  | digits => parse_digits 0%Z false digits
  end.

(** The builtin [int]: identity on [int], 0 or 1 on [bool], parsing on
    [str] ([ValueError] when it fails), [TypeError] on the other types. *)
Definition py_int (v : value) : Res Z :=
  match v with
  | VInt z => Ok z
  | VBool b => Ok (if b then 1 else 0)%Z
  | VStr s => match int_of_str s with Some z => Ok z | None => Raise ValueError end
  | VNone | VList _ | VDict _ => Raise TypeError
  end.

(** ** Name resolution

    A name used in a function body is looked up, when the statement runs,
    among the module's global names and then among the builtins. The
    globals of [main.py] are its seven imports, its five functions and the
    variables of the [__main__] block; the builtins are those of CPython
    3.8 to 3.11. *)
Definition module_globals : list string :=
  [ "requests"; "time"; "glob"; "re"; "json"; "datetime"; "pd";
    "read_bearer_token"; "look_up_twitter_acount_id";
    "get_most_recent_tweets_account"; "download_and_save_account_tweets";
    "extract_username_from_url";
    "df"; "ALL_USERNAMES"; "downloaded_usernames"; "user" ].

Definition builtin_exceptions : list string :=
  [ "ArithmeticError"; "AssertionError"; "AttributeError"; "BaseException";
    "BlockingIOError"; "BrokenPipeError"; "BufferError"; "BytesWarning";
    "ChildProcessError"; "ConnectionAbortedError"; "ConnectionError";
    "ConnectionRefusedError"; "ConnectionResetError"; "DeprecationWarning";
    "EOFError"; "EnvironmentError"; "Exception"; "FileExistsError";
    "FileNotFoundError"; "FloatingPointError"; "FutureWarning";
    "GeneratorExit"; "IOError"; "ImportError"; "ImportWarning";
    "IndentationError"; "IndexError"; "InterruptedError";
    "BaseExceptionGroup"; "ExceptionGroup"; "EncodingWarning";
    "IsADirectoryError"; "KeyError"; "KeyboardInterrupt"; "LookupError";
    "MemoryError"; "ModuleNotFoundError"; "NameError"; "NotADirectoryError";
    "NotImplementedError"; "OSError"; "OverflowError";
    "PendingDeprecationWarning"; "PermissionError"; "ProcessLookupError";
    "RecursionError"; "ReferenceError"; "ResourceWarning"; "RuntimeError";
    "RuntimeWarning"; "StopAsyncIteration"; "StopIteration"; "SyntaxError";
    "SyntaxWarning"; "SystemError"; "SystemExit"; "TabError";
    "TimeoutError"; "TypeError"; "UnboundLocalError"; "UnicodeDecodeError";
    "UnicodeEncodeError"; "UnicodeError"; "UnicodeTranslateError";
    "UnicodeWarning"; "UserWarning"; "ValueError"; "Warning";
    "ZeroDivisionError" ].

Definition builtin_functions : list string :=
  [ "abs"; "aiter"; "all"; "anext"; "any"; "ascii"; "bin"; "bool"; "breakpoint"; "bytearray";
    "bytes"; "callable"; "chr"; "classmethod"; "compile"; "complex";
    "delattr"; "dict"; "dir"; "divmod"; "enumerate"; "eval"; "exec";
    "filter"; "float"; "format"; "frozenset"; "getattr"; "globals";
    "hasattr"; "hash"; "help"; "hex"; "id"; "input"; "int"; "isinstance";
    "issubclass"; "iter"; "len"; "list"; "locals"; "map"; "max";
    "memoryview"; "min"; "next"; "object"; "oct"; "open"; "ord"; "pow";
    "print"; "property"; "range"; "repr"; "reversed"; "round"; "set";
    "setattr"; "slice"; "sorted"; "staticmethod"; "str"; "sum"; "super";
    "tuple"; "type"; "vars"; "zip" ].

Definition builtin_constants : list string :=
  [ "True"; "False"; "None"; "Ellipsis"; "NotImplemented"; "__debug__";
    "copyright"; "credits"; "exit"; "license"; "quit" ].

Definition name_bound (name : string) : bool :=
  existsb (String.eqb name)
    (module_globals ++ builtin_exceptions ++ builtin_functions
     ++ builtin_constants).

(** ** The world the program acts on *)

(** A request as the server sees it: the URL, the query parameters that
    [prepare_url] merges into it (the URL encoding itself belongs to
    [requests]) and the session's [Authorization] header. *)
Record Request : Type := mkRequest {
  url : string;
  query : gmap string value;
  authorization : string
}.

(** A response: [status_code], and the value [json.loads] decodes from
    [content] ([None] when the body is not JSON). *)
Record Response : Type := mkResponse {
  status_code : Z;
  content : option value
}.

(** A row of a data frame is a flattened record: column name and cell. A
    data frame is the sequence of its rows; its columns are the names
    that occur in them. What pandas does across the rows of a frame is
    not part of the embedding: a cell that a row lacks is a missing
    value there, a column has one type for all its cells, and two cells
    of one name in a row are one cell. *)
Definition Row : Type := list (string * value).
Definition DataFrame : Type := list Row.

Inductive File : Type :=
| Text (s : string)
| Csv (df : DataFrame).

(** [server n r] is the answer to request [r] when [n] requests were made
    before it. [now] is what [datetime.datetime.now().strftime(...)]
    yields. The other fields are traces, oldest entry first, and the file
    system under the working directory (which is taken to hold a writable
    [data] directory). *)
Record World : Type := mkWorld {
  server : nat -> Request -> Response;
  now : string;
  sent : list Request;
  slept : list Z;
  stdout : list string;
  fs : gmap string File
}.

(** ** A state and exception monad *)

Definition M (S A : Type) : Type := S -> Res A * S.

#[global] Instance M_ret {S} : MRet (M S) := fun A a s => (Ok a, s).

#[global] Instance M_bind {S} : MBind (M S) :=
  fun A B k m s =>
    match m s with
    | (Ok a, s') => k a s'
    | (Raise e, s') => (Raise e, s')
    end.

Definition raise {S A} (e : exn) : M S A := fun s => (Raise e, s).

Definition lift {S A} (r : Res A) : M S A := fun s => (r, s).

Definition when {S} (b : bool) (m : M S unit) : M S unit :=
  if b then m else mret tt.

(** [raise ApiError(msg)]: the name [ApiError] is resolved first; only a
    bound name can be called with the message. *)
Definition raise_ApiError {S A} (msg : string) : M S A :=
  if name_bound "ApiError"
  then raise (Raised "ApiError" msg)
  else raise (NameError "ApiError").

(** *** Effects on the world *)

Definition session_get (r : Request) : M World Response := fun w =>
  (Ok (server w (length (sent w)) r),
   mkWorld (server w) (now w) (sent w ++ [r]) (slept w) (stdout w) (fs w)).

Definition time_sleep (secs : Z) : M World unit := fun w =>
  (Ok tt, mkWorld (server w) (now w) (sent w) (slept w ++ [secs]) (stdout w) (fs w)).

Definition print (line : string) : M World unit := fun w =>
  (Ok tt, mkWorld (server w) (now w) (sent w) (slept w) (stdout w ++ [line]) (fs w)).

Definition strftime_now : M World string := fun w => (Ok (now w), w).

(** [open(path, 'a').close()]: creates an empty file, keeps an existing one. *)
Definition open_append_close (path : string) : M World unit := fun w =>
  (Ok tt,
   mkWorld (server w) (now w) (sent w) (slept w) (stdout w)
     (match fs w !! path with
      | Some _ => fs w
      | None => <[path := Text EmptyString]> (fs w)
      end)).

(** [df.to_csv(path, index=False)]: the file now holds the frame. *)
Definition to_csv (df : DataFrame) (path : string) : M World unit := fun w =>
  (Ok tt,
   mkWorld (server w) (now w) (sent w) (slept w) (stdout w)
     (<[path := Csv df]> (fs w))).

(** *** The caller's PARAMS dict

    [PARAMS] is a dict object shared with the caller and updated in
    place: the pagination routine runs on the pair of that dict and the
    world, and hands both back. *)
Definition Frame : Type := gmap string value * World.

Definition in_world {A} (m : M World A) : M Frame A := fun '(P, w) =>
  let '(r, w') := m w in (r, (P, w')).

Definition PARAMS_read : M Frame (gmap string value) := fun '(P, w) =>
  (Ok P, (P, w)).

Definition PARAMS_setitem (k : string) (v : value) : M Frame unit := fun '(P, w) =>
  (Ok tt, (<[k := v]> P, w)).

(** *** Operations on values *)

(** [json.loads(req.content)] *)
Definition json_loads (body : option value) : Res value :=
  match body with
  | Some v => Ok v
  | None => Raise JSONDecodeError
  end.

(** [v[k]] for a string [k]. *)
Definition getitem (v : value) (k : string) : Res value :=
  match v with
  | VDict entries =>
      match dict_get k entries with
      | Some x => Ok x
      | None => Raise (KeyError k)
      end
  | _ => Raise TypeError
  end.

Fixpoint string_nth (n : nat) (s : string) : option ascii :=
  match s, n with
  | EmptyString, _ => None
  | String c _, O => Some c
  | String _ rest, S n' => string_nth n' rest
  end.

(** [s[n]] on a string: a string of one character. *)
Definition str_index (s : string) (n : nat) : Res string :=
  match string_nth n s with
  | Some c => Ok (String c EmptyString)
  | None => Raise IndexError
  end.

(** [s[1:]] *)
Definition str_from_1 (s : string) : string :=
  match s with
  | EmptyString => EmptyString
  | String _ rest => rest
  end.

#[global] Instance Res_fmap : FMap Res := fun A B f r =>
  match r with
  | Ok a => Ok (f a)
  | Raise e => Raise e
  end.

(** [v[n]] for a non-negative integer [n]. *)
Definition getitem_index (v : value) (n : nat) : Res value :=
  match v with
  | VList items =>
      match nth_error items n with
      | Some x => Ok x
      | None => Raise IndexError
      end
  | VStr s => VStr <$> str_index s n
  | VDict _ => Raise (KeyError (pretty n))
  | _ => Raise TypeError
  end.

(** [k in v.keys()] *)
Definition in_keys (k : string) (v : value) : Res bool :=
  match v with
  | VDict entries => Ok (dict_has k entries)
  | _ => Raise AttributeError
  end.

(** Reading a local variable that may not have been assigned yet. *)
Definition load_local {A} (name : string) (x : option A) : Res A :=
  match x with
  | Some a => Ok a
  | None => Raise (UnboundLocalError name)
  end.

(** *** pandas *)

(** The flattening of [pandas.json_normalize], as pandas 1.5 does it for
    the call of the program (the path of [_simple_json_normalize]).

    [flatten] is [_normalise_json]: the cells of a value under the name
    [key_string]. The path to an entry of a nested object becomes a
    dotted name, every other value (lists included) is a cell; the
    entries of an object are taken in the order of its keys, depth
    first. *)
Definition child_key (key_string key : string) : string :=
  if String.eqb key_string EmptyString then key
  else key_string +:+ "." +:+ key.

Fixpoint flatten (key_string : string) (v : value) {struct v} : Row :=
  match v with
  | VDict entries =>
      (fix over (es : list (string * value)) : Row :=
         match es with
         | [] => []
         | (k, x) :: rest => flatten (child_key key_string k) x ++ over rest
         end) entries
  | _ => [(key_string, v)]
  end.

Definition is_object (v : value) : bool :=
  match v with
  | VDict _ => true
  | _ => false
  end.

Definition is_list (v : value) : bool :=
  match v with
  | VList _ => true
  | _ => false
  end.

(** The row of one record, [_normalise_json_ordered]: first the entries
    of the record that are no objects, in the order of the keys, then
    the cells of its nested objects. An entry of the record list that is
    no object gives a row without cells. *)
Definition normalise_record (record : value) : Row :=
  match record with
  | VDict entries =>
      List.filter (fun e => negb (is_object e.2)) entries
      ++ flatten EmptyString
           (VDict (List.filter (fun e => is_object e.2) entries))
  | _ => []
  end.

(** [pd.json_normalize(data)]: one row per entry of a list, in the order
    of the list; a single dict is one record; a string or a value that
    cannot be iterated is refused. A list among the entries makes the
    frame constructor ask a list for its [keys], an [AttributeError];
    pandas does so unless that list is the first entry, where it fills
    the frame by position, and there the embedding does not follow it. *)
Definition json_normalize (data : value) : Res DataFrame :=
  match data with
  | VList items =>
      if existsb is_list items
      then Raise AttributeError
      else Ok (map normalise_record items)
  | VDict _ => Ok [normalise_record data]
  | _ => Raise NotImplementedError
  end.

(** [df.append(other)]: the rows of [df], then the rows of [other]. *)
Definition df_append (df other : DataFrame) : DataFrame := df ++ other.

(** ** [look_up_twitter_acount_id], source lines 34-91 *)

Definition lookup_url (user_name : string) : string :=
  "https://api.twitter.com/2/users/by?usernames=" +:+ user_name.

Definition bearer (BEARER_TOKEN : string) : string :=
  "Bearer " +:+ BEARER_TOKEN.

Definition look_up_twitter_acount_id (BEARER_TOKEN user_name : string)
  : M World value :=
  (* if (user_name[0] == "@"): user_name = user_name[1:] *)
  first ← lift (str_index user_name 0);
  let user_name :=
    if String.eqb first "@" then str_from_1 user_name else user_name in
  (* if not re.match("^[\w\d_]*$", user_name): raise ApiError(...) *)
  (if negb (re_match_user_name user_name)
   then raise_ApiError "The user name you requested seems to be malformed."
   else mret tt);;
  req ← session_get (mkRequest (lookup_url user_name) ∅ (bearer BEARER_TOKEN));
  time_sleep 3;;
  (if negb (Z.eqb (status_code req) 200)
   then raise_ApiError ("There was an error sending the request. Status code "
                        +:+ pretty (status_code req))
   else mret tt);;
  page ← lift (json_loads (content req));
  data ← lift (getitem page "data");
  entry ← lift (getitem_index data 0);
  twitter_id ← lift (getitem entry "id");
  mret twitter_id.

(** ** [get_most_recent_tweets_account], source lines 93-224 *)

Definition timeline_url (ACCOUNT_ID : string) : string :=
  "https://api.twitter.com/2/users/" +:+ ACCOUNT_ID +:+ "/tweets".

(** The checks of lines 146-152. *)
Definition check_PARAMS : M Frame unit :=
  PARAMS ← PARAMS_read;
  (if bool_decide (is_Some (PARAMS !! "pagination_token"))
   then raise_ApiError ("The parsed query parameters included a pagination "
                        +:+ "token. Check your PARAMS argument.")
   else mret tt);;
  malformed ←
    match PARAMS !! "max_results" with
    | None => mret true
    | Some v => n ← lift (py_int v); mret (negb (Z.eqb n 100))
    end;
  if malformed : bool
  then raise_ApiError ("Please ensure that you parse max_results: 100 to "
                       +:+ "your requests parameters.")
  else mret tt.

(** How one pass through the loop body ends: a [return] from inside the
    loop, a [break], or the end of the body, after which [request_count]
    is one higher. The local variable [df] is carried along; [None] is
    the state before its first assignment. *)
Inductive control : Type :=
| Return (result : DataFrame)
| Break (df : option DataFrame)
| Next (df : option DataFrame).

Section Pagination.

Variables (ACCOUNT_ID BEARER_TOKEN : string).
Variables (verbose save_file : bool) (file_reference : string).

Definition found_all (request_count : nat) : string :=
  "All tweets for " +:+ ACCOUNT_ID +:+ " found after "
  +:+ pretty (request_count + 1)%nat +:+ " API calls.".

(** The loop body after the request is made, lines 164-212. *)
Definition process (req : Response) (request_count : nat)
    (df : option DataFrame) : M Frame control :=
  in_world (time_sleep 1);;
  (if negb (Z.eqb (status_code req) 200)
   then raise_ApiError ("There was an error sending request "
                        +:+ pretty (request_count + 1)%nat
                        +:+ ". Status code " +:+ pretty (status_code req))
   else mret tt);;
  page ← lift (json_loads (content req));
  meta ← lift (getitem page "meta");
  result_count ← lift (getitem meta "result_count");
  if (py_eq_int result_count 0 && Nat.eqb request_count 0)%bool
  then
    in_world (when verbose
      (print ("No results found for " +:+ file_reference
              +:+ "! Returning empty data frame.")));;
    in_world (when save_file
      (print ("Note: Results will not be written to a "
              +:+ "timestamped file but an empty file will "
              +:+ "be created for future reference.");;
       open_append_close ("data/" +:+ file_reference +:+ "_2021_empty.csv")));;
    mret (Return [])
  else
    has_data ← lift (in_keys "data" page);
    if negb has_data
    then
      in_world (when verbose (print (found_all request_count)));;
      mret (Break df)
    else
      df ←
        (if Nat.eqb request_count 0
         then
           data ← lift (getitem page "data");
           lift (json_normalize data)
         else
           old ← lift (load_local "df" df);
           data ← lift (getitem page "data");
           rows ← lift (json_normalize data);
           mret (df_append old rows));
      meta ← lift (getitem page "meta");
      has_token ← lift (in_keys "next_token" meta);
      if negb has_token
      then
        in_world (when verbose (print (found_all request_count)));;
        mret (Break (Some df))
      else
        meta ← lift (getitem page "meta");
        NEXT_TOKEN ← lift (getitem meta "next_token");
        PARAMS_setitem "pagination_token" NEXT_TOKEN;;
        in_world (when verbose
          (print ("Request " +:+ pretty (request_count + 1)%nat
                  +:+ " successful. Sleeping 1 "
                  +:+ "second and paginating.")));;
        mret (Next (Some df)).

Definition timeline_request (PARAMS : gmap string value) : Request :=
  mkRequest (timeline_url ACCOUNT_ID) PARAMS (bearer BEARER_TOKEN).

(** The loop body, lines 161-212: [prepare_url] on the current
    [PARAMS], [s.get], and the rest. *)
Definition iteration (request_count : nat) (df : option DataFrame)
  : M Frame control :=
  PARAMS ← PARAMS_read;
  req ← in_world (session_get (timeline_request PARAMS));
  process req request_count df.

(** [while (request_count < 32)], line 160. The result is [inl] for a
    [return] inside the loop and [inr] with the local [df] when the
    loop is left. [fuel] bounds the number of passes. *)
Fixpoint while_loop (fuel : nat) (request_count : nat) (df : option DataFrame)
  : M Frame (DataFrame + option DataFrame) :=
  match fuel with
  | O => raise OutOfFuel
  | S fuel' =>
      if Nat.ltb request_count 32
      then
        c ← iteration request_count df;
        match c with
        | Return result => mret (inl result)
        | Break df => mret (inr df)
        | Next df => while_loop fuel' (S request_count) df
        end
      else mret (inr df)
  end.

(** Lines 214-224, after the loop. *)
Definition after_loop (df : option DataFrame) : M World DataFrame :=
  when verbose
    (print ("All most recent for account " +:+ file_reference
            +:+ " downloaded."));;
  when save_file
    (stamp ← strftime_now;
     let fn := "data/" +:+ file_reference +:+ "_" +:+ stamp +:+ ".csv" in
     print ("Saving file to " +:+ fn);;
     frame ← lift (load_local "df" df);
     to_csv frame fn);;
  lift (load_local "df" df).

Definition pagination_routine : M Frame DataFrame :=
  check_PARAMS;;
  r ← while_loop 33 0 None;
  match r with
  | inl result => mret result
  | inr df => in_world (after_loop df)
  end.

End Pagination.

(** The function: its outcome, the caller's [PARAMS] dict as the call
    leaves it, and the world after the call. *)
Definition get_most_recent_tweets_account
    (ACCOUNT_ID BEARER_TOKEN : string) (PARAMS : gmap string value)
    (verbose save_file : bool) (file_reference : string) (w : World)
  : Res DataFrame * (gmap string value * World) :=
  pagination_routine ACCOUNT_ID BEARER_TOKEN verbose save_file file_reference
    (PARAMS, w).

(** ** The [__main__] block, lines 316-319 *)

(** [pd.unique]: first occurrences, in order. *)
Fixpoint unique (seen l : list string) : list string :=
  match l with
  | [] => []
  | x :: rest =>
      if bool_decide (x ∈ seen) then unique seen rest
      else x :: unique (x :: seen) rest
  end.

(** [f.split('/')[1].split('_2021')[0]] *)
Definition downloaded_username (f : string) : Res string :=
  match nth_error (str_split "/" f) 1 with
  | Some name => Ok (List.hd EmptyString (str_split "_2021" name))
  | None => Raise IndexError
  end.

Fixpoint map_res {A B} (f : A -> Res B) (l : list A) : Res (list B) :=
  match l with
  | [] => Ok []
  | x :: rest =>
      match f x with
      | Ok y =>
          match map_res f rest with
          | Ok ys => Ok (y :: ys)
          | Raise e => Raise e
          end
      | Raise e => Raise e
      end
  end.

(** [ALL_USERNAMES] as the [for] loop of line 322 iterates it: [links]
    is the [link] column of the input file, [csv_files] the result of
    [glob.glob('data/*.csv')]. *)
Definition ALL_USERNAMES (links csv_files : list string) : Res (list string) :=
  let all := unique [] (map extract_username_from_url links) in
  match map_res downloaded_username csv_files with
  | Ok downloaded_usernames =>
      Ok (filter (fun u => (u ∉ downloaded_usernames) ∧ (u ≠ EmptyString)) all)
  | Raise e => Raise e
  end.


(** * Vocabulary of the properties *)

(** ** Pages

    What the loop body reads off a response: the result count, the rows
    of the record list when there is one, and the continuation token when
    there is one. A response that is not a 200 with a JSON object holding
    a [meta] object with a [result_count], or whose record list cannot be
    normalised, is not a page. *)
Record Page : Type := mkPage {
  result_count : value;
  records : option DataFrame;
  next_token : option value
}.

Definition read_page (resp : Response) : option Page :=
  if Z.eqb (status_code resp) 200 then
    match content resp with
    | Some (VDict page) =>
        match dict_get "meta" page with
        | Some (VDict meta) =>
            match dict_get "result_count" meta with
            | Some count =>
                match dict_get "data" page with
                | None => Some (mkPage count None (dict_get "next_token" meta))
                | Some data =>
                    match json_normalize data with
                    | Ok rows =>
                        Some (mkPage count (Some rows) (dict_get "next_token" meta))
                    | Raise _ => None
                    end
                end
            | None => None
            end
        | _ => None
        end
    | _ => None
    end
  else None.

(** The test of line 175. *)
Definition first_empty (count : value) (request_count : nat) : bool :=
  (py_eq_int count 0 && Nat.eqb request_count 0)%bool.

(** [PARAMS] that pass the checks of lines 146-152. *)
Definition valid_PARAMS (PARAMS : gmap string value) : Prop :=
  PARAMS !! "pagination_token" = None ∧
  ∃ v, PARAMS !! "max_results" = Some v ∧ py_int v = Ok 100%Z.

(** [PARAMS] that violate them. *)
Definition invalid_PARAMS (PARAMS : gmap string value) : Prop :=
  is_Some (PARAMS !! "pagination_token") ∨
  PARAMS !! "max_results" = None ∨
  ∃ v, PARAMS !! "max_results" = Some v ∧ py_int v ≠ Ok 100%Z.

(** The world after the requests [reqs], each followed by a sleep of one
    second, with [out] printed and [files] on disk. *)
Definition after_requests (w : World) (reqs : list Request)
    (out : list string) (files : gmap string File) : World :=
  mkWorld (server w) (now w) (sent w ++ reqs)
    (slept w ++ ((fun _ => 1%Z) <$> reqs)) (stdout w ++ out) files.

(** A page of a run that goes on: its result count, rows and token. *)
Definition Followed : Type := value * DataFrame * value.

Definition rows_of (pages : list Followed) : DataFrame :=
  concat (map (fun p => p.1.2) pages).

Definition PARAMS_after (PARAMS : gmap string value) (pages : list Followed)
  : gmap string value :=
  foldl (fun P p => <["pagination_token" := p.2]> P) PARAMS pages.

(** [df] holds the rows [d] accumulated so far: nothing before the first
    pass, an assigned frame afterwards. *)
Definition df_ok (request_count : nat) (df : option DataFrame) (d : DataFrame)
  : Prop :=
  (request_count = 0 ∧ d = []) ∨ (request_count ≠ 0 ∧ df = Some d).

(** Exceptions that Python itself raises, as opposed to an instance of a
    class of the program and to the embedding's fuel bound. *)
Definition python_exn (e : exn) : Prop :=
  match e with
  | Raised _ _ | OutOfFuel => False
  | _ => True
  end.

(** [m] relates every state to the one it leaves by [R], and raises only
    exceptions in [E]. *)
Definition holds {S A} (R : S → S → Prop) (E : exn → Prop) (m : M S A) : Prop :=
  ∀ s, R s (m s).2 ∧ ∀ e, (m s).1 = Raise e → E e.

(** What no part of the routine changes: the server, the clock, every
    entry of [PARAMS] but the pagination token, and the presence of the
    token once it is set. *)
Definition steady (s s' : Frame) : Prop :=
  server s'.2 = server s.2 ∧ now s'.2 = now s.2 ∧
  (∀ k, k ≠ "pagination_token" → s'.1 !! k = s.1 !! k) ∧
  (is_Some (s.1 !! "pagination_token") → is_Some (s'.1 !! "pagination_token")).

(** [steady], and no request made. *)
Definition quiet (s s' : Frame) : Prop :=
  steady s s' ∧ sent s'.2 = sent s.2.

Section Runs.

Variables (ACCOUNT_ID BEARER_TOKEN : string).

(** The server answers the requests of a run that starts at pass
    [request_count], as request number [n], with [PARAMS], by the pages
    [pages], each with a record list and a token: every request carries
    the token of the page before it. *)
Fixpoint continuing (srv : nat → Request → Response) (request_count n : nat)
    (PARAMS : gmap string value) (pages : list Followed) : Prop :=
  match pages with
  | [] => True
  | (count, rows, token) :: rest =>
      read_page (srv n (timeline_request ACCOUNT_ID BEARER_TOKEN PARAMS))
        = Some (mkPage count (Some rows) (Some token)) ∧
      first_empty count request_count = false ∧
      continuing srv (S request_count) (S n)
        (<["pagination_token" := token]> PARAMS) rest
  end.

(** The requests of such a run. *)
Fixpoint requests_of (PARAMS : gmap string value) (pages : list Followed)
  : list Request :=
  match pages with
  | [] => []
  | p :: rest =>
      timeline_request ACCOUNT_ID BEARER_TOKEN PARAMS
        :: requests_of (<["pagination_token" := p.2]> PARAMS) rest
  end.

End Runs.

(** The timestamped file of line 219 and the marker file of line 183. *)
Definition timestamped (file_reference : string) (w : World) : string :=
  "data/" +:+ file_reference +:+ "_" +:+ now w +:+ ".csv".

Definition empty_marker (file_reference : string) : string :=
  "data/" +:+ file_reference +:+ "_2021_empty.csv".

Definition touched (path : string) (files : gmap string File) : gmap string File :=
  match files !! path with
  | Some _ => files
  | None => <[path := Text EmptyString]> files
  end.

(** What [print], [time.sleep] and file writes leave alone. *)
Definition offline (w w' : World) : Prop :=
  server w' = server w ∧ now w' = now w ∧ sent w' = sent w.

(** A page of the run from [w] to [w']: the answer to one of the requests
    made in between. *)
Definition fetched_page (w w' : World) (pg : Page) : Prop :=
  ∃ i req, length (sent w) ≤ i ∧ sent w' !! i = Some req ∧
           read_page (server w i req) = Some pg.

(** The exception that ends the checks of lines 146-152 on [PARAMS] that
    violate them. *)
Definition rejection (PARAMS : gmap string value) : exn :=
  match PARAMS !! "pagination_token", PARAMS !! "max_results" with
  | Some _, _ | None, None => NameError "ApiError"
  | None, Some v =>
      match py_int v with
      | Ok _ => NameError "ApiError"
      | Raise e => e
      end
  end.

(** The user name after lines 69-70, for a non-empty handle. *)
Definition without_at (user_name : string) : string :=
  match user_name with
  | String "@"%char rest => rest
  | _ => user_name
  end.

Definition lookup_request (BEARER_TOKEN user_name : string) : Request :=
  mkRequest (lookup_url user_name) ∅ (bearer BEARER_TOKEN).

Fixpoint all_chars (p : ascii → bool) (s : string) : bool :=
  match s with
  | EmptyString => true
  | String c rest => (p c && all_chars p rest)%bool
  end.

(** ** Example inputs *)

(** The [PARAMS] of [download_and_save_account_tweets], lines 271-297. *)
Definition study_PARAMS : gmap string value :=
  <["max_results" := VStr "100"]>
  (<["tweet.fields" := VStr
       ("attachments,author_id,context_annotations,conversation_id,"
        +:+ "created_at,entities,geo,id,in_reply_to_user_id,lang,"
        +:+ "public_metrics,"
        +:+ "possibly_sensitive,referenced_tweets,"
        +:+ "reply_settings,source,text,withheld")]>
  (<["user.fields" := VStr
       ("created_at,description,entities,id,location,name,"
        +:+ "pinned_tweet_id,profile_image_url,protected,public_metrics,"
        +:+ "url,username,verified,withheld")]>
  (<["expansions" := VStr
       ("attachments.poll_ids,attachments.media_keys,"
        +:+ "author_id,entities.mentions.username,geo.place_id,"
        +:+ "in_reply_to_user_id,referenced_tweets.id,"
        +:+ "referenced_tweets.id.author_id")]>
  (<["media.fields" := VStr
       ("duration_ms,height,media_key,preview_image_url,type,"
        +:+ "url,width,"
        +:+ "public_metrics,"
        +:+ "alt_text")]>
  (<["place.fields" := VStr
       ("contained_within,country,country_code,full_name,"
        +:+ "geo,id,name,place_type")]>
  (<["poll.fields" := VStr "duration_minutes,end_datetime,id,options,voting_status"]>
   ∅)))))).

Definition tweet (id text : string) (likes : Z) : value :=
  VDict [("id", VStr id); ("text", VStr text);
         ("public_metrics", VDict [("like_count", VInt likes)])].

Definition timeline_page (count : Z) (data : option (list value))
    (token : option string) : value :=
  VDict
    (match data with Some d => [("data", VList d)] | None => [] end
     ++ [("meta",
          VDict (("result_count", VInt count)
                 :: match token with
                    | Some t => [("next_token", VStr t)]
                    | None => []
                    end))]).

Definition ok (body : value) : Response := mkResponse 200 (Some body).

Definition example_world (srv : nat → Request → Response) : World :=
  mkWorld srv "2021-11-30_12:00:00" [] [] [] ∅.

(** A server that answers the [n]-th request by the [n]-th response of a
    script, and by a 503 after its end. *)
Definition scripted (responses : list Response) : nat → Request → Response :=
  fun n _ => nth n responses (mkResponse 503 None).

(** A timeline of three tweets on two pages: the second page is served
    for the token of the first. *)
Definition first_page : value :=
  timeline_page 2 (Some [tweet "3" "c" 0; tweet "2" "b" 5]) (Some "7140w").

Definition second_page : value :=
  timeline_page 1 (Some [tweet "1" "a" 1]) None.

Definition two_pages : nat → Request → Response :=
  fun _ req =>
    match query req !! "pagination_token" with
    | None => ok first_page
    | Some (VStr "7140w") => ok second_page
    | Some _ => mkResponse 400 None
    end.

(** A timeline without end: every page has one tweet and a token. *)
Definition endless_page : value :=
  timeline_page 1 (Some [tweet "9" "again" 0]) (Some "more").

Definition endless : nat → Request → Response := fun _ _ => ok endless_page.

(** An empty timeline, and an empty page that still has a token. *)
Definition no_tweets : nat → Request → Response :=
  scripted [ok (timeline_page 0 None None)].

Definition no_tweets_but_token : nat → Request → Response :=
  scripted [ok (timeline_page 0 None (Some "7140w"))].

(** A first page that counts a result and has no record list. *)
Definition count_without_data : nat → Request → Response :=
  scripted [ok (timeline_page 1 None None)].

(** The lookup endpoint for the handle [nhsuk]. *)
Definition lookup_server : nat → Request → Response :=
  fun _ req =>
    if String.eqb (url req) (lookup_url "nhsuk")
    then ok (VDict [("data", VList [VDict [("id", VStr "37963496");
                                           ("name", VStr "NHS");
                                           ("username", VStr "nhsuk")]])])
    else mkResponse 400 None.

(** The rows that [json_normalize] makes of these tweets. *)
Definition tweet_row (id text : string) (likes : Z) : Row :=
  [("id", VStr id); ("text", VStr text);
   ("public_metrics.like_count", VInt likes)].

Definition endless_pages : list Followed :=
  replicate 32 (VInt 1, [tweet_row "9" "again" 0], VStr "more").

(** * The rest of the program *)

(** ** [read_bearer_token], source lines 9-32 *)

(** [c.isspace()] below 256: what [str.strip] removes. *)
Definition py_isspace (c : ascii) : bool :=
  (in_range 9 13 c || in_range 28 32 c || N.eqb (code c) 133
   || N.eqb (code c) 160)%bool.

Fixpoint str_lstrip (s : string) : string :=
  match s with
  | EmptyString => EmptyString
  | String c rest => if py_isspace c then str_lstrip rest else s
  end.

(** [s.strip()] *)
Definition str_strip (s : string) : string :=
  string_rev_onto (str_lstrip (string_rev_onto (str_lstrip s) EmptyString))
    EmptyString.

(** A file opened in text mode ends a line at a line feed and at a
    carriage return, and hands either on as a line feed. *)
Definition is_line_break (c : ascii) : bool :=
  (N.eqb (code c) 10 || N.eqb (code c) 13)%bool.

(** The first line that iterating over the file yields, with its line
    break if it has one. *)
Fixpoint first_line (text : string) : string :=
  match text with
  | EmptyString => EmptyString
  | String c rest =>
      if is_line_break c then String newline EmptyString
      else String c (first_line rest)
  end.

(** The function reads the file and changes nothing. For a file without
    a line the loop body never runs, and [BEARER_TOKEN] is unbound at
    the [return]. The result is [None] where the embedding ends: [open]
    raises an [OSError], which [exn] does not have, when there is no
    file at [file_path], and the text of a frame that [to_csv] wrote is
    not modelled. *)
Definition read_bearer_token (file_path : string) (w : World)
  : option (Res string) :=
  match fs w !! file_path with
  | Some (Text text) =>
      Some match text with
           | EmptyString => Raise (UnboundLocalError "BEARER_TOKEN")
           | _ => Ok (str_strip (first_line text))
           end
  | _ => None
  end.

(** ** [download_and_save_account_tweets], source lines 226-303 *)

(** The identifier as the f-strings of lines 157, 188 and 201 format it,
    for the values whose [str] the embedding has. *)
Definition format_value (v : value) : option string :=
  match v with
  | VStr s => Some s
  | VInt z => Some (pretty z)
  | VBool b => Some (if b then "True" else "False")
  | VNone => Some "None"
  | VList _ | VDict _ => None
  end.

(** The wrapper: its outcome and the world after it. [PARAMS] is a new
    dict in every call, the one of [study_PARAMS]. [None] is an outcome
    outside the embedding, see [read_bearer_token] and [format_value]. *)
Definition download_and_save_account_tweets
    (token_file_path user_name : string) (verbose save_file : bool) (w : World)
  : option (Res DataFrame * World) :=
  match read_bearer_token token_file_path w with
  | None => None
  | Some (Raise e) => Some (Raise e, w)
  | Some (Ok BEARER_TOKEN) =>
      match look_up_twitter_acount_id BEARER_TOKEN user_name w with
      | (Raise e, w) => Some (Raise e, w)
      | (Ok TWITTER_USER_ID, w) =>
          match format_value TWITTER_USER_ID with
          | None => None
          | Some ACCOUNT_ID =>
              let PARAMS := study_PARAMS in
              let '(df, (_, w)) :=
                get_most_recent_tweets_account ACCOUNT_ID BEARER_TOKEN PARAMS
                  verbose save_file user_name w in
              Some (df, w)
          end
      end
  end.

(** ** The [__main__] block, source lines 316-326 *)

Fixpoint string_drop (n : nat) (s : string) : string :=
  match n, s with
  | S n', String _ rest => string_drop n' rest
  | _, _ => s
  end.

Definition ends_with (suffix s : string) : bool :=
  String.eqb (string_drop (String.length s - String.length suffix) s) suffix.

(** A path that [glob.glob('data/*.csv')] lists: a file of the directory
    [data] whose name ends in [.csv] and does not start with a dot. *)
Definition is_data_csv (path : string) : bool :=
  match str_split "/" path with
  | [dir; name] =>
      (String.eqb dir "data" && ends_with ".csv" name
       && negb (String.prefix "." name))%bool
  | _ => false
  end.

(** [glob.glob('data/*.csv')]; the order of the list is the file
    system's. *)
Definition glob_data_csv (w : World) : list string :=
  filter (fun path => is_data_csv path = true) (map fst (map_to_list (fs w))).

(** The loop of lines 322-326: the first download that raises ends
    it. *)
Fixpoint download_all (users : list string) (w : World)
  : option (Res unit * World) :=
  match users with
  | [] => Some (Ok tt, w)
  | user :: rest =>
      let w := (print (String newline ("### Downloading " +:+ user +:+ " ...###"
                                       +:+ String newline EmptyString)) w).2 in
      match download_and_save_account_tweets "bearer_token.txt" user true true w with
      | None => None
      | Some (Raise e, w) => Some (Raise e, w)
      | Some (Ok _, w) => download_all rest w
      end
  end.

(** The block, lines 316-326, with the [link] column of the input file
    as [links]. *)
Definition main (links : list string) (w : World) : option (Res unit * World) :=
  match ALL_USERNAMES links (glob_data_csv w) with
  | Raise e => Some (Raise e, w)
  | Ok users =>
      let w := (print ("Downloading " +:+ pretty (length users) +:+ " users...")
                  w).2 in
      download_all users w
  end.

(** * Vocabulary of the further properties *)

(** ** Strings *)

Definition permitted (c : ascii) : bool := char_in c PERMITTED_CHARS.

(** [sep in s] *)
Fixpoint occurs (sep s : string) : bool :=
  (String.prefix sep s
   || match s with
      | EmptyString => false
      | String _ rest => occurs sep rest
      end)%bool.

(** No end of [sep] is a beginning of [sep]: two occurrences of [sep]
    cannot overlap. *)
Definition unbordered (sep : string) : bool :=
  forallb (fun k => negb (String.prefix (string_drop k sep) sep))
    (seq 1 (String.length sep - 1)).

(** No occurrence of [sep] starts within [a] when [tail] follows it. *)
Fixpoint misses (sep a tail : string) : bool :=
  match a with
  | EmptyString => true
  | String _ rest =>
      (negb (String.prefix sep (a +:+ tail)) && misses sep rest tail)%bool
  end.

(** White space within a line, and the characters of a token. *)
Definition blank (c : ascii) : bool :=
  (py_isspace c && negb (is_line_break c))%bool.

Definition no_space (c : ascii) : bool := negb (py_isspace c).

(** ** The resolver *)

(** The world after the lookup of [user_name]: one request and the sleep
    of line 81. *)
Definition after_lookup (w : World) (BEARER_TOKEN user_name : string) : World :=
  mkWorld (server w) (now w)
    (sent w ++ [lookup_request BEARER_TOKEN user_name])
    (slept w ++ [3%Z]) (stdout w) (fs w).

(** What the resolver does with the answer, lines 83-91. *)
Definition read_id (req : Response) : M World value :=
  (if negb (Z.eqb (status_code req) 200)
   then raise_ApiError ("There was an error sending the request. Status code "
                        +:+ pretty (status_code req))
   else mret tt);;
  page ← lift (json_loads (content req));
  data ← lift (getitem page "data");
  entry ← lift (getitem_index data 0);
  twitter_id ← lift (getitem entry "id");
  mret twitter_id.

(** ** The effects of the pagination routine *)

(** Paths of the shape [data/<reference>_<stamp>.csv]. *)
Definition output_file (file_reference path : string) : Prop :=
  ∃ stamp, path = "data/" +:+ file_reference +:+ "_" +:+ stamp +:+ ".csv".

(** What the routine does besides its requests and sleeps: it prints
    only when asked to print or to save; it touches the file system only
    when asked to save, and then only files of the reference, none of
    which it removes. *)
Definition calm (verbose save_file : bool) (file_reference : string)
    (w w' : World) : Prop :=
  server w' = server w ∧ now w' = now w ∧
  sent w' = sent w ∧ slept w' = slept w ∧
  (verbose = false → save_file = false → stdout w' = stdout w) ∧
  (save_file = false → fs w' = fs w) ∧
  (∀ path, ¬ output_file file_reference path → fs w' !! path = fs w !! path) ∧
  (∀ path, is_Some (fs w !! path) → is_Some (fs w' !! path)).

Definition calm_frame (verbose save_file : bool) (file_reference : string)
    (s s' : Frame) : Prop :=
  steady s s' ∧ calm verbose save_file file_reference s.2 s'.2.

(** The same with the requests of a call: each goes to the timeline of
    the account, with the bearer token and the entries of [PARAMS], and
    is followed by a sleep of one second. *)
Definition paginating (ACCOUNT_ID BEARER_TOKEN : string)
    (verbose save_file : bool) (file_reference : string) (s s' : Frame) : Prop :=
  steady s s' ∧
  (∃ reqs,
     sent s'.2 = sent s.2 ++ reqs ∧
     slept s'.2 = slept s.2 ++ ((fun _ => 1%Z) <$> reqs) ∧
     Forall (fun r => url r = timeline_url ACCOUNT_ID
                      ∧ authorization r = bearer BEARER_TOKEN
                      ∧ ∀ k, k ≠ "pagination_token" → query r !! k = s.1 !! k)
       reqs) ∧
  (verbose = false → save_file = false → stdout s'.2 = stdout s.2) ∧
  (save_file = false → fs s'.2 = fs s.2) ∧
  (∀ path, ¬ output_file file_reference path → fs s'.2 !! path = fs s.2 !! path) ∧
  (∀ path, is_Some (fs s.2 !! path) → is_Some (fs s'.2 !! path)).

(** ** The batch loop *)

(** The world after the print of line 321 and after that of line 323. *)
Definition counted (users : list string) (w : World) : World :=
  (print ("Downloading " +:+ pretty (length users) +:+ " users...") w).2.

Definition announced (user : string) (w : World) : World :=
  (print (String newline ("### Downloading " +:+ user +:+ " ...###"
                          +:+ String newline EmptyString)) w).2.

(** ** More example inputs *)


(** The first page of the timeline, then a page without record list. *)
Definition meta_only_second : nat → Request → Response :=
  fun _ req =>
    match query req !! "pagination_token" with
    | None => ok first_page
    | Some _ => ok (timeline_page 0 None None)
    end.

(** The first page of the timeline, then the rate limit. *)
Definition rate_limited : nat → Request → Response :=
  scripted [ok first_page; mkResponse 429 None].


(** The lookup of [nhsuk] and its timeline of two pages; nothing else
    is found. *)
Definition study_server : nat → Request → Response :=
  fun n req =>
    if String.eqb (url req) (lookup_url "nhsuk") then lookup_server n req
    else if String.eqb (url req) (timeline_url "37963496") then two_pages n req
    else mkResponse 404 None.

(** A world with a token file. *)
Definition batch_world (srv : nat → Request → Response) : World :=
  mkWorld srv "2021-11-30_12:00:00" [] [] []
    (<["bearer_token.txt" := Text ("TOKEN" +:+ String newline "")]> ∅).

(** * Proofs *)

(** ** The library functions on the values Python gives *)

Example split_on_domain :
  str_split "twitter.com/" "atwitter.com/b/twitter.com/c" = ["a"; "b/"; "c"].
Proof. reflexivity. Qed.

Example split_without_overlap : str_split "aa" "aaa" = [""; "a"].
Proof. reflexivity. Qed.

Example split_keeps_empty_pieces : str_split "/" "a//b/" = ["a"; ""; "b"; ""].
Proof. reflexivity. Qed.

Example split_of_empty : str_split "/" "" = [""].
Proof. reflexivity. Qed.

Example int_of_str_accepts :
  map int_of_str ["100"; " 100 "; "+100"; "1_00"; "0100"; "-100"]
  = [Some 100; Some 100; Some 100; Some 100; Some 100; Some (-100)]%Z.
Proof. reflexivity. Qed.

Example int_of_str_refuses :
  map int_of_str ["100.0"; ""; "abc"; "1__00"; "_100"; "100_"; "+ 100"; "0x64"]
  = [None; None; None; None; None; None; None; None].
Proof. reflexivity. Qed.

Example re_match_user_name_examples :
  map re_match_user_name [""; "foo_1"; "foo-bar!"; "@x"; "fo o"]
  = [true; true; false; false; false].
Proof. reflexivity. Qed.

Example extract_username_examples :
  map extract_username_from_url
    ["https://twitter.com/Foo_Bar9/status/1"; "http://www.twitter.com/#!/abc";
     "@nhsuk"; "https://twitter.com/"]
  = ["Foo_Bar9"; ""; "nhsuk"; ""].
Proof. reflexivity. Qed.

Example downloaded_username_examples :
  map downloaded_username
    ["data/CDCgov_2021-11-30_12:00:00.csv"; "data/WHO_2021_empty.csv";
     "data/a_b_2022-01-01_00:00:00.csv"; "x.csv"]
  = [Ok "CDCgov"; Ok "WHO"; Ok "a_b_2022-01-01_00:00:00.csv"; Raise IndexError].
Proof. reflexivity. Qed.

Example json_normalize_tweets :
  json_normalize (VList [tweet "3" "c" 0; tweet "2" "b" 5])
  = Ok [tweet_row "3" "c" 0; tweet_row "2" "b" 5].
Proof. reflexivity. Qed.

Example json_normalize_nested_cells_last :
  json_normalize
    (VList [VDict [("geo", VDict [("place_id", VStr "p");
                                  ("coordinates", VDict [("type", VStr "Point")])]);
                   ("id", VStr "1");
                   ("entities", VDict []);
                   ("lang", VNone)]])
  = Ok [[("id", VStr "1"); ("lang", VNone);
         ("geo.place_id", VStr "p"); ("geo.coordinates.type", VStr "Point")]].
Proof. reflexivity. Qed.

Example json_normalize_other_entries :
  map json_normalize
    [VList []; VList [VInt 1; VDict [("id", VStr "1")]; VStr "x"]; VDict [];
     VList [VDict []; VList []]; VStr "x"; VInt 1; VNone]
  = [Ok []; Ok [[]; [("id", VStr "1")]; []]; Ok [[]];
     Raise AttributeError; Raise NotImplementedError; Raise NotImplementedError;
     Raise NotImplementedError].
Proof. reflexivity. Qed.

(** ** Running the monad *)

Lemma run_bind_ok {S A B} (m : M S A) (k : A → M S B) (s s' : S) (a : A) :
  m s = (Ok a, s') → (m ≫= k) s = k a s'.
Proof. intros H. unfold mbind, M_bind. by rewrite H. Qed.

Lemma run_bind_raise {S A B} (m : M S A) (k : A → M S B) (s s' : S) e :
  m s = (Raise e, s') → (m ≫= k) s = (Raise e, s').
Proof. intros H. unfold mbind, M_bind. by rewrite H. Qed.

Ltac ops :=
  cbv beta iota zeta delta
    [mret M_ret lift raise in_world when
     session_get time_sleep print strftime_now open_append_close to_csv
     PARAMS_read PARAMS_setitem json_loads getitem in_keys dict_has load_local
     df_append];
  cbn [server now sent slept stdout fs fst snd negb Z.eqb Pos.eqb Nat.eqb andb].
Ltac use_hyp := match goal with H : ?l = _ |- context [?l] => rewrite H end.
Ltac head :=
  idtac;
  repeat first
    [ erewrite run_bind_ok by head
    | erewrite run_bind_raise by head
    | progress ops
    | use_hyp ];
  reflexivity.
Ltac mstep :=
  first [ erewrite run_bind_ok by head | erewrite run_bind_raise by head ];
  cbv beta.
Ltac finish :=
  ops;
  first [ exists []; rewrite app_nil_r; reflexivity
        | eexists; rewrite <- ?app_assoc; reflexivity ].
Ltac mrun :=
  repeat first
    [ mstep
    | use_hyp; cbv beta iota
    | progress cbn [negb andb Nat.eqb Z.eqb Pos.eqb] ].

Lemma ApiError_unbound : name_bound "ApiError" = false.
Proof. reflexivity. Qed.

Lemma run_raise_ApiError {S A} (msg : string) (s : S) :
  raise_ApiError (A := A) msg s = (Raise (NameError "ApiError"), s).
Proof. unfold raise_ApiError. rewrite ApiError_unbound. reflexivity. Qed.

Lemma read_page_inv resp pg :
  read_page resp = Some pg →
  status_code resp = 200%Z ∧
  ∃ page meta,
    content resp = Some (VDict page) ∧
    dict_get "meta" page = Some (VDict meta) ∧
    dict_get "result_count" meta = Some (result_count pg) ∧
    dict_get "next_token" meta = next_token pg ∧
    match records pg with
    | Some rs => ∃ data, dict_get "data" page = Some data ∧ json_normalize data = Ok rs
    | None => dict_get "data" page = None
    end.
Proof.
  unfold read_page. intros H.
  destruct (Z.eqb_spec (status_code resp) 200) as [Hst|]; [|done].
  split; [done|]. clear Hst.
  destruct pg as [count recs tok]. cbn [result_count records next_token].
  destruct (content resp) as [[| | | | |page]|]; try done.
  destruct (dict_get "meta" page) as [[| | | | |meta]|] eqn:Hm; try done.
  destruct (dict_get "result_count" meta) as [c|] eqn:Hc; try done.
  destruct (dict_get "data" page) as [data|] eqn:Hd.
  - destruct (json_normalize data) as [rows|] eqn:Hn; [|done].
    simplify_eq. eauto 10.
  - simplify_eq. eauto 10.
Qed.

Lemma after_requests_nil w : after_requests w [] [] (fs w) = w.
Proof. destruct w. unfold after_requests. cbn. by rewrite !app_nil_r. Qed.

Section Steps.

Variables (ACCOUNT_ID BEARER_TOKEN : string).
Variables (verbose save_file : bool) (file_reference : string).

#[local] Abbreviation body :=
  (process ACCOUNT_ID verbose save_file file_reference).
#[local] Abbreviation pass :=
  (iteration ACCOUNT_ID BEARER_TOKEN verbose save_file file_reference).
#[local] Abbreviation loop :=
  (while_loop ACCOUNT_ID BEARER_TOKEN verbose save_file file_reference).
#[local] Abbreviation request :=
  (timeline_request ACCOUNT_ID BEARER_TOKEN).

Lemma iteration_process rc df P w :
  pass rc df (P, w)
  = body (server w (length (sent w)) (request P)) rc df
      (P, mkWorld (server w) (now w) (sent w ++ [request P])
            (slept w) (stdout w) (fs w)).
Proof. reflexivity. Qed.

Lemma process_next resp rc df d P w count rows tok :
  read_page resp = Some (mkPage count (Some rows) (Some tok)) →
  first_empty count rc = false →
  df_ok rc df d →
  ∃ out, body resp rc df (P, w)
    = (Ok (Next (Some (d ++ rows))),
       (<["pagination_token" := tok]> P,
        mkWorld (server w) (now w) (sent w) (slept w ++ [1%Z])
          (stdout w ++ out) (fs w))).
Proof.
  intros (Hst & page & meta & Hc & Hm & Hrc & Htok & data & Hd & Hn)%read_page_inv Hz Hdf.
  unfold first_empty in Hz. cbn in Hrc, Htok. unfold process.
  destruct Hdf as [[-> ->] | [Hrc0%Nat.eqb_neq ->]];
    cbn [Nat.eqb] in Hz; mrun; destruct verbose; mrun; finish.
Qed.

Lemma process_last resp rc df d P w count rows :
  read_page resp = Some (mkPage count (Some rows) None) →
  first_empty count rc = false →
  df_ok rc df d →
  ∃ out, body resp rc df (P, w)
    = (Ok (Break (Some (d ++ rows))),
       (P, mkWorld (server w) (now w) (sent w) (slept w ++ [1%Z])
             (stdout w ++ out) (fs w))).
Proof.
  intros (Hst & page & meta & Hc & Hm & Hrc & Htok & data & Hd & Hn)%read_page_inv Hz Hdf.
  unfold first_empty in Hz. cbn in Hrc, Htok. unfold process.
  destruct Hdf as [[-> ->] | [Hrc0%Nat.eqb_neq ->]];
    cbn [Nat.eqb] in Hz; mrun; destruct verbose; mrun; finish.
Qed.

Lemma process_no_data resp rc df P w count tok :
  read_page resp = Some (mkPage count None tok) →
  first_empty count rc = false →
  ∃ out, body resp rc df (P, w)
    = (Ok (Break df),
       (P, mkWorld (server w) (now w) (sent w) (slept w ++ [1%Z])
             (stdout w ++ out) (fs w))).
Proof.
  intros (Hst & page & meta & Hc & Hm & Hrc & Htok & Hd)%read_page_inv Hz.
  unfold first_empty in Hz. cbn in Hrc, Htok, Hd. unfold process.
  mrun; destruct verbose; mrun; finish.
Qed.

Lemma process_empty resp df P w pg :
  read_page resp = Some pg →
  py_eq_int (result_count pg) 0 = true →
  ∃ out, body resp 0 df (P, w)
    = (Ok (Return []),
       (P, mkWorld (server w) (now w) (sent w) (slept w ++ [1%Z])
             (stdout w ++ out)
             (if save_file then touched (empty_marker file_reference) (fs w)
              else fs w))).
Proof.
  intros (Hst & page & meta & Hc & Hm & Hrc & _)%read_page_inv Hz.
  unfold process.
  mrun; destruct verbose, save_file; mrun; finish.
Qed.

Lemma process_bad_status resp rc df P w :
  status_code resp ≠ 200%Z →
  body resp rc df (P, w)
  = (Raise (NameError "ApiError"),
     (P, mkWorld (server w) (now w) (sent w) (slept w ++ [1%Z])
           (stdout w) (fs w))).
Proof.
  intros Hst%Z.eqb_neq. unfold process.
  mstep. rewrite Hst. cbn [negb]. 
  erewrite run_bind_raise by apply run_raise_ApiError. reflexivity.
Qed.

Lemma while_loop_unfold fuel rc df s :
  rc < 32 →
  loop (S fuel) rc df s
  = (pass rc df ≫= λ c,
       match c with
       | Return result => mret (inl result)
       | Break df => mret (inr df)
       | Next df => loop fuel (S rc) df
       end) s.
Proof. intros H%Nat.ltb_lt. cbn [while_loop]. by rewrite H. Qed.

Lemma while_loop_exit fuel df s :
  loop (S fuel) 32 df s = (Ok (inr df), s).
Proof. reflexivity. Qed.

Lemma while_loop_continuing pages : ∀ fuel rc df d P w,
  continuing ACCOUNT_ID BEARER_TOKEN (server w) rc (length (sent w)) P pages →
  df_ok rc df d →
  rc + length pages ≤ 32 →
  ∃ out df',
    loop (length pages + fuel) rc df (P, w)
    = loop fuel (rc + length pages) df'
        (PARAMS_after P pages,
         after_requests w (requests_of ACCOUNT_ID BEARER_TOKEN P pages) out (fs w))
    ∧ df_ok (rc + length pages) df' (d ++ rows_of pages).
Proof.
  induction pages as [|[[count rows] tok] rest IH]; intros fuel rc df d P w Hc Hdf Hle.
  - exists [], df. cbn [length PARAMS_after requests_of foldl rows_of map concat].
    rewrite Nat.add_0_r, app_nil_r, after_requests_nil. done.
  - destruct Hc as (Hpage & Hfirst & Hrest). cbn [length] in *.
    rewrite Nat.add_succ_l, while_loop_unfold by lia.
    destruct (process_next _ rc df d P
                (mkWorld (server w) (now w) (sent w ++ [request P])
                   (slept w) (stdout w) (fs w))
                _ _ _ Hpage Hfirst Hdf) as [out1 Hstep].
    erewrite run_bind_ok by (rewrite iteration_process; exact Hstep).
    cbn [server now sent slept stdout fs].
    edestruct (IH fuel (S rc) (Some (d ++ rows)) (d ++ rows)
                 (<["pagination_token" := tok]> P)
                 (mkWorld (server w) (now w) (sent w ++ [request P])
                    (slept w ++ [1%Z]) (stdout w ++ out1) (fs w)))
      as (out2 & df' & Hrun & Hok);
      [ | right; split; [lia | reflexivity] | | ].
    + cbn [server sent]. rewrite length_app, Nat.add_1_r. exact Hrest.
    + lia.
    + exists (out1 ++ out2), df'. rewrite Hrun. split.
      * replace (S rc + length rest) with (rc + S (length rest)) by lia.
        do 2 f_equal. unfold after_requests. cbn.
        by rewrite <- !app_assoc.
      * replace (rc + S (length rest)) with (S rc + length rest) by lia.
        unfold rows_of in *. cbn. by rewrite app_assoc.
Qed.

Lemma after_loop_assigned df d w :
  df = Some d →
  ∃ out, after_loop verbose save_file file_reference df w
    = (Ok d,
       mkWorld (server w) (now w) (sent w) (slept w) (stdout w ++ out)
         (if save_file
          then <[timestamped file_reference w := Csv d]> (fs w)
          else fs w)).
Proof.
  intros ->. destruct w. unfold after_loop.
  destruct verbose, save_file; mrun; finish.
Qed.

Lemma after_loop_unassigned df w :
  df = None →
  ∃ out, after_loop verbose save_file file_reference df w
    = (Raise (UnboundLocalError "df"),
       mkWorld (server w) (now w) (sent w) (slept w) (stdout w ++ out) (fs w)).
Proof.
  intros ->. destruct w. unfold after_loop.
  destruct verbose, save_file; mrun; finish.
Qed.

End Steps.

Lemma check_PARAMS_valid P w : valid_PARAMS P → check_PARAMS (P, w) = (Ok tt, (P, w)).
Proof.
  intros (Htok & v & Hmax & Hint). unfold check_PARAMS.
  mstep. rewrite Htok, Hmax. rewrite bool_decide_eq_false_2 by (intros [? ?]; done).
  mrun. reflexivity.
Qed.

(** ** What every run preserves *)

#[local] Instance offline_preorder : PreOrder offline.
Proof.
  split.
  - by intros w.
  - intros w1 w2 w3 (? & ? & ?) (? & ? & ?). unfold offline. split_and!; congruence.
Qed.

#[local] Instance steady_preorder : PreOrder steady.
Proof.
  split.
  - intros s. unfold steady. split_and!; auto.
  - intros s1 s2 s3 (? & ? & Hk & Ht) (? & ? & Hk' & Ht'). unfold steady.
    split_and!; [congruence | congruence | | auto].
    intros k Hne. by rewrite Hk', Hk.
Qed.

#[local] Instance quiet_preorder : PreOrder quiet.
Proof.
  split.
  - intros s. split; [reflexivity | done].
  - intros s1 s2 s3 [? ?] [? ?]. split; [by etrans | congruence].
Qed.

Section Holds.
Context {S : Type} (R : S → S → Prop) (E : exn → Prop) `{!PreOrder R}.

Lemma holds_ret {A} (a : A) : holds R E (mret a).
Proof. intros s. split; [reflexivity | done]. Qed.

Lemma holds_raise {A} e : E e → holds R E (raise (A := A) e).
Proof. intros He s. split; [reflexivity | cbn; congruence]. Qed.

Lemma holds_lift {A} (r : Res A) : (∀ e, r = Raise e → E e) → holds R E (lift r).
Proof. intros He s. split; [reflexivity | cbn; auto]. Qed.

Lemma holds_bind {A B} (m : M S A) (k : A → M S B) :
  holds R E m → (∀ a, holds R E (k a)) → holds R E (m ≫= k).
Proof.
  intros Hm Hk s. unfold mbind, M_bind.
  destruct (Hm s) as [HR HE]. destruct (m s) as [[a|e] s']; cbn in HR, HE.
  - destruct (Hk a s') as [HR' HE']. split; [by etrans | done].
  - split; [exact HR | intros e0 [= <-]; by apply HE].
Qed.

Lemma holds_when (b : bool) (m : M S unit) : holds R E m → holds R E (when b m).
Proof. destruct b; [done | intros _; apply holds_ret]. Qed.

Lemma holds_raise_ApiError {A} msg :
  E (NameError "ApiError") → holds R E (raise_ApiError (A := A) msg).
Proof.
  intros He s. rewrite run_raise_ApiError. split; [reflexivity | cbn; congruence].
Qed.
End Holds.

Lemma json_loads_exn body e : json_loads body = Raise e → python_exn e.
Proof. destruct body; cbn; intros; by simplify_eq. Qed.

Lemma getitem_exn v k e : getitem v k = Raise e → python_exn e.
Proof. destruct v; cbn; intros; try case_match; by simplify_eq. Qed.

Lemma str_index_exn s n e : str_index s n = Raise e → python_exn e.
Proof. unfold str_index. case_match; intros; by simplify_eq. Qed.

Lemma getitem_index_exn v n e : getitem_index v n = Raise e → python_exn e.
Proof.
  destruct v as [| | |s|items|]; cbn; intros H; try by simplify_eq.
  - unfold fmap, Res_fmap, str_index in H.
    destruct (string_nth n s); by simplify_eq.
  - destruct (nth_error items n); by simplify_eq.
Qed.

Lemma in_keys_exn k v e : in_keys k v = Raise e → python_exn e.
Proof. destruct v; cbn; intros; by simplify_eq. Qed.

Lemma load_local_exn {A} name (x : option A) e :
  load_local name x = Raise e → python_exn e.
Proof. destruct x; cbn; intros; by simplify_eq. Qed.

Lemma json_normalize_exn data e : json_normalize data = Raise e → python_exn e.
Proof. destruct data; cbn; intros; try case_match; by simplify_eq. Qed.

Lemma py_int_exn v e : py_int v = Raise e → python_exn e.
Proof. destruct v; cbn; intros; try case_match; by simplify_eq. Qed.

Create HintDb pyexn.
#[local] Hint Resolve json_loads_exn getitem_exn str_index_exn getitem_index_exn
  in_keys_exn load_local_exn json_normalize_exn py_int_exn : pyexn.

Lemma holds_print line : holds offline python_exn (print line).
Proof. intros w. split; [done | cbn; congruence]. Qed.

Lemma holds_time_sleep secs : holds offline python_exn (time_sleep secs).
Proof. intros w. split; [done | cbn; congruence]. Qed.

Lemma holds_open_append_close path : holds offline python_exn (open_append_close path).
Proof. intros w. split; [done | cbn; congruence]. Qed.

Lemma holds_to_csv df path : holds offline python_exn (to_csv df path).
Proof. intros w. split; [done | cbn; congruence]. Qed.

Lemma holds_strftime_now : holds offline python_exn strftime_now.
Proof. intros w. split; [done | cbn; congruence]. Qed.

Lemma holds_in_world {A} (m : M World A) :
  holds offline python_exn m → holds quiet python_exn (in_world m).
Proof.
  intros Hm [P w]. destruct (Hm w) as [(? & ? & ?) HE].
  unfold in_world. destruct (m w) as [r w']. cbn in *.
  split; [|done]. split; [|done]. unfold steady. cbn. split_and!; auto.
Qed.

Lemma holds_PARAMS_read : holds quiet python_exn PARAMS_read.
Proof. intros [P w]. split; [reflexivity | cbn; congruence]. Qed.

Lemma holds_PARAMS_setitem v :
  holds quiet python_exn (PARAMS_setitem "pagination_token" v).
Proof.
  intros [P w]. split; [|cbn; congruence]. split; [|done].
  unfold steady. cbn. split_and!; auto.
  - intros k Hk. by rewrite lookup_insert_ne.
  - intros _. rewrite lookup_insert_eq. eauto.
Qed.

Ltac holds_step :=
  first
    [ apply holds_bind; [ apply _ | | intros ? ]
    | apply holds_ret; apply _
    | apply holds_when; [ apply _ | ]
    | apply holds_in_world
    | apply holds_raise_ApiError; [ apply _ | exact I ]
    | apply holds_lift; [ apply _ | eauto with pyexn ]
    | apply holds_print | apply holds_time_sleep | apply holds_open_append_close
    | apply holds_to_csv | apply holds_strftime_now
    | apply holds_PARAMS_read | apply holds_PARAMS_setitem
    | match goal with
      | |- holds _ _ (if ?b then _ else _) => destruct b
      | |- holds _ _ (match ?x with _ => _ end) => destruct x
      end ].

Lemma holds_check_PARAMS : holds quiet python_exn check_PARAMS.
Proof. unfold check_PARAMS. repeat holds_step. Qed.

Section General.

Variables (ACCOUNT_ID BEARER_TOKEN : string).
Variables (verbose save_file : bool) (file_reference : string).

#[local] Abbreviation body :=
  (process ACCOUNT_ID verbose save_file file_reference).
#[local] Abbreviation pass :=
  (iteration ACCOUNT_ID BEARER_TOKEN verbose save_file file_reference).
#[local] Abbreviation loop :=
  (while_loop ACCOUNT_ID BEARER_TOKEN verbose save_file file_reference).
#[local] Abbreviation request :=
  (timeline_request ACCOUNT_ID BEARER_TOKEN).

Lemma holds_process resp rc df : holds quiet python_exn (body resp rc df).
Proof. unfold process. repeat holds_step. Qed.

Lemma holds_after_loop df :
  holds offline python_exn (after_loop verbose save_file file_reference df).
Proof. unfold after_loop. repeat holds_step. Qed.

Lemma iteration_general rc df P w :
  let r := pass rc df (P, w) in
  steady (P, w) r.2 ∧ sent r.2.2 = sent w ++ [request P] ∧
  ∀ e, r.1 = Raise e → python_exn e.
Proof.
  rewrite iteration_process.
  destruct (holds_process (server w (length (sent w)) (request P)) rc df
              (P, mkWorld (server w) (now w) (sent w ++ [request P])
                    (slept w) (stdout w) (fs w))) as [[Hs Hsent] HE].
  cbn zeta. split_and!; [|exact Hsent|exact HE].
  etrans; [|exact Hs]. unfold steady; cbn. split_and!; auto.
Qed.

Lemma while_loop_general fuel : ∀ rc df s,
  let r := loop fuel rc df s in
  steady s r.2 ∧
  length (sent r.2.2) ≤ length (sent s.2) + (32 - rc) ∧
  ∀ e, r.1 = Raise e → (e = OutOfFuel ∧ fuel ≤ 32 - rc) ∨ python_exn e.
Proof.
  induction fuel as [|fuel IH]; intros rc df [P w]; cbn zeta.
  - cbn. split_and!; [reflexivity | lia | ]. intros e [= <-]. left. split; [done | lia].
  - destruct (Nat.ltb_spec rc 32) as [Hlt|Hge].
    + rewrite while_loop_unfold by done. unfold mbind, M_bind.
      destruct (iteration_general rc df P w) as (Hs & Hsent & HE).
      destruct (pass rc df (P, w)) as [[c|e] [P1 w1]]; cbn in Hs, Hsent, HE.
      * destruct c as [result | df1 | df1]; cbn.
        -- split_and!; [done | rewrite Hsent, length_app; cbn; lia | done].
        -- split_and!; [done | rewrite Hsent, length_app; cbn; lia | done].
        -- destruct (IH (Datatypes.S rc) df1 (P1, w1)) as (Hs' & Hlen & HE').
           split_and!; [by etrans | | ].
           ++ cbn in Hlen. rewrite Hsent, length_app in Hlen. cbn in *. lia.
           ++ intros e He. destruct (HE' e He) as [[-> ?]|?]; [left; split; [done|lia] | by right].
      * cbn. split_and!; [done | rewrite Hsent, length_app; cbn; lia | ].
        intros ? [= <-]. right. by apply HE.
    + cbn [while_loop]. apply Nat.ltb_ge in Hge. rewrite Hge. cbn.
      split_and!; [reflexivity | lia | done].
Qed.

Lemma loop_and_after_general fuel rc df s :
  let r := (loop fuel rc df ≫= λ r,
              match r with
              | inl result => mret result
              | inr df => in_world (after_loop verbose save_file file_reference df)
              end) s in
  steady s r.2 ∧
  length (sent r.2.2) ≤ length (sent s.2) + (32 - rc) ∧
  ∀ e, r.1 = Raise e → (e = OutOfFuel ∧ fuel ≤ 32 - rc) ∨ python_exn e.
Proof.
  unfold mbind, M_bind, mret, M_ret. cbn zeta.
  destruct (while_loop_general fuel rc df s) as (Hs1 & Hlen1 & HE1).
  destruct (loop fuel rc df s) as [[[result|df1]|e] [P1 w1]];
    cbn [fst snd] in *.
  - split_and!; [done | lia | done].
  - destruct (holds_in_world _ (holds_after_loop df1) (P1, w1))
      as [[Hs2 Hsent2] HE2].
    destruct (in_world (after_loop verbose save_file file_reference df1) (P1, w1))
      as [r [P2 w2]]; cbn [fst snd] in *.
    split_and!; [by etrans | rewrite Hsent2; lia | ].
    intros e He. right. by apply HE2.
  - split_and!; [done | lia | ].
    intros ? [= <-]. by apply HE1.
Qed.

Lemma pagination_routine_general s :
  let r := pagination_routine ACCOUNT_ID BEARER_TOKEN verbose save_file
             file_reference s in
  steady s r.2 ∧
  length (sent r.2.2) ≤ length (sent s.2) + 32 ∧
  ∀ e, r.1 = Raise e → python_exn e.
Proof.
  unfold pagination_routine. cbn zeta.
  destruct (holds_check_PARAMS s) as [[Hs0 Hsent0] HE0].
  destruct (check_PARAMS s) as [[[]|e] s0] eqn:Hcheck; cbn [fst snd] in *.
  - erewrite run_bind_ok by exact Hcheck.
    destruct (loop_and_after_general 33 0 None s0) as (Hs1 & Hlen1 & HE1).
    cbn zeta in Hs1, Hlen1, HE1. rewrite Hsent0 in Hlen1.
    split_and!; [by etrans | exact Hlen1 | ].
    intros e He. destruct (HE1 e He) as [[_ ?]|?]; [lia | done].
  - erewrite run_bind_raise by exact Hcheck. cbn [fst snd].
    split_and!; [done | rewrite Hsent0; lia | ].
    intros ? [= <-]. by apply HE0.
Qed.

End General.

Lemma holds_look_up_twitter_acount_id BEARER_TOKEN user_name :
  holds (λ _ _, True) python_exn (look_up_twitter_acount_id BEARER_TOKEN user_name).
Proof.
  assert (PreOrder (λ _ _ : World, True)) by (split; done).
  unfold look_up_twitter_acount_id.
  repeat first
    [ holds_step
    | by intros w; split; [done | cbn; congruence] ].
Qed.

(** ** The pagination routine on a scripted run *)

Lemma length_requests_of A T P pages :
  length (requests_of A T P pages) = length pages.
Proof.
  revert P. induction pages as [|p rest IH]; intros P; cbn; [done|].
  by rewrite IH.
Qed.

Section Routine.

Variables (ACCOUNT_ID BEARER_TOKEN : string).
Variables (verbose save_file : bool) (file_reference : string).

#[local] Abbreviation run P w :=
  (get_most_recent_tweets_account ACCOUNT_ID BEARER_TOKEN P verbose save_file
     file_reference w).
#[local] Abbreviation loop :=
  (while_loop ACCOUNT_ID BEARER_TOKEN verbose save_file file_reference).
#[local] Abbreviation pass :=
  (iteration ACCOUNT_ID BEARER_TOKEN verbose save_file file_reference).
#[local] Abbreviation request :=
  (timeline_request ACCOUNT_ID BEARER_TOKEN).
#[local] Abbreviation requests :=
  (requests_of ACCOUNT_ID BEARER_TOKEN).
#[local] Abbreviation goes_on :=
  (continuing ACCOUNT_ID BEARER_TOKEN).

(** After the checks and the pages [pages], the loop is at pass
    [length pages]. *)
Lemma run_continuing pages P w :
  valid_PARAMS P →
  length pages ≤ 32 →
  goes_on (server w) 0 (length (sent w)) P pages →
  ∃ out df',
    run P w
    = (loop (33 - length pages) (length pages) df' ≫= λ r,
         match r with
         | inl result => mret result
         | inr df => in_world (after_loop verbose save_file file_reference df)
         end)
        (PARAMS_after P pages, after_requests w (requests P pages) out (fs w))
    ∧ df_ok (length pages) df' (rows_of pages).
Proof.
  intros Hvalid Hle Hpages.
  destruct (while_loop_continuing ACCOUNT_ID BEARER_TOKEN verbose save_file
              file_reference pages (33 - length pages) 0 None [] P w Hpages)
    as (out & df' & Hloop & Hok); [left; done | lia | ].
  exists out, df'. split; [|exact Hok].
  unfold get_most_recent_tweets_account, pagination_routine.
  erewrite run_bind_ok by (apply check_PARAMS_valid; exact Hvalid).
  unfold mbind at 1, M_bind at 1.
  replace 33 with (length pages + (33 - length pages)) at 1 by lia.
  rewrite Hloop. reflexivity.
Qed.


Ltac same_world :=
  unfold after_requests, timestamped; cbn [server now sent slept stdout fs];
  do 3 f_equal; cbn [fmap list_fmap];
  rewrite ?fmap_app, <- ?app_assoc, ?app_nil_r; reflexivity.

(** The last page has records and no token. *)
Lemma run_last_page pages count rows P w :
  valid_PARAMS P →
  length pages < 32 →
  goes_on (server w) 0 (length (sent w)) P pages →
  read_page (server w (length (sent w) + length pages)
               (request (PARAMS_after P pages)))
    = Some (mkPage count (Some rows) None) →
  first_empty count (length pages) = false →
  ∃ out,
    run P w
    = (Ok (rows_of pages ++ rows),
       (PARAMS_after P pages,
        after_requests w
          (requests P pages ++ [request (PARAMS_after P pages)])
          out
          (if save_file
           then <[timestamped file_reference w := Csv (rows_of pages ++ rows)]> (fs w)
           else fs w))).
Proof.
  intros Hvalid Hlt Hpages Hlast Hfirst.
  destruct (run_continuing pages P w Hvalid ltac:(lia) Hpages)
    as (out1 & df' & -> & Hok).
  replace (33 - length pages) with (S (32 - length pages)) by lia.
  set (P' := PARAMS_after P pages) in *.
  set (w1 := after_requests w (requests P pages) out1 (fs w)).
  assert (Hresp : server w1 (length (sent w1)) (request P')
                  = server w (length (sent w) + length pages) (request P'))
    by (cbn; by rewrite length_app, length_requests_of).
  rewrite <- Hresp in Hlast.
  destruct (process_last ACCOUNT_ID verbose save_file file_reference _
              (length pages) df' (rows_of pages) P'
              (mkWorld (server w1) (now w1) (sent w1 ++ [request P'])
                 (slept w1) (stdout w1) (fs w1))
              count rows Hlast Hfirst Hok) as [out2 Hstep].
  erewrite run_bind_ok;
    [ | rewrite while_loop_unfold by lia;
        erewrite run_bind_ok by (rewrite iteration_process; exact Hstep);
        reflexivity ].
  cbv beta iota. cbn [server now sent slept stdout fs].
  unfold in_world.
  match goal with
  | |- context [after_loop _ _ _ ?df ?w2] =>
      destruct (after_loop_assigned verbose save_file file_reference df _ w2
                  eq_refl)
        as [out3 Hafter]; rewrite Hafter
  end.
  exists (out1 ++ out2 ++ out3). subst w1. same_world.
Qed.

(** A page after the first has no record list. *)
Lemma run_no_data pages count tok P w :
  valid_PARAMS P →
  pages ≠ [] →
  length pages < 32 →
  goes_on (server w) 0 (length (sent w)) P pages →
  read_page (server w (length (sent w) + length pages)
               (request (PARAMS_after P pages)))
    = Some (mkPage count None tok) →
  ∃ out,
    run P w
    = (Ok (rows_of pages),
       (PARAMS_after P pages,
        after_requests w
          (requests P pages ++ [request (PARAMS_after P pages)])
          out
          (if save_file
           then <[timestamped file_reference w := Csv (rows_of pages)]> (fs w)
           else fs w))).
Proof.
  intros Hvalid Hne Hlt Hpages Hlast.
  destruct (run_continuing pages P w Hvalid ltac:(lia) Hpages)
    as (out1 & df' & -> & Hok).
  assert (Hk : length pages ≠ 0) by (destruct pages; cbn; [done | lia]).
  destruct Hok as [[? _] | [_ ->]]; [done|].
  replace (33 - length pages) with (S (32 - length pages)) by lia.
  set (P' := PARAMS_after P pages) in *.
  set (w1 := after_requests w (requests P pages) out1 (fs w)).
  assert (Hresp : server w1 (length (sent w1)) (request P')
                  = server w (length (sent w) + length pages) (request P'))
    by (cbn; by rewrite length_app, length_requests_of).
  rewrite <- Hresp in Hlast.
  assert (Hfirst : first_empty count (length pages) = false).
  { unfold first_empty. apply Nat.eqb_neq in Hk. rewrite Hk. apply andb_false_r. }
  destruct (process_no_data ACCOUNT_ID verbose save_file file_reference _
              (length pages) (Some (rows_of pages)) P'
              (mkWorld (server w1) (now w1) (sent w1 ++ [request P'])
                 (slept w1) (stdout w1) (fs w1))
              count tok Hlast Hfirst) as [out2 Hstep].
  erewrite run_bind_ok;
    [ | rewrite while_loop_unfold by lia;
        erewrite run_bind_ok by (rewrite iteration_process; exact Hstep);
        reflexivity ].
  cbv beta iota. cbn [server now sent slept stdout fs].
  unfold in_world.
  match goal with
  | |- context [after_loop _ _ _ ?df ?w2] =>
      destruct (after_loop_assigned verbose save_file file_reference df _ w2
                  eq_refl)
        as [out3 Hafter]; rewrite Hafter
  end.
  exists (out1 ++ out2 ++ out3). subst w1. same_world.
Qed.

(** The first page has no record list and a count that is not zero. *)
Lemma run_first_page_no_data count tok P w :
  valid_PARAMS P →
  read_page (server w (length (sent w)) (request P))
    = Some (mkPage count None tok) →
  py_eq_int count 0 = false →
  ∃ out,
    run P w
    = (Raise (UnboundLocalError "df"),
       (P, after_requests w [request P] out (fs w))).
Proof.
  intros Hvalid Hpage Hcount.
  unfold get_most_recent_tweets_account, pagination_routine.
  erewrite run_bind_ok by (apply check_PARAMS_valid; exact Hvalid).
  assert (Hfirst : first_empty count 0 = false)
    by (unfold first_empty; by rewrite Hcount).
  destruct (process_no_data ACCOUNT_ID verbose save_file file_reference _
              0 None P
              (mkWorld (server w) (now w) (sent w ++ [request P])
                 (slept w) (stdout w) (fs w))
              count tok Hpage Hfirst) as [out2 Hstep].
  erewrite run_bind_ok;
    [ | rewrite while_loop_unfold by lia;
        erewrite run_bind_ok by (rewrite iteration_process; exact Hstep);
        reflexivity ].
  cbv beta iota. cbn [server now sent slept stdout fs].
  unfold in_world.
  match goal with
  | |- context [after_loop _ _ _ ?df ?w2] =>
      destruct (after_loop_unassigned verbose save_file file_reference df w2
                  eq_refl)
        as [out3 Hafter]; rewrite Hafter
  end.
  exists (out2 ++ out3). same_world.
Qed.

(** The first page counts no result. *)
Lemma run_empty pg P w :
  valid_PARAMS P →
  read_page (server w (length (sent w)) (request P)) = Some pg →
  py_eq_int (result_count pg) 0 = true →
  ∃ out,
    run P w
    = (Ok [],
       (P, after_requests w [request P] out
             (if save_file
              then touched (empty_marker file_reference) (fs w)
              else fs w))).
Proof.
  intros Hvalid Hpage Hcount.
  unfold get_most_recent_tweets_account, pagination_routine.
  erewrite run_bind_ok by (apply check_PARAMS_valid; exact Hvalid).
  destruct (process_empty ACCOUNT_ID verbose save_file file_reference _
              None P
              (mkWorld (server w) (now w) (sent w ++ [request P])
                 (slept w) (stdout w) (fs w))
              pg Hpage Hcount) as [out2 Hstep].
  erewrite run_bind_ok;
    [ | rewrite while_loop_unfold by lia;
        erewrite run_bind_ok by (rewrite iteration_process; exact Hstep);
        reflexivity ].
  cbv beta iota. cbn [server now sent slept stdout fs].
  exists out2. same_world.
Qed.

(** Thirty-two pages with a token. *)
Lemma run_ceiling pages P w :
  valid_PARAMS P →
  length pages = 32 →
  goes_on (server w) 0 (length (sent w)) P pages →
  ∃ out,
    run P w
    = (Ok (rows_of pages),
       (PARAMS_after P pages,
        after_requests w (requests P pages) out
          (if save_file
           then <[timestamped file_reference w := Csv (rows_of pages)]> (fs w)
           else fs w))).
Proof.
  intros Hvalid Hlen Hpages.
  destruct (run_continuing pages P w Hvalid ltac:(lia) Hpages)
    as (out1 & df' & -> & Hok).
  destruct Hok as [[? _] | [_ ->]]; [lia|].
  rewrite Hlen. change (33 - 32) with 1.
  erewrite run_bind_ok by apply while_loop_exit.
  cbv beta iota. unfold in_world.
  match goal with
  | |- context [after_loop _ _ _ ?df ?w2] =>
      destruct (after_loop_assigned verbose save_file file_reference df _ w2
                  eq_refl)
        as [out3 Hafter]; rewrite Hafter
  end.
  exists (out1 ++ out3). same_world.
Qed.

(** A request is answered by another status than 200. *)
Lemma run_bad_status pages P w :
  valid_PARAMS P →
  length pages < 32 →
  goes_on (server w) 0 (length (sent w)) P pages →
  status_code (server w (length (sent w) + length pages)
                 (request (PARAMS_after P pages))) ≠ 200%Z →
  ∃ out,
    run P w
    = (Raise (NameError "ApiError"),
       (PARAMS_after P pages,
        after_requests w
          (requests P pages ++ [request (PARAMS_after P pages)])
          out (fs w))).
Proof.
  intros Hvalid Hlt Hpages Hstatus.
  destruct (run_continuing pages P w Hvalid ltac:(lia) Hpages)
    as (out1 & df' & -> & Hok).
  replace (33 - length pages) with (S (32 - length pages)) by lia.
  set (P' := PARAMS_after P pages) in *.
  set (w1 := after_requests w (requests P pages) out1 (fs w)).
  assert (Hresp : server w1 (length (sent w1)) (request P')
                  = server w (length (sent w) + length pages) (request P'))
    by (cbn; by rewrite length_app, length_requests_of).
  rewrite <- Hresp in Hstatus.
  erewrite run_bind_raise;
    [ | rewrite while_loop_unfold by lia;
        erewrite run_bind_raise
          by (rewrite iteration_process; apply process_bad_status; exact Hstatus);
        reflexivity ].
  exists out1. subst w1. same_world.
Qed.

End Routine.

(** ** The handle resolver *)

Lemma look_up_at BEARER_TOKEN c rest w :
  c ≠ "@"%char →
  look_up_twitter_acount_id BEARER_TOKEN ("@" +:+ String c rest) w
  = look_up_twitter_acount_id BEARER_TOKEN (String c rest) w.
Proof.
  intros Hc. unfold look_up_twitter_acount_id.
  rewrite (run_bind_ok (lift (str_index ("@" +:+ String c rest) 0)) _ w w "@")
    by reflexivity.
  rewrite (run_bind_ok (lift (str_index (String c rest) 0)) _ w w (String c ""))
    by reflexivity.
  cbv beta zeta.
  replace (String.eqb (String c "") "@") with false
    by (symmetry; apply String.eqb_neq; congruence).
  reflexivity.
Qed.

Lemma all_chars_word_not_at c rest :
  all_chars is_word (String c rest) = true → c ≠ "@"%char.
Proof. cbn. intros [Hc _]%andb_prop ->. discriminate Hc. Qed.

(** The resolver on a handle that is not empty: the checks are made on
    the handle without its [@]. *)
Lemma look_up_malformed BEARER_TOKEN user_name w :
  user_name ≠ "" →
  re_match_user_name (without_at user_name) = false →
  look_up_twitter_acount_id BEARER_TOKEN user_name w
  = (Raise (NameError "ApiError"), w).
Proof.
  intros Hne Hre. destruct user_name as [|c rest]; [done|].
  unfold look_up_twitter_acount_id.
  rewrite (run_bind_ok (lift (str_index (String c rest) 0)) _ w w (String c ""))
    by reflexivity.
  cbv beta zeta.
  assert (Hname : (if String.eqb (String c "") "@"
                   then str_from_1 (String c rest) else String c rest)
                  = without_at (String c rest)).
  { destruct (Ascii.eqb_spec c "@"%char) as [->|Hc]; [reflexivity|].
    replace (String.eqb (String c "") "@") with false
      by (symmetry; apply String.eqb_neq; congruence).
    destruct c as [[] [] [] [] [] [] [] []]; try reflexivity. done. }
  rewrite Hname, Hre. cbn [negb].
  erewrite run_bind_raise by apply run_raise_ApiError. reflexivity.
Qed.

Lemma look_up_bad_status BEARER_TOKEN user_name w :
  user_name ≠ "" →
  re_match_user_name (without_at user_name) = true →
  status_code (server w (length (sent w))
                 (lookup_request BEARER_TOKEN (without_at user_name))) ≠ 200%Z →
  look_up_twitter_acount_id BEARER_TOKEN user_name w
  = (Raise (NameError "ApiError"),
     mkWorld (server w) (now w)
       (sent w ++ [lookup_request BEARER_TOKEN (without_at user_name)])
       (slept w ++ [3%Z]) (stdout w) (fs w)).
Proof.
  intros Hne Hre Hst%Z.eqb_neq. destruct user_name as [|c rest]; [done|].
  unfold look_up_twitter_acount_id.
  rewrite (run_bind_ok (lift (str_index (String c rest) 0)) _ w w (String c ""))
    by reflexivity.
  cbv beta zeta.
  assert (Hname : (if String.eqb (String c "") "@"
                   then str_from_1 (String c rest) else String c rest)
                  = without_at (String c rest)).
  { destruct (Ascii.eqb_spec c "@"%char) as [->|Hc]; [reflexivity|].
    replace (String.eqb (String c "") "@") with false
      by (symmetry; apply String.eqb_neq; congruence).
    destruct c as [[] [] [] [] [] [] [] []]; try reflexivity. done. }
  rewrite Hname, Hre. cbn [negb]. unfold lookup_request in Hst.
  mstep. mstep. mstep. rewrite Hst. cbn [negb].
  erewrite run_bind_raise by apply run_raise_ApiError. reflexivity.
Qed.

(** ** The batch driver *)

Lemma split_scan_nonempty sep s : ∀ skip cur, split_scan sep skip cur s ≠ [].
Proof.
  induction s as [|c s IH]; intros skip cur; cbn; [done|].
  destruct skip; [|apply IH]. case_match; [done | apply IH].
Qed.

Lemma downloaded_username_data name :
  ∃ h, downloaded_username ("data/" +:+ name) = Ok h.
Proof.
  unfold downloaded_username.
  replace (str_split "/" ("data/" +:+ name)) with ("data" :: str_split "/" name)
    by (destruct name; reflexivity).
  cbn [nth_error]. unfold str_split.
  destruct (split_scan "/" 0 "" name) eqn:E; [by apply split_scan_nonempty in E|].
  eauto.
Qed.

Lemma map_res_ok {A B} (f : A → Res B) l :
  Forall (λ x, ∃ y, f x = Ok y) l →
  ∃ ys, map_res f l = Ok ys ∧ ∀ x y, x ∈ l → f x = Ok y → y ∈ ys.
Proof.
  induction 1 as [|x l [y Hy] _ (ys & IH & Hin)]; cbn.
  - exists []. split; [done|]. intros ? ? Hx. by apply elem_of_nil in Hx.
  - rewrite Hy, IH. exists (y :: ys). split; [done|].
    intros x' y' [->|Hx]%elem_of_cons Hf.
    + rewrite Hy in Hf. injection Hf as <-. left.
    + right. by eapply Hin.
Qed.

Lemma elem_of_unique (x : string) : ∀ l seen, x ∈ unique seen l ↔ x ∈ l ∧ x ∉ seen.
Proof.
  induction l as [|y l IH]; intros seen; cbn.
  - split; [by intros ?%elem_of_nil | by intros [?%elem_of_nil _]].
  - case_bool_decide as Hy.
    + rewrite IH, elem_of_cons. split.
      * intros [? ?]. split; [by right | done].
      * intros [[->|?] ?]; done.
    + rewrite elem_of_cons, IH, !elem_of_cons. split.
      * intros [->|[? Hs]]; [split; [by left | done] | ].
        split; [by right | intros ?; apply Hs; by right].
      * intros [[->|Hl] Hs]; [by left|].
        destruct (decide (x = y)) as [->|Hxy]; [by left | right].
        split; [done | by intros [?|?]].
Qed.

Lemma NoDup_unique : ∀ l seen, NoDup (unique seen l).
Proof.
  induction l as [|y l IH]; intros seen; cbn; [constructor|].
  case_bool_decide; [apply IH|]. constructor; [|apply IH].
  rewrite elem_of_unique. intros [_ Hy]. apply Hy. left.
Qed.

(** ** Strings and [str.split] *)

Lemma string_app_cons c s t : String c s +:+ t = String c (s +:+ t).
Proof. reflexivity. Qed.

Lemma string_app_nil_r s : s +:+ "" = s.
Proof. induction s as [|c s IH]; [done|]. by rewrite string_app_cons, IH. Qed.

Lemma string_app_assoc s t u : (s +:+ t) +:+ u = s +:+ (t +:+ u).
Proof. induction s as [|c s IH]; [done|]. by rewrite !string_app_cons, IH. Qed.

Lemma string_length_app s t :
  String.length (s +:+ t) = String.length s + String.length t.
Proof.
  induction s as [|c s IH]; [done|]. rewrite string_app_cons. cbn. by rewrite IH.
Qed.

Lemma string_app_neq_l s t : t ≠ "" → s +:+ t ≠ s.
Proof.
  intros Ht H. apply (f_equal String.length) in H.
  rewrite string_length_app in H. destruct t; [done|]. cbn in H. lia.
Qed.

Lemma prefix_cons a s1 b s2 :
  String.prefix (String a s1) (String b s2)
  = (Ascii.eqb a b && String.prefix s1 s2)%bool.
Proof.
  cbn. destruct (ascii_dec a b) as [->|Hne].
  - by rewrite Ascii.eqb_refl.
  - apply Ascii.eqb_neq in Hne. by rewrite Hne.
Qed.

Lemma prefix_nil s : String.prefix "" s = true.
Proof. by destruct s. Qed.

Lemma prefix_app s t : String.prefix s (s +:+ t) = true.
Proof.
  induction s as [|c s IH]; [apply prefix_nil|].
  by rewrite string_app_cons, prefix_cons, Ascii.eqb_refl.
Qed.

Lemma prefix_inv s : ∀ t, String.prefix s t = true → ∃ r, t = s +:+ r.
Proof.
  induction s as [|c s IH]; intros t H; [by exists t|].
  destruct t as [|d t]; [done|].
  rewrite prefix_cons in H. apply andb_prop in H as [->%Ascii.eqb_eq H].
  destruct (IH t H) as [r ->]. by exists r.
Qed.

(** A beginning of [y +:+ t] that is no longer than [y] is a beginning
    of [y]. *)
Lemma prefix_of_app x : ∀ y r t,
  x +:+ r = y +:+ t → String.length x ≤ String.length y →
  String.prefix x y = true.
Proof.
  induction x as [|c x IH]; intros y r t Heq Hlen; [apply prefix_nil|].
  destruct y as [|d y]; [cbn in Hlen; lia|].
  rewrite !string_app_cons in Heq. injection Heq as -> Heq.
  rewrite prefix_cons, Ascii.eqb_refl. cbn in *. eapply IH; [done | lia].
Qed.

Lemma prefix_long sep : ∀ a t,
  String.length sep ≤ String.length a →
  String.prefix sep (a +:+ t) = String.prefix sep a.
Proof.
  induction sep as [|c sep IH]; intros a t Hlen; [by rewrite !prefix_nil|].
  destruct a as [|d a]; [cbn in Hlen; lia|].
  rewrite string_app_cons, !prefix_cons. f_equal. apply IH. cbn in Hlen. lia.
Qed.

Lemma string_drop_app a s : string_drop (String.length a) (a +:+ s) = s.
Proof. induction a as [|c a IH]; [by destruct s|]. exact IH. Qed.

Lemma string_drop_app_le k : ∀ s r,
  k ≤ String.length s → string_drop k (s +:+ r) = string_drop k s +:+ r.
Proof.
  induction k as [|k IH]; intros s r Hk; [by destruct s|].
  destruct s as [|c s]; [cbn in Hk; lia|]. cbn in *. apply IH. lia.
Qed.

Lemma string_length_drop k : ∀ s,
  String.length (string_drop k s) = String.length s - k.
Proof.
  induction k as [|k IH]; intros s; [destruct s; cbn; lia|].
  destruct s as [|c s]; [done|]. cbn. apply IH.
Qed.

Lemma string_rev_onto_twice a : ∀ b c,
  string_rev_onto (string_rev_onto a b) c = string_rev_onto b (a +:+ c).
Proof. induction a as [|x a IH]; intros b c; [done|]. cbn. by rewrite IH. Qed.

Lemma string_rev_onto_app a : ∀ b c,
  string_rev_onto (a +:+ b) c = string_rev_onto b (string_rev_onto a c).
Proof.
  induction a as [|x a IH]; intros b c; [done|]. rewrite string_app_cons. cbn.
  apply IH.
Qed.

Lemma string_rev_onto_acc a : ∀ b,
  string_rev_onto a b = string_rev_onto a "" +:+ b.
Proof.
  induction a as [|x a IH]; intros b; [done|]. cbn.
  rewrite IH, (IH (String x "")), string_app_assoc. reflexivity.
Qed.

Lemma all_chars_app p a b :
  all_chars p (a +:+ b) = (all_chars p a && all_chars p b)%bool.
Proof.
  induction a as [|c a IH]; [done|].
  rewrite string_app_cons. cbn. by rewrite IH, andb_assoc.
Qed.

Lemma all_chars_impl (p q : ascii → bool) s :
  (∀ c, p c = true → q c = true) → all_chars p s = true → all_chars q s = true.
Proof.
  intros Hpq. induction s as [|c s IH]; [done|]. cbn.
  intros [?%Hpq ?%IH]%andb_prop. by apply andb_true_intro.
Qed.

Lemma all_chars_rev_onto p a : ∀ b,
  all_chars p (string_rev_onto a b) = (all_chars p a && all_chars p b)%bool.
Proof.
  induction a as [|x a IH]; intros b; [done|]. cbn. rewrite IH. cbn.
  destruct (p x), (all_chars p a); done.
Qed.

Lemma string_filter_all p s : all_chars p s = true → string_filter p s = s.
Proof.
  induction s as [|c s IH]; [done|]. cbn.
  intros [-> ?]%andb_prop. by rewrite IH.
Qed.

Lemma all_chars_string_filter p s : all_chars p (string_filter p s) = true.
Proof.
  induction s as [|c s IH]; [done|]. cbn.
  destruct (p c) eqn:Hc; [|done]. cbn. by rewrite Hc.
Qed.

(** Two occurrences of an unbordered separator do not overlap. *)
Lemma unbordered_no_overlap sep a t :
  unbordered sep = true →
  a ≠ "" → String.length a < String.length sep →
  String.prefix sep (a +:+ sep +:+ t) = false.
Proof.
  intros Hun Hne Hlen.
  destruct (String.prefix sep (a +:+ sep +:+ t)) eqn:Hp; [exfalso|done].
  apply prefix_inv in Hp as [r Hr].
  unfold unbordered in Hun. rewrite forallb_forall in Hun.
  specialize (Hun (String.length a)).
  rewrite negb_true_iff in Hun.
  enough (String.prefix (string_drop (String.length a) sep) sep = true) as H.
  { rewrite Hun in H; [done|]. apply in_seq.
    destruct a; [done|]. cbn in *. lia. }
  apply (f_equal (string_drop (String.length a))) in Hr.
  rewrite string_drop_app, string_drop_app_le in Hr by lia.
  eapply prefix_of_app; [symmetry; exact Hr|].
  rewrite string_length_drop. lia.
Qed.

(** A separator with a character that [s] does not have does not occur
    in [s]. *)
Lemma occurs_all_chars p sep s :
  all_chars p sep = false → all_chars p s = true → occurs sep s = false.
Proof.
  intros Hsep. induction s as [|c s IH]; intros Hs.
  - cbn. by destruct sep.
  - cbn [occurs]. apply orb_false_intro.
    + destruct (String.prefix sep (String c s)) eqn:Hp; [|done].
      apply prefix_inv in Hp as [r Hr]. by rewrite Hr, all_chars_app, Hsep in Hs.
    + apply IH. cbn in Hs. by apply andb_prop in Hs as [_ ?].
Qed.

(** An occurrence of a separator of one character lies in one of the
    parts. *)
Lemma occurs_char_app c a b :
  occurs (String c "") (a +:+ b)
  = (occurs (String c "") a || occurs (String c "") b)%bool.
Proof.
  induction a as [|d a IH]; [done|].
  rewrite string_app_cons. cbn [occurs]. rewrite !prefix_cons, !prefix_nil, IH.
  by rewrite orb_assoc.
Qed.

Lemma misses_nil sep a : sep ≠ "" → occurs sep a = false → misses sep a "" = true.
Proof.
  intros Hne. induction a as [|c a IH]; [done|].
  cbn [occurs misses]. intros [Hp Ha]%orb_false_elim.
  rewrite string_app_nil_r, Hp. cbn. by apply IH.
Qed.

Lemma misses_unbordered sep a t :
  unbordered sep = true → occurs sep a = false →
  misses sep a (sep +:+ t) = true.
Proof.
  intros Hun. induction a as [|c a IH]; [done|].
  cbn [occurs misses]. intros [Hp Ha]%orb_false_elim.
  rewrite IH, andb_true_r by done. apply negb_true_iff.
  destruct (Nat.lt_ge_cases (String.length (String c a)) (String.length sep)).
  - by apply unbordered_no_overlap.
  - by rewrite prefix_long.
Qed.

Lemma split_scan_miss sep a tail : ∀ cur,
  misses sep a tail = true →
  split_scan sep 0 cur (a +:+ tail)
  = split_scan sep 0 (string_rev_onto a cur) tail.
Proof.
  induction a as [|c a IH]; intros cur H; [done|].
  cbn [misses] in H. apply andb_prop in H as [Hp%negb_true_iff H].
  rewrite string_app_cons in *.
  cbn [split_scan]. rewrite Hp. by rewrite IH.
Qed.

Lemma split_scan_drop sep pre : ∀ cur c s,
  split_scan sep (String.length pre) cur (pre +:+ String c s)
  = split_scan sep 0 cur (String c s).
Proof. induction pre as [|d pre IH]; intros cur c s; [done|]. cbn. apply IH. Qed.

Lemma split_scan_drop_end sep pre : ∀ cur,
  split_scan sep (String.length pre) cur pre = [string_rev_onto cur ""].
Proof. induction pre as [|d pre IH]; intros cur; [done|]. cbn. apply IH. Qed.

(** The scan at an occurrence of the separator. *)
Lemma split_scan_hit sep cur t :
  sep ≠ "" →
  split_scan sep 0 cur (sep +:+ t)
  = string_rev_onto cur "" :: split_scan sep 0 "" t.
Proof.
  intros Hne. destruct sep as [|c sep]; [done|].
  rewrite string_app_cons. cbn [split_scan].
  rewrite <- string_app_cons, prefix_app. f_equal. cbn [String.length Nat.pred].
  destruct t as [|d t].
  - rewrite string_app_nil_r. apply split_scan_drop_end.
  - apply split_scan_drop.
Qed.

(** The piece before the first occurrence. *)
Lemma str_split_first sep a t :
  sep ≠ "" → misses sep a (sep +:+ t) = true →
  str_split sep (a +:+ sep +:+ t) = a :: str_split sep t.
Proof.
  intros Hne H. unfold str_split.
  rewrite split_scan_miss, split_scan_hit by done.
  by rewrite string_rev_onto_twice, string_app_nil_r.
Qed.

(** A string without an occurrence is one piece. *)
Lemma str_split_none sep a :
  misses sep a "" = true → str_split sep a = [a].
Proof.
  intros H. unfold str_split.
  rewrite <- (string_app_nil_r a) at 1.
  rewrite split_scan_miss by done. cbn.
  by rewrite string_rev_onto_twice, string_app_nil_r.
Qed.

Lemma str_split_nonempty sep s : str_split sep s ≠ [].
Proof. apply split_scan_nonempty. Qed.

Lemma str_split_data name :
  str_split "/" ("data/" +:+ name) = "data" :: str_split "/" name.
Proof. destruct name; reflexivity. Qed.

Lemma last_cons_nonempty {A} (x : A) l d :
  l ≠ [] → List.last (x :: l) d = List.last l d.
Proof. by destruct l. Qed.

(** A name that holds [_2021] after a reference without it is read back
    as that reference. *)
Lemma downloaded_username_cut a rest :
  occurs "/" a = false →
  occurs "_2021" a = false →
  occurs "/" rest = false →
  downloaded_username ("data/" +:+ a +:+ "_2021" +:+ rest) = Ok a.
Proof.
  intros Ha Hyear Hrest.
  unfold downloaded_username. rewrite str_split_data.
  rewrite (str_split_none "/").
  2:{ apply misses_nil; [done|].
      rewrite !occurs_char_app, Ha, Hrest. reflexivity. }
  cbn [nth_error].
  rewrite str_split_first by (done || by apply misses_unbordered).
  reflexivity.
Qed.

(** * The claims *)

(** Every [PARAMS] either passes the checks or violates them, and not
    both. *)
Lemma valid_not_invalid P : valid_PARAMS P → ¬ invalid_PARAMS P.
Proof.
  intros (Htok & v & Hmax & Hint) [[? ?] | [? | (v' & Hmax' & Hint')]]; congruence.
Qed.

Lemma valid_or_invalid P : valid_PARAMS P ∨ invalid_PARAMS P.
Proof.
  unfold valid_PARAMS, invalid_PARAMS.
  destruct (P !! "pagination_token") as [t|]; [right; left; eauto|].
  destruct (P !! "max_results") as [v|]; [|right; right; left; done].
  destruct (py_int v) as [n|e] eqn:Hv.
  - destruct (decide (n = 100%Z)) as [->|Hn].
    + left. eauto.
    + right. right. right. exists v. split; [done|]. congruence.
  - right. right. right. exists v. split; [done|]. congruence.
Qed.

(** The rows of a page stand in the order of its record list. *)
Lemma json_normalize_in_order items rows :
  json_normalize (VList items) = Ok rows →
  rows = map normalise_record items.
Proof. cbn. case_match; intros; by simplify_eq. Qed.

Lemma rejection_python_exn P : python_exn (rejection P).
Proof.
  unfold rejection. repeat case_match; try done. by eapply py_int_exn.
Qed.

Lemma run_invalid_PARAMS ACCOUNT_ID BEARER_TOKEN verbose save_file file_reference P w :
  invalid_PARAMS P →
  get_most_recent_tweets_account ACCOUNT_ID BEARER_TOKEN P verbose save_file
    file_reference w
  = (Raise (rejection P), (P, w)).
Proof.
  intros H. unfold get_most_recent_tweets_account, pagination_routine.
  erewrite run_bind_raise; [reflexivity|].
  unfold check_PARAMS, rejection. mstep.
  destruct (P !! "pagination_token") as [t|] eqn:Htok.
  - rewrite bool_decide_eq_true_2 by eauto.
    erewrite run_bind_raise by apply run_raise_ApiError. reflexivity.
  - rewrite bool_decide_eq_false_2 by (intros [? ?]; done).
    destruct H as [[? ?] | [Hmax | (v & Hmax & Hint)]]; [congruence | | ];
      rewrite Hmax; mrun.
    + by rewrite run_raise_ApiError.
    + destruct (py_int v) as [n|e] eqn:Hn; mrun; [|reflexivity].
      destruct (Z.eqb_spec n 100) as [->|]; [done|]. cbn [negb].
      by rewrite run_raise_ApiError.
Qed.

(** C1. [PARAMS] with a pagination token, without [max_results], or with
    a [max_results] that is not 100 end the call before any request,
    sleep, print or file write: the world and [PARAMS] are untouched. The
    exception is never an instance of a class of the program: it is the
    [NameError] of the unbound name [ApiError], or the [ValueError] or
    [TypeError] of [int] on a [max_results] that is no number. *)
Theorem invalid_PARAMS_fail_before_any_request
    ACCOUNT_ID BEARER_TOKEN verbose save_file file_reference P w :
  invalid_PARAMS P →
  get_most_recent_tweets_account ACCOUNT_ID BEARER_TOKEN P verbose save_file
    file_reference w
  = (Raise (rejection P), (P, w))
  ∧ python_exn (rejection P).
Proof.
  intros H. split; [by apply run_invalid_PARAMS | apply rejection_python_exn].
Qed.

Lemma invalid_PARAMS_fail_before_any_request_witness :
  invalid_PARAMS (<["max_results" := VStr "50"]> study_PARAMS)
  ∧ get_most_recent_tweets_account "37963496" "TOKEN"
      (<["max_results" := VStr "50"]> study_PARAMS) true true "nhsuk"
      (example_world two_pages)
    = (Raise (NameError "ApiError"),
       (<["max_results" := VStr "50"]> study_PARAMS, example_world two_pages)).
Proof.
  assert (H : invalid_PARAMS (<["max_results" := VStr "50"]> study_PARAMS)).
  { right. right. exists (VStr "50"). split; [reflexivity | discriminate]. }
  split; [exact H|].
  exact (proj1 (invalid_PARAMS_fail_before_any_request
                  "37963496" "TOKEN" true true "nhsuk" _ (example_world two_pages) H)).
Defined.

Section Claims.

Variables (ACCOUNT_ID BEARER_TOKEN : string).
Variables (verbose save_file : bool) (file_reference : string).

(** C2. Whatever the server answers, a call makes at most 32 requests;
    and when each of 32 requests is answered by a page with records
    and a token, the call returns the rows of these 32 pages, in order,
    after exactly 32 requests, and saves them if asked to. *)
Theorem at_most_32_requests P w :
  let call :=
    get_most_recent_tweets_account ACCOUNT_ID BEARER_TOKEN P verbose save_file
      file_reference w in
  length (sent call.2.2) ≤ length (sent w) + 32
  ∧ ∀ pages,
      valid_PARAMS P →
      length pages = 32 →
      continuing ACCOUNT_ID BEARER_TOKEN (server w) 0 (length (sent w)) P pages →
      ∃ out,
        call
        = (Ok (rows_of pages),
           (PARAMS_after P pages,
            after_requests w (requests_of ACCOUNT_ID BEARER_TOKEN P pages) out
              (if save_file
               then <[timestamped file_reference w := Csv (rows_of pages)]> (fs w)
               else fs w)))
        ∧ length (requests_of ACCOUNT_ID BEARER_TOKEN P pages) = 32.
Proof.
  cbn zeta. split.
  - apply (pagination_routine_general ACCOUNT_ID BEARER_TOKEN verbose save_file
             file_reference (P, w)).
  - intros pages Hvalid Hlen Hpages.
    destruct (run_ceiling ACCOUNT_ID BEARER_TOKEN verbose save_file
                file_reference pages P w Hvalid Hlen Hpages) as [out Hrun].
    exists out. split; [exact Hrun|]. by rewrite length_requests_of.
Qed.

(** C3. When the first page counts no result, the call returns the
    empty frame after this one request. If asked to save, it leaves
    the file [data/<reference>_2021_empty.csv] (created empty when it
    did not exist) and writes no other file; otherwise it writes none. *)
Theorem empty_first_page_returns_empty_frame P w pg :
  valid_PARAMS P →
  read_page (server w (length (sent w))
               (timeline_request ACCOUNT_ID BEARER_TOKEN P)) = Some pg →
  py_eq_int (result_count pg) 0 = true →
  ∃ out files,
    get_most_recent_tweets_account ACCOUNT_ID BEARER_TOKEN P verbose save_file
      file_reference w
    = (Ok [],
       (P, after_requests w [timeline_request ACCOUNT_ID BEARER_TOKEN P]
             out files))
    ∧ files = (if save_file
               then touched (empty_marker file_reference) (fs w)
               else fs w)
    ∧ (save_file = true → is_Some (files !! empty_marker file_reference))
    ∧ (save_file = true → fs w !! empty_marker file_reference = None →
       files !! empty_marker file_reference = Some (Text ""))
    ∧ (∀ path, path ≠ empty_marker file_reference →
               files !! path = fs w !! path).
Proof.
  intros Hvalid Hpage Hcount.
  destruct (run_empty ACCOUNT_ID BEARER_TOKEN verbose save_file file_reference
              pg P w Hvalid Hpage Hcount) as [out Hrun].
  eexists out, _. split; [exact Hrun|]. split; [reflexivity|].
  unfold touched. destruct save_file; split_and!; try done.
  - intros _. destruct (fs w !! _) eqn:E; [by rewrite E|].
    rewrite lookup_insert_eq. eauto.
  - intros _ ->. by rewrite lookup_insert_eq.
  - intros path Hne. destruct (fs w !! empty_marker _); [done|].
    by rewrite lookup_insert_ne.
Qed.

(** C4, on the first page. When the first page has no record list and
    a result count that is not zero, the loop is left before [df] is
    ever assigned, and the use of [df] after the loop raises
    [UnboundLocalError]: nothing is returned and nothing is saved. *)
Theorem first_page_without_data_raises P w count tok :
  valid_PARAMS P →
  read_page (server w (length (sent w))
               (timeline_request ACCOUNT_ID BEARER_TOKEN P))
    = Some (mkPage count None tok) →
  py_eq_int count 0 = false →
  ∃ out,
    get_most_recent_tweets_account ACCOUNT_ID BEARER_TOKEN P verbose save_file
      file_reference w
    = (Raise (UnboundLocalError "df"),
       (P, after_requests w [timeline_request ACCOUNT_ID BEARER_TOKEN P]
             out (fs w))).
Proof.
  apply (run_first_page_no_data ACCOUNT_ID BEARER_TOKEN verbose save_file
           file_reference).
Qed.


(** C9, as amended. Every entry of [PARAMS] other than the pagination
    token is the same after every call, whatever [PARAMS] and whatever
    the server answers, and a token that [PARAMS] held before the call
    is still there after it. When [PARAMS] pass the checks and the first
    page has records, a token and a result count that is not zero,
    [PARAMS] holds a pagination token when the call ends, however it
    ends, and a second call with this dict fails the check of line 146
    before any request. *)
Theorem PARAMS_keeps_pagination_token P w :
  let PARAMS' :=
    (get_most_recent_tweets_account ACCOUNT_ID BEARER_TOKEN P verbose save_file
       file_reference w).2.1 in
  (∀ k, k ≠ "pagination_token" → PARAMS' !! k = P !! k)
  ∧ (is_Some (P !! "pagination_token") →
     is_Some (PARAMS' !! "pagination_token"))
  ∧ ∀ count rows tok,
      valid_PARAMS P →
      read_page (server w (length (sent w))
                   (timeline_request ACCOUNT_ID BEARER_TOKEN P))
        = Some (mkPage count (Some rows) (Some tok)) →
      py_eq_int count 0 = false →
      is_Some (PARAMS' !! "pagination_token")
      ∧ ∀ w',
          get_most_recent_tweets_account ACCOUNT_ID BEARER_TOKEN PARAMS' verbose
            save_file file_reference w'
          = (Raise (NameError "ApiError"), (PARAMS', w')).
Proof.
  cbn zeta.
  destruct (pagination_routine_general ACCOUNT_ID BEARER_TOKEN verbose save_file
              file_reference (P, w)) as ((_ & _ & Hsame & Hstays) & _).
  split; [exact Hsame|]. split; [exact Hstays|].
  intros count rows tok Hvalid Hpage Hcount.
  assert (Htok : is_Some ((get_most_recent_tweets_account ACCOUNT_ID BEARER_TOKEN
                             P verbose save_file file_reference w).2.1
                          !! "pagination_token")).
  { destruct (run_continuing ACCOUNT_ID BEARER_TOKEN verbose save_file
                file_reference [(count, rows, tok)] P w Hvalid)
      as (out & df' & Hrun & _); [cbn; lia | | ].
    { cbn. split_and!; [exact Hpage | | done].
      unfold first_empty. by rewrite Hcount. }
    rewrite Hrun.
    match goal with
    | |- context [(?m ≫= ?k) ?s] =>
        destruct (loop_and_after_general ACCOUNT_ID BEARER_TOKEN verbose
                    save_file file_reference (33 - 1) 1 df' s)
          as ((_ & _ & _ & Hkeep) & _)
    end.
    apply Hkeep. cbn. rewrite lookup_insert_eq. eauto. }
  split; [exact Htok|].
  intros w'. rewrite run_invalid_PARAMS by (by left).
  unfold rejection. destruct Htok as [t ->]. reflexivity.
Qed.

End Claims.

(** C6, as amended. For a handle [h] of letters, digits and underscores
    that is not empty, the resolver does on [@h] exactly what it does on
    [h]: the same request, the same sleep, the same result. *)
Theorem leading_at_has_no_effect BEARER_TOKEN h w :
  h ≠ "" →
  all_chars is_word h = true →
  look_up_twitter_acount_id BEARER_TOKEN ("@" +:+ h) w
  = look_up_twitter_acount_id BEARER_TOKEN h w.
Proof.
  intros Hne Hword. destruct h as [|c rest]; [done|].
  apply look_up_at. by eapply all_chars_word_not_at.
Qed.

(** C7. For the files that [glob] lists under [data/], the driver reads
    a reference off every file name and keeps, of the handles of the
    input, those that are neither empty nor among these references: a
    handle that is the reference of an existing file is not in the list
    that the loop of line 322 goes through. The reference is the part
    of the file name before the date marker [_2021]: a file named
    [data/<h>_2021<rest>], with no slash in [h] and [rest] and no
    [_2021] in [h], is read as [h], and when there is such a file [h]
    is not downloaded again. *)
Theorem downloaded_handles_are_skipped links csv_files :
  Forall (λ f, ∃ name, f = "data/" +:+ name) csv_files →
  ∃ downloaded usernames,
    map_res downloaded_username csv_files = Ok downloaded
    ∧ ALL_USERNAMES links csv_files = Ok usernames
    ∧ (∀ f h, f ∈ csv_files → downloaded_username f = Ok h → h ∉ usernames)
    ∧ ("" ∉ usernames)
    ∧ (∀ u, u ∈ usernames ↔
            u ∈ map extract_username_from_url links
            ∧ (u ∉ downloaded) ∧ u ≠ "")
    ∧ NoDup usernames
    ∧ (∀ h rest,
         occurs "/" h = false →
         occurs "_2021" h = false →
         occurs "/" rest = false →
         downloaded_username ("data/" +:+ h +:+ "_2021" +:+ rest) = Ok h
         ∧ ("data/" +:+ h +:+ "_2021" +:+ rest ∈ csv_files →
            h ∈ downloaded ∧ h ∉ usernames)).
Proof.
  intros Hglob.
  destruct (map_res_ok downloaded_username csv_files) as (downloaded & Hmap & Hin).
  { eapply Forall_impl; [exact Hglob|]. intros f [name ->].
    apply downloaded_username_data. }
  exists downloaded. eexists. unfold ALL_USERNAMES. rewrite Hmap.
  split_and!; [done | reflexivity | | | | | ].
  - intros f h Hf Hh [[Hnot _] _]%list_elem_of_filter. apply Hnot. by eapply Hin.
  - by intros [[_ ?] _]%list_elem_of_filter.
  - intros u. rewrite list_elem_of_filter, elem_of_unique.
    split; [intros [[? ?] [? _]]; done | intros (? & ? & ?)].
    split_and!; [done | done | done | ]. by intros ?%elem_of_nil.
  - apply NoDup_filter, NoDup_unique.
  - intros h rest Hh Hyear Hrest.
    pose proof (downloaded_username_cut h rest Hh Hyear Hrest) as Hcut.
    split; [exact Hcut|]. intros Hfile.
    assert (Hd : h ∈ downloaded) by (by eapply Hin).
    split; [exact Hd|]. by intros [[Hnot _] _]%list_elem_of_filter.
Qed.

(** C8. On the empty handle the resolver raises [IndexError] at
    [user_name[0]], with no request made, although the empty string
    passes the pattern of line 74. *)
Theorem empty_handle_raises_IndexError BEARER_TOKEN w :
  look_up_twitter_acount_id BEARER_TOKEN "" w = (Raise IndexError, w)
  ∧ re_match_user_name "" = true.
Proof. split; reflexivity. Qed.

(** C10. The name [ApiError] is bound neither in the module nor among
    the builtins, so each of the five [raise ApiError(...)] statements
    ends in a [NameError]: on a malformed handle, on a lookup that is
    not answered by a 200, on [PARAMS] with a pagination token, on
    [PARAMS] without a [max_results] of 100, and on a timeline request
    that is not answered by a 200. Neither function ever raises an
    instance of a class of the program. *)
Theorem ApiError_is_not_defined :
  name_bound "ApiError" = false
  ∧ (∀ T user_name w,
       user_name ≠ "" →
       re_match_user_name (without_at user_name) = false →
       look_up_twitter_acount_id T user_name w
       = (Raise (NameError "ApiError"), w))
  ∧ (∀ T user_name w,
       user_name ≠ "" →
       re_match_user_name (without_at user_name) = true →
       status_code (server w (length (sent w))
                      (lookup_request T (without_at user_name))) ≠ 200%Z →
       (look_up_twitter_acount_id T user_name w).1
       = Raise (NameError "ApiError"))
  ∧ (∀ A T v s ref P w,
       is_Some (P !! "pagination_token") →
       get_most_recent_tweets_account A T P v s ref w
       = (Raise (NameError "ApiError"), (P, w)))
  ∧ (∀ A T v s ref P w,
       P !! "pagination_token" = None →
       P !! "max_results" = None
       ∨ (∃ x n, P !! "max_results" = Some x ∧ py_int x = Ok n ∧ n ≠ 100%Z) →
       get_most_recent_tweets_account A T P v s ref w
       = (Raise (NameError "ApiError"), (P, w)))
  ∧ (∀ A T v s ref P w pages,
       valid_PARAMS P →
       length pages < 32 →
       continuing A T (server w) 0 (length (sent w)) P pages →
       status_code (server w (length (sent w) + length pages)
                      (timeline_request A T (PARAMS_after P pages))) ≠ 200%Z →
       (get_most_recent_tweets_account A T P v s ref w).1
       = Raise (NameError "ApiError"))
  ∧ (∀ T user_name w class msg,
       (look_up_twitter_acount_id T user_name w).1 ≠ Raise (Raised class msg))
  ∧ (∀ A T v s ref P w class msg,
       (get_most_recent_tweets_account A T P v s ref w).1
       ≠ Raise (Raised class msg)).
Proof.
  split_and!.
  - reflexivity.
  - intros. by apply look_up_malformed.
  - intros T user_name w Hne Hre Hst. by rewrite look_up_bad_status.
  - intros A T v s ref P w [t Ht].
    rewrite run_invalid_PARAMS by (left; eauto).
    unfold rejection. by rewrite Ht.
  - intros A T v s ref P w Htok Hmax.
    rewrite run_invalid_PARAMS.
    + unfold rejection. rewrite Htok.
      destruct Hmax as [-> | (x & n & -> & -> & _)]; reflexivity.
    + right. destruct Hmax as [? | (x & n & ? & Hx & ?)]; [by left | right].
      exists x. split; [done|]. rewrite Hx. congruence.
  - intros A T v s ref P w pages Hvalid Hlt Hpages Hst.
    destruct (run_bad_status A T v s ref pages P w Hvalid Hlt Hpages Hst)
      as [out ->]. reflexivity.
  - intros T user_name w class msg He.
    destruct (holds_look_up_twitter_acount_id T user_name w) as [_ HE].
    exact (HE _ He).
  - intros A T v s ref P w class msg He.
    destruct (pagination_routine_general A T v s ref (P, w)) as (_ & _ & HE).
    exact (HE _ He).
Qed.

Lemma valid_study_PARAMS : valid_PARAMS study_PARAMS.
Proof. split; [reflexivity | exists (VStr "100"); split; reflexivity]. Qed.

(** C2 at work: 32 requests to the endless timeline. *)
Lemma at_most_32_requests_witness :
  ∃ out,
    get_most_recent_tweets_account "37963496" "TOKEN" study_PARAMS true true
      "nhsuk" (example_world endless)
    = (Ok (rows_of endless_pages),
       (PARAMS_after study_PARAMS endless_pages,
        after_requests (example_world endless)
          (requests_of "37963496" "TOKEN" study_PARAMS endless_pages) out
          (<["data/nhsuk_2021-11-30_12:00:00.csv" := Csv (rows_of endless_pages)]> ∅)))
    ∧ length (requests_of "37963496" "TOKEN" study_PARAMS endless_pages) = 32.
Proof.
  apply (proj2 (at_most_32_requests "37963496" "TOKEN" true true "nhsuk"
                  study_PARAMS (example_world endless)) endless_pages).
  - exact valid_study_PARAMS.
  - reflexivity.
  - unfold endless_pages. cbn [replicate continuing].
    repeat (split; [reflexivity | split; [reflexivity | ]]). exact I.
Defined.

(** C3 at work: an account without tweets. *)
Lemma empty_first_page_returns_empty_frame_witness :
  ∃ out,
    get_most_recent_tweets_account "37963496" "TOKEN" study_PARAMS true true
      "nhsuk" (example_world no_tweets)
    = (Ok [],
       (study_PARAMS,
        after_requests (example_world no_tweets)
          [timeline_request "37963496" "TOKEN" study_PARAMS] out
          (<["data/nhsuk_2021_empty.csv" := Text ""]> ∅))).
Proof.
  destruct (empty_first_page_returns_empty_frame "37963496" "TOKEN" true true
              "nhsuk" study_PARAMS (example_world no_tweets)
              (mkPage (VInt 0) None None))
    as (out & files & Hrun & -> & _).
  - exact valid_study_PARAMS.
  - reflexivity.
  - reflexivity.
  - exists out. exact Hrun.
Defined.

(** C4 at its failing input: a first page that counts one result and
    has no record list. *)
Lemma first_page_without_data_raises_witness :
  ∃ out,
    get_most_recent_tweets_account "37963496" "TOKEN" study_PARAMS true true
      "nhsuk" (example_world count_without_data)
    = (Raise (UnboundLocalError "df"),
       (study_PARAMS,
        after_requests (example_world count_without_data)
          [timeline_request "37963496" "TOKEN" study_PARAMS] out ∅)).
Proof.
  apply (first_page_without_data_raises "37963496" "TOKEN" true true "nhsuk"
           study_PARAMS (example_world count_without_data) (VInt 1) None).
  - exact valid_study_PARAMS.
  - reflexivity.
  - reflexivity.
Defined.


(** C6, as stated, fails on the empty handle: [@] alone is looked up
    (and refused by the server), the empty handle raises [IndexError]
    before any request. *)
Lemma at_sign_alone_is_looked_up :
  all_chars is_word "" = true
  ∧ look_up_twitter_acount_id "TOKEN" "" (example_world lookup_server)
    = (Raise IndexError, example_world lookup_server)
  ∧ look_up_twitter_acount_id "TOKEN" ("@" +:+ "") (example_world lookup_server)
    = (Raise (NameError "ApiError"),
       mkWorld lookup_server "2021-11-30_12:00:00"
         [lookup_request "TOKEN" ""] [3%Z] [] ∅).
Proof. split_and!; reflexivity. Qed.

(** C6 at work: [@nhsuk] and [nhsuk]. *)
Lemma leading_at_has_no_effect_witness :
  look_up_twitter_acount_id "TOKEN" ("@" +:+ "nhsuk") (example_world lookup_server)
  = look_up_twitter_acount_id "TOKEN" "nhsuk" (example_world lookup_server).
Proof.
  apply (leading_at_has_no_effect "TOKEN" "nhsuk" (example_world lookup_server)).
  - discriminate.
  - reflexivity.
Defined.

(** C7 at work: two files in [data/], four links. The references read
    off the files are [CDCgov] and [WHO]; of the handles [nhsuk],
    [CDCgov], [nhsuk] and the empty one, only [nhsuk] is left, once. *)
Lemma downloaded_handles_are_skipped_witness :
  let links := ["https://twitter.com/nhsuk"; "https://twitter.com/CDCgov";
                "http://www.twitter.com/nhsuk/"; "https://twitter.com/"] in
  let csv_files := ["data/CDCgov_2021-11-30_12:00:00.csv";
                    "data/WHO_2021_empty.csv"] in
  map extract_username_from_url links = ["nhsuk"; "CDCgov"; "nhsuk"; ""]
  ∧ map_res downloaded_username csv_files = Ok ["CDCgov"; "WHO"]
  ∧ ALL_USERNAMES links csv_files = Ok ["nhsuk"]
  ∧ (∀ f h, f ∈ csv_files → downloaded_username f = Ok h → h ∉ ["nhsuk"])
  ∧ ("" ∉ ["nhsuk"])
  ∧ (∀ u, u ∈ ["nhsuk"] ↔
          u ∈ map extract_username_from_url links
          ∧ (u ∉ ["CDCgov"; "WHO"]) ∧ u ≠ "")
  ∧ NoDup ["nhsuk"]
  ∧ downloaded_username ("data/" +:+ "CDCgov" +:+ "_2021" +:+ "-11-30_12:00:00.csv")
    = Ok "CDCgov"
  ∧ downloaded_username ("data/" +:+ "WHO" +:+ "_2021" +:+ "_empty.csv") = Ok "WHO"
  ∧ ("CDCgov" ∈ ["CDCgov"; "WHO"] ∧ "CDCgov" ∉ ["nhsuk"]).
Proof.
  intros links csv_files.
  destruct (downloaded_handles_are_skipped links csv_files)
    as (downloaded & usernames & Hmap & Hall & Hskip & Hempty & Hiff & Hnodup & Hcut).
  { repeat constructor; eexists; reflexivity. }
  assert (Hd : map_res downloaded_username csv_files = Ok ["CDCgov"; "WHO"])
    by reflexivity.
  assert (Hu : ALL_USERNAMES links csv_files = Ok ["nhsuk"]) by reflexivity.
  rewrite Hd in Hmap. injection Hmap as <-.
  rewrite Hu in Hall. injection Hall as <-.
  destruct (Hcut "CDCgov" "-11-30_12:00:00.csv") as [Hcdc Hcdc'];
    [reflexivity | reflexivity | reflexivity | ].
  destruct (Hcut "WHO" "_empty.csv") as [Hwho _];
    [reflexivity | reflexivity | reflexivity | ].
  do 9 (split; [first [reflexivity | exact Hd | exact Hu | exact Hskip
                         | exact Hempty | exact Hiff | exact Hnodup
                         | exact Hcdc | exact Hwho] | ]).
  apply Hcdc'. apply list_elem_of_here.
Defined.

(** C9, as stated, fails when the first page counts no result and still
    has a token: the page is fetched, the call returns, and [PARAMS]
    holds no pagination token. *)
Lemma token_of_an_empty_first_page_is_dropped :
  valid_PARAMS study_PARAMS
  ∧ (∃ pg,
       fetched_page (example_world no_tweets_but_token)
         (get_most_recent_tweets_account "37963496" "TOKEN" study_PARAMS
            true true "nhsuk" (example_world no_tweets_but_token)).2.2 pg
       ∧ next_token pg = Some (VStr "7140w"))
  ∧ (get_most_recent_tweets_account "37963496" "TOKEN" study_PARAMS
       true true "nhsuk" (example_world no_tweets_but_token)).1 = Ok []
  ∧ (get_most_recent_tweets_account "37963496" "TOKEN" study_PARAMS
       true true "nhsuk" (example_world no_tweets_but_token)).2.1
      !! "pagination_token" = None.
Proof.
  split; [exact valid_study_PARAMS|].
  destruct (run_empty "37963496" "TOKEN" true true "nhsuk"
              (mkPage (VInt 0) None (Some (VStr "7140w"))) study_PARAMS
              (example_world no_tweets_but_token) valid_study_PARAMS
              eq_refl eq_refl) as [out ->].
  cbn [fst snd]. split_and!; [ | reflexivity | reflexivity].
  exists (mkPage (VInt 0) None (Some (VStr "7140w"))). split; [|reflexivity].
  exists 0, (timeline_request "37963496" "TOKEN" study_PARAMS).
  split_and!; [cbn; lia | reflexivity | reflexivity].
Qed.

(** C9 at work: after the two pages, [PARAMS] holds the token. *)
Lemma PARAMS_keeps_pagination_token_witness :
  let PARAMS' :=
    (get_most_recent_tweets_account "37963496" "TOKEN" study_PARAMS true true
       "nhsuk" (example_world two_pages)).2.1 in
  is_Some (PARAMS' !! "pagination_token")
  ∧ (∀ k, k ≠ "pagination_token" → PARAMS' !! k = study_PARAMS !! k)
  ∧ ∀ w',
      get_most_recent_tweets_account "37963496" "TOKEN" PARAMS' true true
        "nhsuk" w'
      = (Raise (NameError "ApiError"), (PARAMS', w')).
Proof.
  destruct (PARAMS_keeps_pagination_token "37963496" "TOKEN" true true "nhsuk"
              study_PARAMS (example_world two_pages)) as (Hsame & _ & Htoken).
  destruct (Htoken (VInt 2) [tweet_row "3" "c" 0; tweet_row "2" "b" 5]
              (VStr "7140w")) as [Hset Hsecond].
  - exact valid_study_PARAMS.
  - vm_compute. reflexivity.
  - reflexivity.
  - split_and!; [exact Hset | exact Hsame | exact Hsecond].
Defined.

(** C10 at work: the handle [foo-bar!] and a [PARAMS] with a token. *)
Lemma ApiError_is_not_defined_witness :
  look_up_twitter_acount_id "TOKEN" "foo-bar!" (example_world lookup_server)
  = (Raise (NameError "ApiError"), example_world lookup_server)
  ∧ get_most_recent_tweets_account "37963496" "TOKEN"
      (<["pagination_token" := VStr "7140w"]> study_PARAMS) true true "nhsuk"
      (example_world two_pages)
    = (Raise (NameError "ApiError"),
       (<["pagination_token" := VStr "7140w"]> study_PARAMS,
        example_world two_pages)).
Proof.
  destruct ApiError_is_not_defined as (_ & Hhandle & _ & Htoken & _).
  split.
  - apply Hhandle; [discriminate | reflexivity].
  - apply Htoken. exists (VStr "7140w"). reflexivity.
Defined.

(** * Further properties *)

(** ** [extract_username_from_url] *)

Lemma permitted_is_word c : permitted c = true → is_word c = true.
Proof. destruct c as [[] [] [] [] [] [] [] []]; by vm_compute. Qed.

Lemma re_match_all_word s : all_chars is_word s = true → re_match_user_name s = true.
Proof.
  induction s as [|c s IH]; [done|]. cbn [all_chars re_match_user_name].
  intros [Hc Hs]%andb_prop. rewrite Hc. destruct s; [done|]. by apply IH.
Qed.

Lemma without_at_word s : all_chars is_word s = true → without_at s = s.
Proof.
  destruct s as [|c s]; [done|]. intros H.
  apply all_chars_word_not_at in H.
  destruct c as [[] [] [] [] [] [] [] []]; try reflexivity. done.
Qed.

Lemma extract_username_permitted text :
  all_chars permitted (extract_username_from_url text) = true.
Proof. apply all_chars_string_filter. Qed.

(** X1. Whatever the text, the handle that [extract_username_from_url]
    returns consists of permitted characters only; it therefore passes
    the pattern of the resolver (line 74) and has no leading [@] for
    lines 69-70 to strip. *)
Theorem extract_username_is_a_handle text :
  let u := extract_username_from_url text in
  all_chars permitted u = true
  ∧ re_match_user_name u = true
  ∧ without_at u = u.
Proof.
  cbn zeta. pose proof (extract_username_permitted text) as H.
  assert (Hw : all_chars is_word (extract_username_from_url text) = true)
    by (eapply all_chars_impl; [apply permitted_is_word | exact H]).
  split_and!; [done | by apply re_match_all_word | by apply without_at_word].
Qed.

(** X2. A text of permitted characters only, a bare handle, is returned
    as it is: there is no [twitter.com/] to cut at, no slash, and nothing
    to filter. *)
Theorem bare_handle_is_kept h :
  all_chars permitted h = true → extract_username_from_url h = h.
Proof.
  intros Hh. unfold extract_username_from_url.
  rewrite (str_split_none "twitter.com/" h).
  2:{ apply misses_nil; [done|]. by eapply (occurs_all_chars permitted). }
  cbn [List.last].
  rewrite (str_split_none "/" h).
  2:{ apply misses_nil; [done|]. by eapply (occurs_all_chars permitted). }
  cbn [List.hd]. by apply string_filter_all.
Qed.

Lemma bare_handle_is_kept_witness :
  all_chars permitted "Foo_Bar9" = true
  ∧ extract_username_from_url "Foo_Bar9" = "Foo_Bar9".
Proof.
  split; [reflexivity|]. apply (bare_handle_is_kept "Foo_Bar9"). reflexivity.
Defined.

(** X3. From a link that has [twitter.com/] once, followed by a handle
    of permitted characters and then by the end of the text or by a
    slash and anything, the handle is recovered, whatever stands before
    the domain. *)
Theorem extract_username_of_profile_url front h tail :
  occurs "twitter.com/" front = false →
  all_chars permitted h = true →
  tail = "" ∨ (∃ rest, tail = "/" +:+ rest) →
  occurs "twitter.com/" (h +:+ tail) = false →
  extract_username_from_url (front +:+ "twitter.com/" +:+ h +:+ tail) = h.
Proof.
  intros Hfront Hh Htail Hlast. unfold extract_username_from_url.
  rewrite str_split_first by (done || by apply misses_unbordered).
  rewrite last_cons_nonempty by apply str_split_nonempty.
  rewrite (str_split_none "twitter.com/") by (by apply misses_nil).
  cbn [List.last].
  assert (Hslash : occurs "/" h = false) by (by eapply (occurs_all_chars permitted)).
  destruct Htail as [-> | [rest ->]].
  - rewrite string_app_nil_r, (str_split_none "/") by (by apply misses_nil).
    by apply string_filter_all.
  - rewrite str_split_first by (done || by apply misses_unbordered).
    by apply string_filter_all.
Qed.

Lemma extract_username_of_profile_url_witness :
  extract_username_from_url
    ("https://www." +:+ "twitter.com/" +:+ "Foo_Bar9" +:+ "/status/1")
  = "Foo_Bar9".
Proof.
  apply (extract_username_of_profile_url "https://www." "Foo_Bar9" "/status/1").
  - reflexivity.
  - reflexivity.
  - right. exists "status/1". reflexivity.
  - reflexivity.
Defined.

(** ** The file names and the rule of line 318 *)

Lemma downloaded_username_saved h stamp :
  occurs "/" h = false →
  occurs "_2021" h = false →
  String.prefix "2021" stamp = true →
  occurs "/" stamp = false →
  downloaded_username ("data/" +:+ h +:+ "_" +:+ stamp +:+ ".csv") = Ok h.
Proof.
  intros Hslash Hyear [r ->]%prefix_inv Hstamp.
  change ("_" +:+ ("2021" +:+ r) +:+ ".csv") with ("_2021" +:+ (r +:+ ".csv")).
  apply downloaded_username_cut; [done | done | ].
  rewrite occurs_char_app in Hstamp. apply orb_false_elim in Hstamp as [_ Hr].
  by rewrite occurs_char_app, Hr.
Qed.

(** X4. The files that the routine writes for a reference [h], the
    timestamped file of line 219 when the clock reads a date of 2021 and
    the marker of line 183, are read back as [h] by the rule of line
    318, provided that [h] has no slash and no [_2021] of its own. *)
Theorem saved_file_is_recognised h stamp :
  occurs "/" h = false →
  occurs "_2021" h = false →
  String.prefix "2021" stamp = true →
  occurs "/" stamp = false →
  downloaded_username ("data/" +:+ h +:+ "_" +:+ stamp +:+ ".csv") = Ok h.
Proof. apply downloaded_username_saved. Qed.

Lemma saved_file_is_recognised_witness :
  downloaded_username
    ("data/" +:+ "CDCgov" +:+ "_" +:+ "2021-11-30_12:00:00" +:+ ".csv")
  = Ok "CDCgov"
  ∧ downloaded_username ("data/" +:+ "WHO" +:+ "_" +:+ "2021_empty" +:+ ".csv")
    = Ok "WHO".
Proof.
  split.
  - apply (saved_file_is_recognised "CDCgov" "2021-11-30_12:00:00"); reflexivity.
  - apply (saved_file_is_recognised "WHO" "2021_empty"); reflexivity.
Defined.

(** X5. A file name without [_2021], as line 219 makes it when the
    clock reads another year, is read back whole by the rule of line
    318, and not as its reference: the account is not recognised as
    downloaded. *)
Theorem file_without_the_year_is_not_recognised h stamp :
  occurs "/" h = false →
  occurs "/" stamp = false →
  occurs "_2021" (h +:+ "_" +:+ stamp +:+ ".csv") = false →
  ∃ name,
    downloaded_username ("data/" +:+ h +:+ "_" +:+ stamp +:+ ".csv") = Ok name
    ∧ name = h +:+ "_" +:+ stamp +:+ ".csv"
    ∧ name ≠ h.
Proof.
  intros Hslash Hstamp Hyear. eexists. split_and!; [|reflexivity|].
  - unfold downloaded_username. rewrite str_split_data.
    rewrite (str_split_none "/").
    2:{ apply misses_nil; [done|].
        rewrite occurs_char_app, Hslash.
        change ("_" +:+ stamp +:+ ".csv") with ("_" +:+ (stamp +:+ ".csv")).
        rewrite occurs_char_app, occurs_char_app, Hstamp. reflexivity. }
    cbn [nth_error].
    rewrite (str_split_none "_2021") by (by apply misses_nil).
    reflexivity.
  - by apply string_app_neq_l.
Qed.

Lemma file_without_the_year_is_not_recognised_witness :
  ∃ name,
    downloaded_username
      ("data/" +:+ "CDCgov" +:+ "_" +:+ "2022-01-05_09:30:00" +:+ ".csv")
    = Ok name
    ∧ name = "CDCgov" +:+ "_" +:+ "2022-01-05_09:30:00" +:+ ".csv"
    ∧ name ≠ "CDCgov".
Proof.
  apply (file_without_the_year_is_not_recognised "CDCgov" "2022-01-05_09:30:00");
    reflexivity.
Defined.



(** ** The selection of line 319 *)

Lemma unique_sublist l : ∀ seen, unique seen l `sublist_of` l.
Proof.
  induction l as [|x l IH]; intros seen; cbn; [done|].
  case_bool_decide; [by apply sublist_cons | by apply sublist_skip].
Qed.

(** X7. The handles that the loop of line 322 goes through stand in the
    order of the links of the input: they are a subsequence of the
    handles extracted from the links. *)
Theorem handles_keep_the_input_order links csv_files usernames :
  ALL_USERNAMES links csv_files = Ok usernames →
  usernames `sublist_of` map extract_username_from_url links.
Proof.
  unfold ALL_USERNAMES. destruct (map_res downloaded_username csv_files); [|done].
  intros [= <-]. etrans; [apply sublist_filter | apply unique_sublist].
Qed.

Lemma handles_keep_the_input_order_witness :
  ["nhsuk"; "WHO"]
  `sublist_of` map extract_username_from_url
                 ["https://twitter.com/nhsuk"; "https://twitter.com/CDCgov";
                  "@WHO"; "https://twitter.com/nhsuk/"].
Proof.
  apply (handles_keep_the_input_order _ ["data/CDCgov_2021-11-30_12:00:00.csv"]).
  reflexivity.
Defined.

(** ** The handle resolver on a well-formed handle *)

Lemma first_character c rest :
  (if String.eqb (String c "") "@" then str_from_1 (String c rest) else String c rest)
  = without_at (String c rest).
Proof.
  destruct (Ascii.eqb_spec c "@"%char) as [->|Hc]; [reflexivity|].
  replace (String.eqb (String c "") "@") with false
    by (symmetry; apply String.eqb_neq; congruence).
  destruct c as [[] [] [] [] [] [] [] []]; try reflexivity. done.
Qed.

(** Up to the sleep of line 81. *)
Lemma look_up_request BEARER_TOKEN user_name w :
  user_name ≠ "" →
  re_match_user_name (without_at user_name) = true →
  look_up_twitter_acount_id BEARER_TOKEN user_name w
  = read_id (server w (length (sent w))
               (lookup_request BEARER_TOKEN (without_at user_name)))
      (after_lookup w BEARER_TOKEN (without_at user_name)).
Proof.
  intros Hne Hre. destruct user_name as [|c rest]; [done|].
  unfold look_up_twitter_acount_id.
  rewrite (run_bind_ok (lift (str_index (String c rest) 0)) _ w w (String c ""))
    by reflexivity.
  cbv beta zeta. rewrite first_character, Hre. cbn [negb].
  mstep. mstep. mstep. reflexivity.
Qed.

(** Reading the answer changes nothing. *)
Lemma read_id_pure req : holds eq python_exn (read_id req).
Proof. unfold read_id. repeat holds_step. Qed.

Lemma look_up_world BEARER_TOKEN user_name w :
  user_name ≠ "" →
  re_match_user_name (without_at user_name) = true →
  (look_up_twitter_acount_id BEARER_TOKEN user_name w).2
  = after_lookup w BEARER_TOKEN (without_at user_name).
Proof.
  intros Hne Hre. rewrite look_up_request by done.
  by destruct (read_id_pure
                 (server w (length (sent w))
                    (lookup_request BEARER_TOKEN (without_at user_name)))
                 (after_lookup w BEARER_TOKEN (without_at user_name))) as [<- _].
Qed.

(** A lookup that returns was made for a well-formed handle. *)
Lemma look_up_ok BEARER_TOKEN user_name w v :
  (look_up_twitter_acount_id BEARER_TOKEN user_name w).1 = Ok v →
  user_name ≠ "" ∧ re_match_user_name (without_at user_name) = true
  ∧ (look_up_twitter_acount_id BEARER_TOKEN user_name w).2
    = after_lookup w BEARER_TOKEN (without_at user_name).
Proof.
  intros H.
  assert (Hne : user_name ≠ "") by (by intros ->).
  destruct (re_match_user_name (without_at user_name)) eqn:Hre.
  - split_and!; [done | done | by apply look_up_world].
  - by rewrite look_up_malformed in H.
Qed.

(** X8. On a handle that is not empty and passes the pattern, the
    resolver sends exactly one request, for the handle without its [@],
    and sleeps three seconds after it, whatever the server answers and
    whether the call returns or raises; it prints nothing and touches no
    file. *)
Theorem look_up_sends_one_request BEARER_TOKEN user_name w :
  user_name ≠ "" →
  re_match_user_name (without_at user_name) = true →
  (look_up_twitter_acount_id BEARER_TOKEN user_name w).2
  = after_lookup w BEARER_TOKEN (without_at user_name).
Proof. apply look_up_world. Qed.

Lemma look_up_sends_one_request_witness :
  (look_up_twitter_acount_id "TOKEN" "@nhsuk" (example_world lookup_server)).2
  = after_lookup (example_world lookup_server) "TOKEN" "nhsuk".
Proof.
  apply (look_up_sends_one_request "TOKEN" "@nhsuk" (example_world lookup_server)).
  - discriminate.
  - reflexivity.
Defined.

(** X9. When the lookup is answered by a 200 whose body is an object
    with a list [data] that starts with an object holding an [id], the
    resolver returns that [id]: the first entry counts, whatever
    follows it. *)
Theorem look_up_returns_first_id BEARER_TOKEN user_name w page entry others id :
  user_name ≠ "" →
  re_match_user_name (without_at user_name) = true →
  let req := server w (length (sent w))
               (lookup_request BEARER_TOKEN (without_at user_name)) in
  status_code req = 200%Z →
  content req = Some (VDict page) →
  dict_get "data" page = Some (VList (VDict entry :: others)) →
  dict_get "id" entry = Some id →
  look_up_twitter_acount_id BEARER_TOKEN user_name w
  = (Ok id, after_lookup w BEARER_TOKEN (without_at user_name)).
Proof.
  intros Hne Hre req Hst Hc Hd Hid. rewrite look_up_request by done.
  fold req. unfold read_id. rewrite Hst, Hc. cbn [Z.eqb Pos.eqb negb].
  mrun. reflexivity.
Qed.

Lemma look_up_returns_first_id_witness :
  look_up_twitter_acount_id "TOKEN" "nhsuk" (example_world lookup_server)
  = (Ok (VStr "37963496"),
     after_lookup (example_world lookup_server) "TOKEN" "nhsuk").
Proof.
  eapply (look_up_returns_first_id "TOKEN" "nhsuk" (example_world lookup_server)).
  - discriminate.
  - reflexivity.
  - reflexivity.
  - reflexivity.
  - reflexivity.
  - reflexivity.
Defined.



Lemma re_match_trailing_newline h :
  all_chars is_word h = true →
  re_match_user_name (h +:+ String newline "") = true.
Proof.
  induction h as [|c h IH]; [done|]. rewrite string_app_cons.
  cbn [all_chars re_match_user_name]. intros [Hc Hh]%andb_prop. rewrite Hc.
  destruct h; [done|]. by apply IH.
Qed.

Lemma without_at_trailing_newline h :
  all_chars is_word h = true →
  without_at (h +:+ String newline "") = h +:+ String newline "".
Proof.
  destruct h as [|c h]; [done|]. intros H. rewrite string_app_cons.
  apply all_chars_word_not_at in H.
  destruct c as [[] [] [] [] [] [] [] []]; try reflexivity. done.
Qed.

(** X11. The pattern of line 74 lets a handle with one line feed at its
    end through, since [$] also matches before a final line feed: the
    lookup is made for the handle with the line feed in it. *)
Theorem trailing_newline_passes_the_check BEARER_TOKEN h w :
  all_chars is_word h = true →
  let user_name := h +:+ String newline "" in
  (look_up_twitter_acount_id BEARER_TOKEN user_name w).2
  = after_lookup w BEARER_TOKEN user_name.
Proof.
  intros Hh user_name. subst user_name.
  rewrite <- (without_at_trailing_newline h) at 2 by done.
  apply look_up_world.
  - by destruct h.
  - rewrite without_at_trailing_newline by done. by apply re_match_trailing_newline.
Qed.

Lemma trailing_newline_passes_the_check_witness :
  (look_up_twitter_acount_id "TOKEN" ("nhsuk" +:+ String newline "")
     (example_world lookup_server)).2
  = after_lookup (example_world lookup_server) "TOKEN"
      ("nhsuk" +:+ String newline "").
Proof.
  apply (trailing_newline_passes_the_check "TOKEN" "nhsuk"
           (example_world lookup_server)).
  reflexivity.
Defined.

(** X12. Every handle that the loop of line 322 goes through is not
    empty and consists of permitted characters, so the resolver makes
    its request for it, as it stands: neither the [IndexError] of line
    69 nor the check of line 74 can end a lookup of the batch. *)
Theorem driver_handles_are_looked_up links csv_files usernames u BEARER_TOKEN w :
  ALL_USERNAMES links csv_files = Ok usernames →
  u ∈ usernames →
  u ≠ "" ∧ all_chars permitted u = true
  ∧ (look_up_twitter_acount_id BEARER_TOKEN u w).2 = after_lookup w BEARER_TOKEN u.
Proof.
  unfold ALL_USERNAMES. destruct (map_res downloaded_username csv_files); [|done].
  intros [= <-] [[_ Hne] [Hu _]%elem_of_unique]%list_elem_of_filter.
  apply list_elem_of_In, in_map_iff in Hu as (text & <- & _).
  pose proof (extract_username_permitted text) as Hp.
  assert (Hw : all_chars is_word (extract_username_from_url text) = true)
    by (eapply all_chars_impl; [apply permitted_is_word | exact Hp]).
  split_and!; [done | done | ].
  rewrite <- (without_at_word (extract_username_from_url text)) at 2 by done.
  apply look_up_world; [done|].
  rewrite without_at_word by done. by apply re_match_all_word.
Qed.

Lemma driver_handles_are_looked_up_witness :
  "nhsuk" ≠ "" ∧ all_chars permitted "nhsuk" = true
  ∧ (look_up_twitter_acount_id "TOKEN" "nhsuk" (example_world lookup_server)).2
    = after_lookup (example_world lookup_server) "TOKEN" "nhsuk".
Proof.
  apply (driver_handles_are_looked_up
           ["https://twitter.com/nhsuk"; "https://twitter.com/CDCgov"]
           ["data/CDCgov_2021-11-30_12:00:00.csv"] ["nhsuk"]).
  - reflexivity.
  - left.
Defined.

(** ** What a call of the pagination routine does to the world *)

#[local] Instance calm_preorder v s ref : PreOrder (calm v s ref).
Proof.
  split.
  - intros w. unfold calm. split_and!; auto.
  - intros w1 w2 w3 (? & ? & ? & ? & Ho & Hf & Hp & Hm)
      (? & ? & ? & ? & Ho' & Hf' & Hp' & Hm').
    unfold calm. split_and!; try congruence.
    + intros ? ?. rewrite Ho', Ho; auto.
    + intros ?. rewrite Hf', Hf; auto.
    + intros path ?. rewrite Hp', Hp; auto.
    + auto.
Qed.

#[local] Instance calm_frame_preorder v s ref : PreOrder (calm_frame v s ref).
Proof.
  split.
  - intros x. split; reflexivity.
  - intros x y z [? ?] [? ?]. split; by etrans.
Qed.

#[local] Instance paginating_preorder A T v s ref : PreOrder (paginating A T v s ref).
Proof.
  split.
  - intros x. unfold paginating. split_and!; try reflexivity; auto.
    exists []. by rewrite !app_nil_r.
  - intros x y z (Hs & (r1 & Hsent & Hslept & Hall) & Ho & Hf & Hp & Hm)
      (Hs' & (r2 & Hsent' & Hslept' & Hall') & Ho' & Hf' & Hp' & Hm').
    unfold paginating. split_and!.
    + by etrans.
    + exists (r1 ++ r2).
      rewrite Hsent', Hsent, Hslept', Hslept, fmap_app, <- !app_assoc.
      split_and!; [done | done | ].
      apply Forall_app. split; [done|].
      eapply Forall_impl; [exact Hall'|]. intros r (? & ? & Hq).
      split_and!; [done | done | ]. intros k Hk. rewrite Hq by done.
      by apply Hs.
    + intros ? ?. rewrite Ho', Ho; auto.
    + intros ?. rewrite Hf', Hf; auto.
    + intros path ?. rewrite Hp', Hp; auto.
    + auto.
Qed.

Lemma calm_frame_paginating A T v s ref x y :
  calm_frame v s ref x y → paginating A T v s ref x y.
Proof.
  intros [Hs (? & ? & Hsent & Hslept & ? & ? & ? & ?)].
  unfold paginating. split_and!; auto.
  exists []. rewrite !app_nil_r. split_and!; [congruence | congruence | done].
Qed.

Lemma holds_when_guard {S} (R : S → S → Prop) E `{!PreOrder R}
    (b : bool) (m : M S unit) :
  (b = true → holds R E m) → holds R E (when b m).
Proof. destruct b; [auto | intros _; by apply holds_ret]. Qed.

Section Calm.

Variables (verbose save_file : bool) (file_reference : string).

#[local] Abbreviation still := (calm verbose save_file file_reference).
#[local] Abbreviation still_frame := (calm_frame verbose save_file file_reference).

Lemma calm_print line :
  verbose = true ∨ save_file = true → holds still python_exn (print line).
Proof.
  intros H w. split; [|cbn; congruence].
  unfold calm. cbn. split_and!; try done.
  intros -> ->. by destruct H.
Qed.

Lemma calm_strftime_now : holds still python_exn strftime_now.
Proof. intros w. split; [reflexivity | cbn; congruence]. Qed.

Lemma calm_open_append_close stamp :
  save_file = true →
  holds still python_exn
    (open_append_close ("data/" +:+ file_reference +:+ "_" +:+ stamp +:+ ".csv")).
Proof.
  intros Hs w. split; [|cbn; congruence].
  unfold calm. cbn. split_and!; try done.
  - by rewrite Hs.
  - intros path Hpath. case_match; [done|].
    rewrite lookup_insert_ne; [done|]. intros <-. apply Hpath. by exists stamp.
  - intros path Hsome. case_match; [done|].
    destruct (decide (path = "data/" +:+ file_reference +:+ "_" +:+ stamp +:+ ".csv"))
      as [->|Hne]; [by rewrite lookup_insert_eq | by rewrite lookup_insert_ne].
Qed.

Lemma calm_to_csv df stamp :
  save_file = true →
  holds still python_exn
    (to_csv df ("data/" +:+ file_reference +:+ "_" +:+ stamp +:+ ".csv")).
Proof.
  intros Hs w. split; [|cbn; congruence].
  unfold calm. cbn. split_and!; try done.
  - by rewrite Hs.
  - intros path Hpath.
    rewrite lookup_insert_ne; [done|]. intros <-. apply Hpath. by exists stamp.
  - intros path Hsome.
    destruct (decide (path = "data/" +:+ file_reference +:+ "_" +:+ stamp +:+ ".csv"))
      as [->|Hne]; [by rewrite lookup_insert_eq | by rewrite lookup_insert_ne].
Qed.

Lemma calm_in_world {A} (m : M World A) :
  holds still python_exn m → holds still_frame python_exn (in_world m).
Proof.
  intros Hm [P w]. destruct (Hm w) as [Hc HE].
  unfold in_world. destruct (m w) as [r w']. cbn in *.
  split; [|done]. split; [|done].
  destruct Hc as (? & ? & _). unfold steady. cbn. split_and!; auto.
Qed.

Lemma calm_PARAMS_read : holds still_frame python_exn PARAMS_read.
Proof. intros [P w]. split; [reflexivity | cbn; congruence]. Qed.

Lemma calm_PARAMS_setitem v :
  holds still_frame python_exn (PARAMS_setitem "pagination_token" v).
Proof.
  intros [P w]. destruct (holds_PARAMS_setitem v (P, w)) as [[Hs _] HE].
  split; [|done]. split; [done | reflexivity].
Qed.

End Calm.

Ltac calm_step :=
  first
    [ apply holds_bind; [ apply _ | | intros ? ]
    | apply holds_ret; apply _
    | apply holds_when_guard; [ apply _ | intros ? ]
    | apply calm_in_world
    | apply holds_raise_ApiError; [ apply _ | exact I ]
    | apply holds_lift; [ apply _ | eauto with pyexn ]
    | apply calm_print; auto
    | apply (calm_open_append_close _ _ _ "2021_empty"); assumption
    | apply calm_to_csv; assumption
    | apply calm_strftime_now
    | apply calm_PARAMS_read | apply calm_PARAMS_setitem
    | match goal with
      | |- holds _ _ (if ?b then _ else _) => destruct b
      | |- holds _ _ (match ?x with _ => _ end) => destruct x
      end ].

Lemma bind_ok_inv {S A B} (m : M S A) (k : A → M S B) s b s'' :
  (m ≫= k) s = (Ok b, s'') → ∃ a s', m s = (Ok a, s') ∧ k a s' = (Ok b, s'').
Proof.
  unfold mbind, M_bind. destruct (m s) as [[a|e] s']; [eauto | done].
Qed.

Section Effects.

Variables (ACCOUNT_ID BEARER_TOKEN : string).
Variables (verbose save_file : bool) (file_reference : string).

#[local] Abbreviation body :=
  (process ACCOUNT_ID verbose save_file file_reference).
#[local] Abbreviation pass :=
  (iteration ACCOUNT_ID BEARER_TOKEN verbose save_file file_reference).
#[local] Abbreviation loop :=
  (while_loop ACCOUNT_ID BEARER_TOKEN verbose save_file file_reference).
#[local] Abbreviation request :=
  (timeline_request ACCOUNT_ID BEARER_TOKEN).
#[local] Abbreviation requests :=
  (requests_of ACCOUNT_ID BEARER_TOKEN).
#[local] Abbreviation goes_on :=
  (continuing ACCOUNT_ID BEARER_TOKEN).
#[local] Abbreviation still_frame :=
  (calm_frame verbose save_file file_reference).
#[local] Abbreviation run_of :=
  (paginating ACCOUNT_ID BEARER_TOKEN verbose save_file file_reference).
#[local] Abbreviation run P w :=
  (get_most_recent_tweets_account ACCOUNT_ID BEARER_TOKEN P verbose save_file
     file_reference w).

Lemma calm_check_PARAMS : holds still_frame python_exn check_PARAMS.
Proof. unfold check_PARAMS. repeat calm_step. Qed.

Lemma calm_after_loop df :
  holds (calm verbose save_file file_reference) python_exn
    (after_loop verbose save_file file_reference df).
Proof. unfold after_loop. repeat calm_step. Qed.

(** After its sleep, the loop body is calm. *)
Lemma process_effect req rc df P w :
  still_frame
    (P, mkWorld (server w) (now w) (sent w) (slept w ++ [1%Z]) (stdout w) (fs w))
    (body req rc df (P, w)).2.
Proof.
  unfold process.
  erewrite run_bind_ok by reflexivity.
  match goal with
  | |- _ ?s ((?m ?s).2) =>
      enough (holds still_frame python_exn m) as H by apply (H s)
  end.
  repeat calm_step.
Qed.

Lemma iteration_effect rc df s : run_of s (pass rc df s).2.
Proof.
  destruct s as [P w]. rewrite iteration_process.
  etrans; [|apply calm_frame_paginating, process_effect].
  unfold paginating; cbn. split_and!; try reflexivity; auto.
  - unfold steady; cbn. split_and!; auto.
  - exists [request P]. split_and!; [done | done |].
    constructor; [|done]. done.
Qed.

Lemma while_loop_effect fuel : ∀ rc df s, run_of s (loop fuel rc df s).2.
Proof.
  induction fuel as [|fuel IH]; intros rc df s; [reflexivity|].
  cbn [while_loop]. destruct (Nat.ltb rc 32); [|reflexivity].
  unfold mbind, M_bind.
  pose proof (iteration_effect rc df s) as Hpass.
  destruct (pass rc df s) as [[[result|df1|df1]|e] s1]; cbn [fst snd] in *; try done.
  etrans; [exact Hpass | apply IH].
Qed.

Lemma loop_and_after_effect fuel rc df s :
  run_of s
    ((loop fuel rc df ≫= λ r,
        match r with
        | inl result => mret result
        | inr df => in_world (after_loop verbose save_file file_reference df)
        end) s).2.
Proof.
  unfold mbind, M_bind.
  pose proof (while_loop_effect fuel rc df s) as Hloop.
  destruct (loop fuel rc df s) as [[[result|df1]|e] s1]; cbn [fst snd] in *;
    [done | | done].
  etrans; [exact Hloop|].
  apply calm_frame_paginating, (calm_in_world _ _ _ _ (calm_after_loop df1)).
Qed.

Lemma pagination_routine_effect s :
  run_of s (pagination_routine ACCOUNT_ID BEARER_TOKEN verbose save_file
              file_reference s).2.
Proof.
  unfold pagination_routine. unfold mbind at 1, M_bind at 1.
  pose proof (calm_frame_paginating ACCOUNT_ID BEARER_TOKEN _ _ _ _ _
                (proj1 (calm_check_PARAMS s))) as Hcheck.
  destruct (check_PARAMS s) as [[[]|e] s0]; cbn [fst snd] in *; [|done].
  etrans; [exact Hcheck | apply loop_and_after_effect].
Qed.

(** With [PARAMS] that pass the checks the first request is made, and it
    carries [PARAMS] as they are. *)
Lemma first_request P w :
  valid_PARAMS P →
  ∃ rest, sent (run P w).2.2 = sent w ++ request P :: rest.
Proof.
  intros Hvalid. unfold get_most_recent_tweets_account, pagination_routine.
  erewrite run_bind_ok by (apply check_PARAMS_valid; exact Hvalid).
  unfold mbind at 1, M_bind at 1.
  rewrite while_loop_unfold by lia.
  unfold mbind at 1, M_bind at 1.
  destruct (iteration_general ACCOUNT_ID BEARER_TOKEN verbose save_file
              file_reference 0 None P w) as (_ & Hsent & _).
  cbn zeta in Hsent.
  destruct (pass 0 None (P, w)) as [[[result|df1|df1]|e] s1]; cbn [fst snd] in *.
  - exists []. exact Hsent.
  - exists []. unfold mret, M_ret.
    destruct (calm_in_world _ _ _ _ (calm_after_loop df1) s1)
      as [[_ (_ & _ & Hs & _)] _].
    etrans; [exact Hs | exact Hsent].
  - destruct (loop_and_after_effect 32 1 df1 s1) as (_ & (reqs & Hs & _) & _).
    exists reqs. etrans; [exact Hs|]. by rewrite Hsent, <- app_assoc.
  - exists []. exact Hsent.
Qed.




End Effects.

Section Saved.

Variables (ACCOUNT_ID BEARER_TOKEN : string).
Variables (verbose : bool) (file_reference : string).

#[local] Abbreviation body :=
  (process ACCOUNT_ID verbose true file_reference).
#[local] Abbreviation pass :=
  (iteration ACCOUNT_ID BEARER_TOKEN verbose true file_reference).
#[local] Abbreviation loop :=
  (while_loop ACCOUNT_ID BEARER_TOKEN verbose true file_reference).

(** A [return] from inside the loop leaves the marker file. *)
Lemma process_return req rc df s result s' :
  body req rc df s = (Ok (Return result), s') →
  result = [] ∧ is_Some (fs s'.2 !! empty_marker file_reference).
Proof.
  unfold process. intros H.
  repeat match type of H with
         | (_ ≫= _) _ = (Ok _, _) =>
             let a := fresh "a" in
             let s1 := fresh "s" in
             let Hm := fresh "Hm" in
             apply bind_ok_inv in H as (a & s1 & Hm & H); cbv beta in H
         | (if ?b then _ else _) _ = _ => revert H; destruct b; intros H
         end;
    try (unfold mret, M_ret in H; discriminate H).
  unfold mret, M_ret in H. injection H as <- <-. split; [done|].
  match goal with
  | Hm : in_world (when true _) ?x = (Ok _, ?y) |- context [?y] =>
      destruct x as [P w]; cbn in Hm; injection Hm as _ <-
  end.
  cbn. unfold empty_marker.
  destruct (fs w !! _) eqn:E; [by rewrite E | rewrite lookup_insert_eq; eauto].
Qed.

Lemma while_loop_return fuel : ∀ rc df s result s',
  loop fuel rc df s = (Ok (inl result), s') →
  result = [] ∧ is_Some (fs s'.2 !! empty_marker file_reference).
Proof.
  induction fuel as [|fuel IH]; intros rc df s result s' H; [done|].
  cbn [while_loop] in H. destruct (Nat.ltb rc 32); [|done].
  apply bind_ok_inv in H as (c & s1 & Hpass & H).
  destruct c as [r|df1|df1]; [ | done | by eapply IH].
  injection H as <- <-. destruct s as [P w].
  rewrite iteration_process in Hpass. by eapply process_return.
Qed.

(** A call that saves and returns leaves the timestamped file with the
    frame it returns, or returns the empty frame and leaves the
    marker. *)
Lemma saved_after_return PARAMS w d PARAMS' w' :
  get_most_recent_tweets_account ACCOUNT_ID BEARER_TOKEN PARAMS verbose true
    file_reference w = (Ok d, (PARAMS', w')) →
  fs w' !! timestamped file_reference w = Some (Csv d)
  ∨ (d = [] ∧ is_Some (fs w' !! empty_marker file_reference)).
Proof.
  unfold get_most_recent_tweets_account, pagination_routine. intros H.
  apply bind_ok_inv in H as ([] & s0 & Hcheck & H).
  apply bind_ok_inv in H as (r & [P1 w1] & Hloop & H).
  destruct r as [result|df1].
  - injection H as <- <- <-. right. by eapply (while_loop_return _ _ _ _ _ (P1, w1)).
  - left.
    assert (Hnow : now w1 = now w).
    { destruct (holds_check_PARAMS (PARAMS, w)) as [[(_ & Hn0 & _) _] _].
      destruct (while_loop_general ACCOUNT_ID BEARER_TOKEN verbose true
                  file_reference 33 0 None s0) as ((_ & Hn1 & _) & _).
      rewrite Hcheck in Hn0. rewrite Hloop in Hn1. cbn in Hn0, Hn1. congruence. }
    unfold in_world in H.
    destruct df1 as [d1|].
    + destruct (after_loop_assigned verbose true file_reference (Some d1) d1 w1
                  eq_refl) as [out Hafter].
      rewrite Hafter in H. injection H as <- <- <-. cbn.
      unfold timestamped. rewrite Hnow. by rewrite lookup_insert_eq.
    + destruct (after_loop_unassigned verbose true file_reference None w1
                  eq_refl) as [out Hafter].
      rewrite Hafter in H. done.
Qed.

End Saved.

Section Further.

Variables (ACCOUNT_ID BEARER_TOKEN : string).
Variables (verbose save_file : bool) (file_reference : string).

(** X13. Whatever [PARAMS] and whatever the server answers: every
    request of a call goes to the timeline of the account, with the
    bearer token and with the entries of [PARAMS] other than the
    pagination token as they were given; each request is followed by
    one sleep of one second, and the call sleeps at no other time.
    With [PARAMS] that pass the checks at least one request is made, and
    the first carries [PARAMS] as they are. *)
Theorem requests_of_a_call P w :
  let w' := (get_most_recent_tweets_account ACCOUNT_ID BEARER_TOKEN P verbose
               save_file file_reference w).2.2 in
  ∃ reqs,
    sent w' = sent w ++ reqs
    ∧ slept w' = slept w ++ ((fun _ => 1%Z) <$> reqs)
    ∧ Forall (fun r => url r = timeline_url ACCOUNT_ID
                       ∧ authorization r = bearer BEARER_TOKEN
                       ∧ ∀ k, k ≠ "pagination_token" → query r !! k = P !! k)
        reqs
    ∧ (valid_PARAMS P →
       ∃ rest, reqs = timeline_request ACCOUNT_ID BEARER_TOKEN P :: rest).
Proof.
  destruct (pagination_routine_effect ACCOUNT_ID BEARER_TOKEN verbose save_file
              file_reference (P, w)) as (_ & (reqs & Hsent & Hslept & Hall) & _).
  cbn zeta. exists reqs. split_and!; [done | done | done | ].
  intros Hvalid.
  destruct (first_request ACCOUNT_ID BEARER_TOKEN verbose save_file
              file_reference P w Hvalid) as [rest Hrest].
  exists rest. apply (app_inv_head (sent w)). etrans; [symmetry; exact Hsent|].
  exact Hrest.
Qed.

(** X14. Whatever [PARAMS] and whatever the server answers: a call that
    is not asked to save leaves the file system as it is; a call that is
    asked to save creates or changes only files named
    [data/<reference>_<stamp>.csv]; and no call removes a file. *)
Theorem files_of_a_call P w :
  let w' := (get_most_recent_tweets_account ACCOUNT_ID BEARER_TOKEN P verbose
               save_file file_reference w).2.2 in
  (save_file = false → fs w' = fs w)
  ∧ (∀ path, ¬ output_file file_reference path → fs w' !! path = fs w !! path)
  ∧ (∀ path, is_Some (fs w !! path) → is_Some (fs w' !! path)).
Proof.
  destruct (pagination_routine_effect ACCOUNT_ID BEARER_TOKEN verbose save_file
              file_reference (P, w)) as (_ & _ & _ & ? & ? & ?).
  done.
Qed.

(** X15. When the first [k - 1 ≥ 1] pages have records and a token and
    page [k ≤ 32] has no record list, the call makes [k] requests and
    returns the rows of the [k - 1] pages, and saves them if asked to;
    nothing of page [k] is in the frame. *)
Theorem later_page_without_data_ends_run pages count tok P w :
  valid_PARAMS P →
  pages ≠ [] →
  length pages < 32 →
  continuing ACCOUNT_ID BEARER_TOKEN (server w) 0 (length (sent w)) P pages →
  read_page (server w (length (sent w) + length pages)
               (timeline_request ACCOUNT_ID BEARER_TOKEN (PARAMS_after P pages)))
    = Some (mkPage count None tok) →
  ∃ out,
    get_most_recent_tweets_account ACCOUNT_ID BEARER_TOKEN P verbose save_file
      file_reference w
    = (Ok (rows_of pages),
       (PARAMS_after P pages,
        after_requests w
          (requests_of ACCOUNT_ID BEARER_TOKEN P pages
           ++ [timeline_request ACCOUNT_ID BEARER_TOKEN (PARAMS_after P pages)])
          out
          (if save_file
           then <[timestamped file_reference w := Csv (rows_of pages)]> (fs w)
           else fs w))).
Proof.
  apply (run_no_data ACCOUNT_ID BEARER_TOKEN verbose save_file file_reference).
Qed.

(** X16. When a request that follows [k - 1] pages with records and a
    token is answered by another status than 200, the call raises after
    the sleep that follows this request; the rows of the [k - 1] pages
    are neither returned nor saved, the file system is as before the
    call, and [PARAMS] holds the token of page [k - 1]. *)
Theorem failed_request_loses_the_rows pages P w :
  valid_PARAMS P →
  length pages < 32 →
  continuing ACCOUNT_ID BEARER_TOKEN (server w) 0 (length (sent w)) P pages →
  status_code (server w (length (sent w) + length pages)
                 (timeline_request ACCOUNT_ID BEARER_TOKEN (PARAMS_after P pages)))
    ≠ 200%Z →
  ∃ out,
    get_most_recent_tweets_account ACCOUNT_ID BEARER_TOKEN P verbose save_file
      file_reference w
    = (Raise (NameError "ApiError"),
       (PARAMS_after P pages,
        after_requests w
          (requests_of ACCOUNT_ID BEARER_TOKEN P pages
           ++ [timeline_request ACCOUNT_ID BEARER_TOKEN (PARAMS_after P pages)])
          out (fs w))).
Proof.
  apply (run_bad_status ACCOUNT_ID BEARER_TOKEN verbose save_file file_reference).
Qed.


End Further.

(** X18. A call that is asked neither to print nor to save prints
    nothing, whatever [PARAMS] and whatever the server answers. *)
Theorem silent_call_prints_nothing ACCOUNT_ID BEARER_TOKEN file_reference P w :
  stdout (get_most_recent_tweets_account ACCOUNT_ID BEARER_TOKEN P false false
            file_reference w).2.2
  = stdout w.
Proof.
  destruct (pagination_routine_effect ACCOUNT_ID BEARER_TOKEN false false
              file_reference (P, w)) as (_ & _ & Hout & _).
  by apply Hout.
Qed.

(** X19. When a call that is asked to save returns a frame, the
    timestamped file holds exactly this frame, or the frame is empty and
    the marker file exists: what is on disk is what was returned. *)
Theorem saved_file_holds_the_result
    ACCOUNT_ID BEARER_TOKEN verbose file_reference P w d :
  let call := get_most_recent_tweets_account ACCOUNT_ID BEARER_TOKEN P verbose
                true file_reference w in
  call.1 = Ok d →
  fs call.2.2 !! timestamped file_reference w = Some (Csv d)
  ∨ (d = [] ∧ is_Some (fs call.2.2 !! empty_marker file_reference)).
Proof.
  intros call H. subst call.
  destruct (get_most_recent_tweets_account _ _ _ _ _ _ _) as [r [P' w']] eqn:E.
  cbn [fst snd] in *. subst r. by eapply saved_after_return.
Qed.

Lemma saved_file_holds_the_result_witness :
  ∃ d,
    (get_most_recent_tweets_account "37963496" "TOKEN" study_PARAMS true true
       "nhsuk" (example_world two_pages)).1 = Ok d
    ∧ (fs (get_most_recent_tweets_account "37963496" "TOKEN" study_PARAMS true
             true "nhsuk" (example_world two_pages)).2.2
         !! timestamped "nhsuk" (example_world two_pages) = Some (Csv d)
       ∨ (d = []
          ∧ is_Some (fs (get_most_recent_tweets_account "37963496" "TOKEN"
                           study_PARAMS true true "nhsuk"
                           (example_world two_pages)).2.2
                     !! empty_marker "nhsuk"))).
Proof.
  assert (H : (get_most_recent_tweets_account "37963496" "TOKEN" study_PARAMS
                 true true "nhsuk" (example_world two_pages)).1
              = Ok [tweet_row "3" "c" 0; tweet_row "2" "b" 5; tweet_row "1" "a" 1]).
  { destruct (run_last_page "37963496" "TOKEN" true true "nhsuk"
                [(VInt 2, [tweet_row "3" "c" 0; tweet_row "2" "b" 5], VStr "7140w")]
                (VInt 1) [tweet_row "1" "a" 1] study_PARAMS
                (example_world two_pages)) as [out ->];
      [ exact valid_study_PARAMS | cbn; lia
      | cbn [continuing]; split;
          [vm_compute; reflexivity | split; [reflexivity | exact I]]
      | vm_compute; reflexivity | reflexivity | reflexivity ]. }
  eexists. split; [exact H|].
  exact (saved_file_holds_the_result "37963496" "TOKEN" true "nhsuk" study_PARAMS
           (example_world two_pages) _ H).
Defined.

Lemma later_page_without_data_ends_run_witness :
  ∃ out,
    get_most_recent_tweets_account "37963496" "TOKEN" study_PARAMS true true
      "nhsuk" (example_world meta_only_second)
    = (Ok [tweet_row "3" "c" 0; tweet_row "2" "b" 5],
       (<["pagination_token" := VStr "7140w"]> study_PARAMS,
        after_requests (example_world meta_only_second)
          [timeline_request "37963496" "TOKEN" study_PARAMS;
           timeline_request "37963496" "TOKEN"
             (<["pagination_token" := VStr "7140w"]> study_PARAMS)]
          out
          (<["data/nhsuk_2021-11-30_12:00:00.csv" :=
               Csv [tweet_row "3" "c" 0; tweet_row "2" "b" 5]]> ∅))).
Proof.
  apply (later_page_without_data_ends_run "37963496" "TOKEN" true true "nhsuk"
           [(VInt 2, [tweet_row "3" "c" 0; tweet_row "2" "b" 5], VStr "7140w")]
           (VInt 0) None study_PARAMS (example_world meta_only_second)).
  - exact valid_study_PARAMS.
  - discriminate.
  - cbn. lia.
  - cbn [continuing]. split; [vm_compute; reflexivity | split; [reflexivity | exact I]].
  - vm_compute. reflexivity.
Defined.

Lemma failed_request_loses_the_rows_witness :
  ∃ out,
    get_most_recent_tweets_account "37963496" "TOKEN" study_PARAMS true true
      "nhsuk" (example_world rate_limited)
    = (Raise (NameError "ApiError"),
       (<["pagination_token" := VStr "7140w"]> study_PARAMS,
        after_requests (example_world rate_limited)
          [timeline_request "37963496" "TOKEN" study_PARAMS;
           timeline_request "37963496" "TOKEN"
             (<["pagination_token" := VStr "7140w"]> study_PARAMS)]
          out ∅)).
Proof.
  apply (failed_request_loses_the_rows "37963496" "TOKEN" true true "nhsuk"
           [(VInt 2, [tweet_row "3" "c" 0; tweet_row "2" "b" 5], VStr "7140w")]
           study_PARAMS (example_world rate_limited)).
  - exact valid_study_PARAMS.
  - cbn. lia.
  - cbn [continuing]. split; [vm_compute; reflexivity | split; [reflexivity | exact I]].
  - vm_compute. discriminate.
Defined.


(** ** The token file *)

Lemma str_lstrip_spaces pad s :
  all_chars py_isspace pad = true → str_lstrip (pad +:+ s) = str_lstrip s.
Proof.
  induction pad as [|c pad IH]; [done|]. rewrite string_app_cons. cbn.
  intros [-> ?]%andb_prop. by apply IH.
Qed.

Lemma str_lstrip_no_space s : all_chars no_space s = true → str_lstrip s = s.
Proof.
  destruct s as [|c s]; [done|]. cbn. unfold no_space.
  intros [Hc _]%andb_prop. apply negb_true_iff in Hc. by rewrite Hc.
Qed.

Lemma str_lstrip_no_space_app t s :
  t ≠ "" → all_chars no_space t = true → str_lstrip (t +:+ s) = t +:+ s.
Proof.
  destruct t as [|c t]; [done|]. intros _. rewrite string_app_cons. cbn.
  unfold no_space.
  intros [Hc _]%andb_prop. apply negb_true_iff in Hc. by rewrite Hc.
Qed.

Lemma str_lstrip_all_space s : all_chars py_isspace s = true → str_lstrip s = "".
Proof.
  intros H. rewrite <- (string_app_nil_r s). by rewrite str_lstrip_spaces.
Qed.

(** [strip] takes the white space off both ends. *)
Lemma str_strip_padded pad1 t pad2 :
  all_chars py_isspace pad1 = true →
  all_chars no_space t = true →
  all_chars py_isspace pad2 = true →
  str_strip (pad1 +:+ t +:+ pad2) = t.
Proof.
  intros H1 Ht H2. unfold str_strip. rewrite str_lstrip_spaces by done.
  destruct (decide (t = "")) as [->|Hne].
  - change ("" +:+ pad2) with pad2. by rewrite (str_lstrip_all_space pad2).
  - rewrite str_lstrip_no_space_app by done.
    rewrite string_rev_onto_app, (string_rev_onto_acc pad2).
    rewrite str_lstrip_spaces by (by rewrite all_chars_rev_onto, H2).
    rewrite str_lstrip_no_space by (by rewrite all_chars_rev_onto, Ht).
    by rewrite string_rev_onto_twice, string_app_nil_r.
Qed.

Lemma first_line_end line tail :
  all_chars (fun c => negb (is_line_break c)) line = true →
  tail = "" ∨ (∃ c rest, tail = String c rest ∧ is_line_break c = true) →
  first_line (line +:+ tail)
  = line +:+ (if decide (tail = "") then "" else String newline "").
Proof.
  intros Hline Htail. induction line as [|c line IH].
  - destruct Htail as [->|(c & rest & -> & Hc)]; [done|].
    change ("" +:+ String c rest) with (String c rest).
    cbn [first_line]. rewrite Hc. by destruct (decide _).
  - rewrite !string_app_cons. cbn [first_line all_chars] in *.
    apply andb_prop in Hline as [Hc Hline].
    apply negb_true_iff in Hc. rewrite Hc, IH by done. reflexivity.
Qed.

Lemma blank_space c : blank c = true → py_isspace c = true.
Proof. unfold blank. by intros [? _]%andb_prop. Qed.

Lemma blank_no_break c : blank c = true → negb (is_line_break c) = true.
Proof. unfold blank. by intros [_ ?]%andb_prop. Qed.

Lemma no_space_no_break c : no_space c = true → negb (is_line_break c) = true.
Proof. destruct c as [[] [] [] [] [] [] [] []]; by vm_compute. Qed.

(** X20. The token is what stands on the first line of the file,
    without the white space around it: for a file that is not empty and
    starts with blanks, a token without white space, blanks, and then
    ends or goes on with a line break and anything, [read_bearer_token]
    returns the token. A first line of blanks only gives the empty
    token; the lines after the first are never read. *)
Theorem read_bearer_token_reads_the_first_line file_path w pad1 t pad2 tail :
  let text := pad1 +:+ t +:+ pad2 +:+ tail in
  fs w !! file_path = Some (Text text) →
  text ≠ "" →
  all_chars blank pad1 = true →
  all_chars no_space t = true →
  all_chars blank pad2 = true →
  tail = "" ∨ (∃ c rest, tail = String c rest ∧ is_line_break c = true) →
  read_bearer_token file_path w = Some (Ok t).
Proof.
  intros text Hfile Hne H1 Ht H2 Htail. unfold read_bearer_token. rewrite Hfile.
  destruct text eqn:Htext; [done|]. rewrite <- Htext. subst text. do 2 f_equal.
  replace (pad1 +:+ t +:+ pad2 +:+ tail) with ((pad1 +:+ t +:+ pad2) +:+ tail)
    by (by rewrite !string_app_assoc).
  rewrite first_line_end; [|
    rewrite !all_chars_app;
    rewrite (all_chars_impl _ _ _ blank_no_break H1),
            (all_chars_impl _ _ _ no_space_no_break Ht),
            (all_chars_impl _ _ _ blank_no_break H2); done | done].
  rewrite !string_app_assoc.
  apply str_strip_padded; [by eapply all_chars_impl, H1; apply blank_space | done | ].
  rewrite all_chars_app, (all_chars_impl _ _ _ blank_space H2).
  by destruct (decide (tail = "")).
Qed.

Lemma read_bearer_token_reads_the_first_line_witness :
  read_bearer_token "bearer_token.txt"
    (mkWorld two_pages "2021-11-30_12:00:00" [] [] []
       (<["bearer_token.txt" :=
            Text (" " +:+ "AAAA%2Fx" +:+ " "
                  +:+ String newline "second line")]> ∅))
  = Some (Ok "AAAA%2Fx").
Proof.
  apply (read_bearer_token_reads_the_first_line "bearer_token.txt" _
           " " "AAAA%2Fx" " " (String newline "second line")).
  - reflexivity.
  - discriminate.
  - reflexivity.
  - reflexivity.
  - reflexivity.
  - right. eexists _, _. split; reflexivity.
Defined.

(** ** The wrapper *)

(** X21. With an empty token file the wrapper ends in the
    [UnboundLocalError] of line 32, before the lookup: no request is
    made and the world is as it was. *)
Theorem empty_token_file_stops_the_download
    token_file_path user_name verbose save_file w :
  fs w !! token_file_path = Some (Text "") →
  download_and_save_account_tweets token_file_path user_name verbose save_file w
  = Some (Raise (UnboundLocalError "BEARER_TOKEN"), w).
Proof.
  intros H. unfold download_and_save_account_tweets, read_bearer_token.
  by rewrite H.
Qed.

Lemma empty_token_file_stops_the_download_witness :
  download_and_save_account_tweets "bearer_token.txt" "nhsuk" true true
    (mkWorld study_server "2021-11-30_12:00:00" [] [] []
       (<["bearer_token.txt" := Text ""]> ∅))
  = Some (Raise (UnboundLocalError "BEARER_TOKEN"),
          mkWorld study_server "2021-11-30_12:00:00" [] [] []
            (<["bearer_token.txt" := Text ""]> ∅)).
Proof.
  apply (empty_token_file_stops_the_download "bearer_token.txt" "nhsuk" true true).
  reflexivity.
Defined.

(** X22. The requests of one account: when the token is read and the
    lookup returns a string, the wrapper sends the lookup and then
    between one and 32 timeline requests for the identifier that was
    looked up. The first timeline request carries the parameters of
    lines 271-297 and no pagination token, whatever an earlier call
    left in its own dict; the others differ from it in the pagination
    token only. The call sleeps three seconds after the lookup and one
    second after every timeline request. *)
Theorem download_requests token_file_path user_name verbose save_file w
    BEARER_TOKEN ACCOUNT_ID :
  read_bearer_token token_file_path w = Some (Ok BEARER_TOKEN) →
  (look_up_twitter_acount_id BEARER_TOKEN user_name w).1 = Ok (VStr ACCOUNT_ID) →
  ∃ df w' rest,
    download_and_save_account_tweets token_file_path user_name verbose save_file w
    = Some (df, w')
    ∧ sent w'
      = sent w ++ lookup_request BEARER_TOKEN (without_at user_name)
               :: timeline_request ACCOUNT_ID BEARER_TOKEN study_PARAMS :: rest
    ∧ slept w' = slept w ++ 3%Z :: 1%Z :: ((fun _ => 1%Z) <$> rest)
    ∧ length rest < 32
    ∧ Forall (fun r => url r = timeline_url ACCOUNT_ID
                       ∧ authorization r = bearer BEARER_TOKEN
                       ∧ ∀ k, k ≠ "pagination_token" →
                              query r !! k = study_PARAMS !! k) rest.
Proof.
  intros Htoken Hid. unfold download_and_save_account_tweets. rewrite Htoken.
  destruct (look_up_ok _ _ _ _ Hid) as (_ & _ & Hw1).
  destruct (look_up_twitter_acount_id BEARER_TOKEN user_name w) as [r w1].
  cbn [fst snd] in *. subst r w1. cbn [format_value].
  set (w1 := after_lookup w BEARER_TOKEN (without_at user_name)).
  destruct (pagination_routine_effect ACCOUNT_ID BEARER_TOKEN verbose save_file
              user_name (study_PARAMS, w1))
    as (_ & (reqs & Hsent & Hslept & Hall) & _).
  destruct (first_request ACCOUNT_ID BEARER_TOKEN verbose save_file user_name
              study_PARAMS w1 valid_study_PARAMS) as [rest Hfirst].
  destruct (pagination_routine_general ACCOUNT_ID BEARER_TOKEN verbose save_file
              user_name (study_PARAMS, w1)) as (_ & Hlen & _).
  unfold get_most_recent_tweets_account in *.
  destruct (pagination_routine ACCOUNT_ID BEARER_TOKEN verbose save_file user_name
              (study_PARAMS, w1)) as [df [P' w2]].
  cbn [fst snd] in *.
  assert (reqs = timeline_request ACCOUNT_ID BEARER_TOKEN study_PARAMS :: rest) as ->.
  { apply (app_inv_head (sent w1)). by rewrite <- Hsent. }
  exists df, w2, rest. split_and!.
  - reflexivity.
  - rewrite Hsent. subst w1. cbn. by rewrite <- app_assoc.
  - rewrite Hslept. subst w1. cbn. by rewrite <- app_assoc.
  - rewrite Hsent, length_app in Hlen. cbn in Hlen. lia.
  - by inversion Hall.
Qed.

Lemma download_requests_witness :
  ∃ df w' rest,
    download_and_save_account_tweets "bearer_token.txt" "@nhsuk" true true
      (batch_world study_server) = Some (df, w')
    ∧ sent w'
      = sent (batch_world study_server)
        ++ lookup_request "TOKEN" "nhsuk"
           :: timeline_request "37963496" "TOKEN" study_PARAMS :: rest
    ∧ slept w'
      = slept (batch_world study_server)
        ++ 3%Z :: 1%Z :: ((fun _ => 1%Z) <$> rest)
    ∧ length rest < 32
    ∧ Forall (fun r => url r = timeline_url "37963496"
                       ∧ authorization r = bearer "TOKEN"
                       ∧ ∀ k, k ≠ "pagination_token" →
                              query r !! k = study_PARAMS !! k) rest.
Proof.
  apply (download_requests "bearer_token.txt" "@nhsuk" true true
           (batch_world study_server) "TOKEN" "37963496").
  - reflexivity.
  - reflexivity.
Defined.

(** A download that returns has read a token, looked the handle up and
    run the pagination routine from the world after the lookup. *)
Lemma download_ok token_file_path user_name verbose save_file w df w' :
  download_and_save_account_tweets token_file_path user_name verbose save_file w
  = Some (Ok df, w') →
  ∃ BEARER_TOKEN v ACCOUNT_ID PARAMS',
    read_bearer_token token_file_path w = Some (Ok BEARER_TOKEN)
    ∧ (look_up_twitter_acount_id BEARER_TOKEN user_name w).1 = Ok v
    ∧ format_value v = Some ACCOUNT_ID
    ∧ get_most_recent_tweets_account ACCOUNT_ID BEARER_TOKEN study_PARAMS verbose
        save_file user_name (after_lookup w BEARER_TOKEN (without_at user_name))
      = (Ok df, (PARAMS', w')).
Proof.
  unfold download_and_save_account_tweets. intros H.
  destruct (read_bearer_token token_file_path w) as [[T|e]|]; [|done|done].
  destruct (look_up_twitter_acount_id T user_name w) as [[v|e] w1] eqn:Hlook;
    [|done].
  destruct (format_value v) as [id|] eqn:Hid; [|done].
  destruct (look_up_ok T user_name w v) as (_ & _ & Hw1); [by rewrite Hlook|].
  rewrite Hlook in Hw1. cbn in Hw1. subst w1.
  destruct (get_most_recent_tweets_account id T study_PARAMS verbose save_file
              user_name _) as [r [P' w2]] eqn:Hrun.
  injection H as -> ->. exists T, v, id, P'. by rewrite Hlook.
Qed.

(** ** [glob] and the rule of line 318 *)

Lemma ends_with_app x suffix : ends_with suffix (x +:+ suffix) = true.
Proof.
  unfold ends_with. rewrite string_length_app.
  replace (String.length x + String.length suffix - String.length suffix)
    with (String.length x) by lia.
  rewrite string_drop_app. apply String.eqb_refl.
Qed.

Lemma permitted_not_dot_start u rest :
  all_chars permitted u = true → String.prefix "." (u +:+ "_" +:+ rest) = false.
Proof.
  destruct u as [|c u]; [done|]. rewrite string_app_cons, prefix_cons.
  cbn [all_chars]. intros [Hc _]%andb_prop.
  destruct (Ascii.eqb_spec "." c) as [<-|]; [discriminate Hc | done].
Qed.

(** A file of the routine is listed by [glob] and read back as its
    reference, when its stamp starts with the year 2021. *)
Lemma output_file_listed u stamp w :
  all_chars permitted u = true →
  occurs "_2021" u = false →
  String.prefix "2021" stamp = true →
  occurs "/" stamp = false →
  let path := "data/" +:+ u +:+ "_" +:+ stamp +:+ ".csv" in
  is_Some (fs w !! path) →
  path ∈ glob_data_csv w ∧ downloaded_username path = Ok u.
Proof.
  intros Hu Hyear Hstamp Hslash path [f Hf].
  assert (Hus : occurs "/" u = false) by (by eapply (occurs_all_chars permitted)).
  split; [|by apply downloaded_username_saved].
  unfold glob_data_csv. apply list_elem_of_filter. split.
  - unfold is_data_csv, path. rewrite str_split_data.
    rewrite (str_split_none "/").
    2:{ apply misses_nil; [done|].
        rewrite occurs_char_app, Hus.
        change ("_" +:+ stamp +:+ ".csv") with ("_" +:+ (stamp +:+ ".csv")).
        rewrite occurs_char_app, occurs_char_app, Hslash. reflexivity. }
    cbn [String.eqb Ascii.eqb Bool.eqb andb].
    rewrite permitted_not_dot_start by done.
    replace (u +:+ "_" +:+ stamp +:+ ".csv") with ((u +:+ "_" +:+ stamp) +:+ ".csv")
      by (by rewrite !string_app_assoc).
    by rewrite ends_with_app.
  - apply list_elem_of_In, in_map_iff. exists (path, f). split; [done|].
    apply list_elem_of_In, elem_of_map_to_list. exact Hf.
Qed.

(** Line 318 never raises on what [glob] lists. *)
Lemma glob_data_csv_named w f :
  f ∈ glob_data_csv w → ∃ h, downloaded_username f = Ok h.
Proof.
  unfold glob_data_csv. intros [Hf _]%list_elem_of_filter.
  unfold is_data_csv in Hf. unfold downloaded_username.
  destruct (str_split "/" f) as [|dir [|name [|]]]; try done.
  cbn. eauto.
Qed.

Lemma listed_file_is_skipped links csv_files f u :
  Forall (λ f, ∃ h, downloaded_username f = Ok h) csv_files →
  f ∈ csv_files → downloaded_username f = Ok u →
  ∃ usernames, ALL_USERNAMES links csv_files = Ok usernames ∧ u ∉ usernames.
Proof.
  intros Hall Hf Hu.
  destruct (map_res_ok downloaded_username csv_files Hall)
    as (downloaded & Hmap & Hin).
  unfold ALL_USERNAMES. rewrite Hmap. eexists. split; [reflexivity|].
  intros [[Hnot _] _]%list_elem_of_filter. apply Hnot. by eapply Hin.
Qed.

(** X23. Resuming works in 2021: when the wrapper, asked to save,
    returns for a handle of permitted characters without [_2021] while
    the clock reads a date of 2021, then the file it left is listed by
    [glob], the selection of lines 318-319 succeeds on the files then
    present, whatever the links, and does not contain the handle: the
    next run of the batch skips this account. *)
Theorem finished_account_is_skipped token_file_path u verbose w df w' links :
  download_and_save_account_tweets token_file_path u verbose true w
  = Some (Ok df, w') →
  all_chars permitted u = true →
  occurs "_2021" u = false →
  String.prefix "2021" (now w) = true →
  occurs "/" (now w) = false →
  ∃ usernames,
    ALL_USERNAMES links (glob_data_csv w') = Ok usernames ∧ u ∉ usernames.
Proof.
  intros (T & v & id & P' & _ & _ & _ & Hrun)%download_ok Hu Hyear Hnow Hslash.
  apply saved_after_return in Hrun.
  assert (∃ path, path ∈ glob_data_csv w' ∧ downloaded_username path = Ok u)
    as (path & Hpath & Hname).
  { destruct Hrun as [Hfile | [_ Hfile]].
    - exists (timestamped u w). apply (output_file_listed u (now w) w'); try done.
    - exists (empty_marker u). by apply (output_file_listed u "2021_empty" w'). }
  eapply listed_file_is_skipped; [|exact Hpath|exact Hname].
  apply Forall_forall. intros f Hf. by eapply glob_data_csv_named.
Qed.

Lemma finished_account_is_skipped_witness :
  ∃ df w',
    download_and_save_account_tweets "bearer_token.txt" "nhsuk" true true
      (batch_world study_server) = Some (Ok df, w')
    ∧ ∃ usernames,
        ALL_USERNAMES ["https://twitter.com/nhsuk"; "https://twitter.com/CDCgov"]
          (glob_data_csv w') = Ok usernames
        ∧ "nhsuk" ∉ usernames.
Proof.
  destruct (download_and_save_account_tweets "bearer_token.txt" "nhsuk" true true
              (batch_world study_server)) as [[[df|e] w']|] eqn:E.
  - exists df, w'. split; [reflexivity|].
    apply (finished_account_is_skipped "bearer_token.txt" "nhsuk" true
             (batch_world study_server) df w' _ E); reflexivity.
  - vm_compute in E. discriminate.
  - vm_compute in E. discriminate.
Defined.

(** ** The batch loop *)

Lemma download_all_stops finished : ∀ user later w w1 e w2,
  download_all finished w = Some (Ok tt, w1) →
  download_and_save_account_tweets "bearer_token.txt" user true true
    (announced user w1) = Some (Raise e, w2) →
  download_all (finished ++ user :: later) w = Some (Raise e, w2).
Proof.
  induction finished as [|u finished IH]; intros user later w w1 e w2 Hdone Hfail.
  - injection Hdone as <-. cbn [app download_all]. fold (announced user w).
    by rewrite Hfail.
  - cbn [app download_all] in *. fold (announced u w) in *.
    destruct (download_and_save_account_tweets "bearer_token.txt" u true true
                (announced u w)) as [[[df|e'] w']|]; [|done|done].
    by eapply IH.
Qed.

(** X24. The batch stops at the first failure: when the downloads of
    the handles before [user] return and the download of [user] raises,
    the block ends with this exception in the world that this download
    left. Nothing is requested, printed or saved for the handles after
    [user]. *)
Theorem batch_stops_at_the_first_failure links w finished user later w1 e w2 :
  ALL_USERNAMES links (glob_data_csv w) = Ok (finished ++ user :: later) →
  download_all finished (counted (finished ++ user :: later) w)
  = Some (Ok tt, w1) →
  download_and_save_account_tweets "bearer_token.txt" user true true
    (announced user w1) = Some (Raise e, w2) →
  main links w = Some (Raise e, w2).
Proof.
  intros Hsel Hdone Hfail. unfold main. rewrite Hsel.
  by eapply download_all_stops.
Qed.

Lemma batch_stops_at_the_first_failure_witness :
  ∃ w2,
    main ["https://twitter.com/nhsuk"; "https://twitter.com/CDCgov";
          "https://twitter.com/WHO"] (batch_world study_server)
    = Some (Raise (NameError "ApiError"), w2)
    ∧ length (sent w2) = 4
    ∧ map url (sent w2)
      = [lookup_url "nhsuk"; timeline_url "37963496"; timeline_url "37963496";
         lookup_url "CDCgov"].
Proof.
  set (links := ["https://twitter.com/nhsuk"; "https://twitter.com/CDCgov";
                 "https://twitter.com/WHO"]).
  set (w := batch_world study_server).
  set (w1 := match download_all ["nhsuk"]
                     (counted (["nhsuk"] ++ "CDCgov" :: ["WHO"]) w) with
             | Some (_, w1) => w1
             | None => w
             end).
  eexists. split.
  - apply (batch_stops_at_the_first_failure links w ["nhsuk"] "CDCgov" ["WHO"] w1).
    + vm_compute. reflexivity.
    + vm_compute. reflexivity.
    + vm_compute. reflexivity.
  - split; vm_compute; reflexivity.
Defined.
